(** * VMD cost-savings analysis: a shallow embedding of [run_analysis.py]

    The script has two stages.  [generate_synthetic_data] builds three
    tables (patients, medication adherence, hospital admissions) from the
    module constants and from three ambient random sources (Python's
    [random], NumPy's [np.random] and a [Faker] instance).
    [run_analysis_and_export] runs two grouped SQL queries on the tables,
    derives three comparative figures and writes one JSON document.

    Conventions of the embedding:
    - Python [int] is [Z]; [str] is [string]; a list of dicts with a fixed
      set of keys is a list of records.
    - Python [float] is a type [F] with the operations of the class
      [PyFloat]; the functions are written once, for every [F].  The
      instance [Binary64.binary64] interprets them on IEEE 754 doubles, as
      CPython does; the instance [Q_float] interprets them on exact
      rationals and is the one used wherever a statement needs facts of
      arithmetic.
    - A Python exception is a value of [exn] carried by [result].
    - The threshold reaches the first SQL query as text (line 76); the
      number the SQL engine reads from that text is [real_literal] of the
      class [SqlReal].
    - The random sources are one state of type [rng], threaded explicitly
      through the generator ([Rand]).
    - The file [results.json] is a cell of the [filesystem] record that
      [run_analysis_and_export] threads. *)

From Stdlib Require Import List ZArith QArith Qround Qpower String Ascii Bool.
From Stdlib Require Import SpecFloat.
From Stdlib Require Import Permutation Sorted Lia Lqa.
Import ListNotations.
Open Scope Z_scope.

(** ** Exceptions *)

Inductive exn : Type :=
| ZeroDivisionError
| IndexError
| KeyError
| ValueError
| OverflowError.

Inductive result (A : Type) : Type :=
| Ok (a : A)
| Raise (e : exn).
Arguments Ok {A} a.
Arguments Raise {A} e.

Definition rbind {A B} (m : result A) (k : A -> result B) : result B :=
  match m with
  | Ok a => k a
  | Raise e => Raise e
  end.

Declare Scope result_scope.
Delimit Scope result_scope with result.
Notation "x <- m ;; k" := (rbind m (fun x => k))
  (at level 61, m at next level, right associativity) : result_scope.

(** A list comprehension whose element expression may raise. *)
Fixpoint comprehension {A B} (f : A -> result B) (l : list A) : result (list B) :=
  match l with
  | [] => Ok []
  | a :: l' =>
      (b <- f a ;;
       bs <- comprehension f l' ;;
       Ok (b :: bs))%result
  end.

(** [l[i]] on a Python list, for [i >= 0]. *)
Definition subscript {A} (l : list A) (i : nat) : result A :=
  match nth_error l i with
  | Some a => Ok a
  | None => Raise IndexError
  end.

(** ** Floating-point interface *)

Class PyFloat (F : Type) : Type := {
  (** [float(n)], the conversion applied to an [int] operand of a mixed
      operation *)
  float_of_int : Z -> F;
  (** the decimal literal [m * 10^-k], e.g. [0.8] is [float_of_decimal 8 1] *)
  float_of_decimal : Z -> Z -> F;
  fadd : F -> F -> F;
  fsub : F -> F -> F;
  fmul : F -> F -> F;
  (** [x / y] for a non-zero [y] *)
  fdiv : F -> F -> F;
  (** [a / b] on two [int]s, for a non-zero [b] *)
  int_div : Z -> Z -> F;
  (** [x == 0.0] *)
  fis_zero : F -> bool;
  (** [x < y] *)
  fltb : F -> F -> bool;
  (** [x <= y] *)
  fleb : F -> F -> bool;
  (** [round(x, ndigits)] *)
  fround : F -> Z -> F;
  (** [int(x)] for a finite [x] *)
  ftrunc : F -> Z;
  (** [math.isnan(x)] *)
  fis_nan : F -> bool;
  (** [math.isinf(x)] *)
  fis_inf : F -> bool
}.

(** [x / y] on floats: raises on a zero divisor. *)
Definition truediv {F} `{PyFloat F} (x y : F) : result F :=
  if fis_zero y then Raise ZeroDivisionError else Ok (fdiv x y).

(** [a / b] on ints: raises on a zero divisor. *)
Definition int_truediv {F} `{PyFloat F} (a b : Z) : result F :=
  if b =? 0 then Raise ZeroDivisionError else Ok (int_div a b).

(** [n * x] for an [int] [n] and a float [x]: [n] is converted first, and
    an [int] beyond the range of floats raises. *)
Definition int_times_float {F} `{PyFloat F} (n : Z) (x : F) : result F :=
  if fis_inf (float_of_int n) then Raise OverflowError
  else Ok (fmul (float_of_int n) x).

(** [int(x)]: raises on a NaN and on an infinity. *)
Definition int_of_float {F} `{PyFloat F} (x : F) : result Z :=
  if fis_nan x then Raise ValueError
  else if fis_inf x then Raise OverflowError
  else Ok (ftrunc x).

(** *** Exact rationals *)

(** Round to the nearest integer, ties to the even one: what [round] does
    on the value it is given. *)
Definition round_half_even (x : Q) : Z :=
  let f := Qfloor x in
  match Qcompare (x - inject_Z f) (1 # 2) with
  | Lt => f
  | Gt => f + 1
  | Eq => if Z.even f then f else f + 1
  end.

Definition pow10 (n : Z) : Q := Qpower 10 n.

Definition Qround_ndigits (x : Q) (ndigits : Z) : Q :=
  (inject_Z (round_half_even (x * pow10 ndigits)) / pow10 ndigits)%Q.

Definition Qtrunc (x : Q) : Z := Z.quot (Qnum x) (Zpos (Qden x)).

#[export] Instance Q_float : PyFloat Q := {
  float_of_int := inject_Z;
  float_of_decimal m k := (inject_Z m / pow10 k)%Q;
  fadd := Qplus;
  fsub := Qminus;
  fmul := Qmult;
  fdiv := Qdiv;
  int_div a b := (inject_Z a / inject_Z b)%Q;
  fis_zero x := Qeq_bool x 0;
  fltb x y := negb (Qle_bool y x);
  fleb := Qle_bool;
  fround := Qround_ndigits;
  ftrunc := Qtrunc;
  fis_nan _ := false;
  fis_inf _ := false
}.

(** *** IEEE 754 doubles *)

(** CPython's [float]: binary64 with round-to-nearest-even, on the
    Standard Library's [spec_float].  A quotient of two integers, a
    decimal literal and the result of [round] are each the double nearest
    to the exact value. *)
Module Binary64.

Definition prec : Z := 53.
Definition emax : Z := 1024.

(** The double nearest to [n / d]. *)
Definition of_ratio (n : Z) (d : positive) : spec_float :=
  let nearest s p :=
    let '(q, e, l) := SFdiv_core_binary prec emax (Zpos p) 0 (Zpos d) 0 in
    binary_round_aux prec emax s q e l in
  match n with
  | Z0 => S754_zero false
  | Zpos p => nearest false p
  | Zneg p => nearest true p
  end.

Definition of_Q (x : Q) : spec_float := of_ratio (Qnum x) (Qden x).

(** The exact value of a finite double. *)
Definition to_Q (x : spec_float) : Q :=
  match x with
  | S754_finite s m e => (inject_Z (cond_Zopp s (Zpos m)) * Qpower 2 e)%Q
  | _ => 0%Q
  end.

(** [round(x, ndigits)]: the exact value is rounded half-even to
    [ndigits] decimals and the decimal result converted back; a zero
    result keeps the sign of [x]. *)
Definition round_ndigits (x : spec_float) (ndigits : Z) : spec_float :=
  match x with
  | S754_finite s _ _ =>
      match of_Q (Qround_ndigits (to_Q x) ndigits) with
      | S754_zero _ => S754_zero s
      | y => y
      end
  | _ => x
  end.

Definition is_zero (x : spec_float) : bool :=
  match x with
  | S754_zero _ => true
  | _ => false
  end.

Definition int_quotient (a b : Z) : spec_float :=
  of_ratio (a * Z.sgn b) (Z.to_pos (Z.abs b)).

Definition is_nan (x : spec_float) : bool :=
  match x with
  | S754_nan => true
  | _ => false
  end.

Definition is_inf (x : spec_float) : bool :=
  match x with
  | S754_infinity _ => true
  | _ => false
  end.

#[export] Instance binary64 : PyFloat spec_float := {
  float_of_int n := of_ratio n 1;
  float_of_decimal m k := of_Q (inject_Z m / pow10 k);
  fadd := SFadd prec emax;
  fsub := SFsub prec emax;
  fmul := SFmul prec emax;
  fdiv := SFdiv prec emax;
  int_div := int_quotient;
  fis_zero := is_zero;
  fltb := SFltb;
  fleb := SFleb;
  fround := round_ndigits;
  ftrunc x := Qtrunc (to_Q x);
  fis_nan := is_nan;
  fis_inf := is_inf
}.

(** The double [m * 2^e], for writing expected values. *)
Definition double (m : Z) (e : Z) : spec_float :=
  match m with
  | Z0 => S754_zero false
  | Zpos p => S754_finite false p e
  | Zneg p => S754_finite true p e
  end.

End Binary64.

#[export] Existing Instance Binary64.binary64.

(** ** The number the SQL engine reads from the query text

    Line 76 formats the threshold into the text of the first query: an
    f-string writes [repr(x)], the shortest decimal that converts back to
    [x].  SQLite compares the scores with the number it reads from that
    text, which need not be [x] again.  The text of a finite float is a
    numeric literal; the threshold is taken to be finite. *)
Class SqlReal (F : Type) : Type := {
  (** the REAL that the engine reads from the text [repr(x)] *)
  real_literal : F -> F
}.

(** On exact rationals the text denotes the number itself. *)
#[export] Instance Q_literal : SqlReal Q := {
  real_literal x := x
}.

(** [repr] of a double, and [sqlite3AtoF] of SQLite 3.40 on x86-64 Linux,
    where the C type [long double] has a significand of 64 bits: the digits
    are divided or multiplied by a power of ten in that format, and the
    result is then stored in a double. *)
Module Sqlite.

(** The [E] with [10^E <= v < 10^(E+1)], for [v > 0]. *)
Definition decimal_exponent (v : Q) : Z :=
  let g := (Z.log2 (Qnum v) - Z.log2 (Zpos (Qden v))) * 30103 / 100000 in
  match filter (fun E => Qle_bool (pow10 E) v) [g + 2; g + 1; g; g - 1; g - 2] with
  | E :: _ => E
  | [] => g - 2
  end.

(** The decimal [d * 10^k] of [n] significant digits nearest to [v]. *)
Definition to_digits (v : Q) (n : Z) : Z * Z :=
  let k := decimal_exponent v - n + 1 in
  (round_half_even (v / pow10 k), k).

Fixpoint shortest_from (fuel : nat) (x : spec_float) (n : Z) : Z * Z :=
  let '(d, k) := to_digits (Binary64.to_Q x) n in
  match fuel with
  | O => (d, k)
  | S fuel' =>
      if SFeqb (Binary64.of_Q (inject_Z d * pow10 k)) x then (d, k)
      else shortest_from fuel' x (n + 1)
  end.

(** The digits and the decimal exponent that [repr] writes for a positive
    finite double: the fewest digits that convert back to it, 17 at most. *)
Definition repr_digits (x : spec_float) : Z * Z := shortest_from 16 x 1.

Definition LARGEST_INT64 : Z := 9223372036854775807.

(** The two loops that bring the exponent towards zero: trailing zeros
    are dropped for a negative exponent, digits are appended for a
    positive one while they fit. *)
Fixpoint drop_zeros (fuel : nat) (s e : Z) : Z * Z :=
  match fuel with
  | O => (s, e)
  | S fuel' =>
      if (0 <? e) && (s mod 10 =? 0) then drop_zeros fuel' (s / 10) (e - 1)
      else (s, e)
  end.

Fixpoint append_zeros (fuel : nat) (s e : Z) : Z * Z :=
  match fuel with
  | O => (s, e)
  | S fuel' =>
      if (0 <? e) && (s <? LARGEST_INT64 / 10)
      then append_zeros fuel' (s * 10) (e - 1)
      else (s, e)
  end.

(** [long double] *)
Definition ext_prec : Z := 64.
Definition ext_emax : Z := 16384.

Definition ext_of_int (n : Z) : spec_float :=
  binary_normalize ext_prec ext_emax n 0 false.

(** Storing a [long double] in a [double]. *)
Definition to_double (x : spec_float) : spec_float :=
  match x with
  | S754_finite s m e => binary_round Binary64.prec Binary64.emax s m e
  | _ => x
  end.

(** [sqlite3Pow10]: square and multiply in [long double]. *)
Fixpoint pow10_loop (fuel : nat) (E : Z) (x r : spec_float) : spec_float :=
  let r' := if Z.odd E then SFmul ext_prec ext_emax r x else r in
  match fuel with
  | O => r'
  | S fuel' =>
      if Z.div2 E =? 0 then r'
      else pow10_loop fuel' (Z.div2 E) (SFmul ext_prec ext_emax x x) r'
  end.

Definition sqlite3Pow10 (E : Z) : spec_float :=
  pow10_loop 16 E (ext_of_int 10) (ext_of_int 1).

(** [sqlite3AtoF] on the digits [s] and the decimal exponent [k] of a
    positive literal. *)
Definition sqlite3AtoF (d k : Z) : spec_float :=
  let '(s, e) :=
    if k <? 0 then drop_zeros 20 d (- k) else append_zeros 20 d k in
  let negative := k <? 0 in
  let scaled (scale : spec_float) :=
    to_double
      (if negative then SFdiv ext_prec ext_emax (ext_of_int s) scale
       else SFmul ext_prec ext_emax (ext_of_int s) scale) in
  let e308 := Binary64.of_Q (pow10 308) in
  if s =? 0 then S754_zero false
  else if e =? 0 then to_double (ext_of_int s)
  else if 307 <? e then
    if e <? 342 then
      if negative
      then SFdiv Binary64.prec Binary64.emax (scaled (sqlite3Pow10 (e - 308))) e308
      else SFmul Binary64.prec Binary64.emax (scaled (sqlite3Pow10 (e - 308))) e308
    else if negative then S754_zero false else S754_infinity false
  else scaled (sqlite3Pow10 e).

(** A negative number is written with a sign, which the engine applies to
    the literal it has read. *)
Definition read_back (x : spec_float) : spec_float :=
  match x with
  | S754_finite sign m e =>
      let '(d, k) := repr_digits (S754_finite false m e) in
      if sign then SFopp (sqlite3AtoF d k) else sqlite3AtoF d k
  | _ => x
  end.

#[export] Instance x87 : SqlReal spec_float := {
  real_literal := read_back
}.

End Sqlite.

#[export] Existing Instance Sqlite.x87.

(** ** Configuration: the module constants *)

Record config (F : Type) : Type := {
  TOTAL_PATIENTS : Z;
  GROUP_1_RATIO : F;
  ADHERENCE_THRESHOLD : F;
  GROUP_1_ADHERENCE_RATE : F;
  GROUP_2_ADHERENCE_RATE : F;
  ADHERENT_PATIENT_ADMISSION_RATE : F;
  NON_ADHERENT_PATIENT_ADMISSION_RATE : F;
  COST_PER_ADMISSION : Z
}.
Arguments TOTAL_PATIENTS {F} c.
Arguments GROUP_1_RATIO {F} c.
Arguments ADHERENCE_THRESHOLD {F} c.
Arguments GROUP_1_ADHERENCE_RATE {F} c.
Arguments GROUP_2_ADHERENCE_RATE {F} c.
Arguments ADHERENT_PATIENT_ADMISSION_RATE {F} c.
Arguments NON_ADHERENT_PATIENT_ADMISSION_RATE {F} c.
Arguments COST_PER_ADMISSION {F} c.

(** The values the script assigns (lines 15-22). *)
Definition default_config {F} `{PyFloat F} : config F := {|
  TOTAL_PATIENTS := 17000;
  GROUP_1_RATIO := fdiv (float_of_int 1) (float_of_decimal 205 2);
  ADHERENCE_THRESHOLD := float_of_decimal 8 1;
  GROUP_1_ADHERENCE_RATE := float_of_decimal 75 2;
  GROUP_2_ADHERENCE_RATE := fdiv (float_of_decimal 75 2) (float_of_decimal 135 2);
  ADHERENT_PATIENT_ADMISSION_RATE := float_of_decimal 15 2;
  NON_ADHERENT_PATIENT_ADMISSION_RATE := float_of_decimal 40 2;
  COST_PER_ADMISSION := 14700
|}.

(** ** Tables *)

Record patient : Type := {
  patient_id : Z;
  assigned_group : string;
  age : Z
}.

Record adherence (F : Type) : Type := {
  ma_patient_id : Z;
  pdc_score : F
}.
Arguments ma_patient_id {F} a.
Arguments pdc_score {F} a.

Record admission : Type := {
  admission_id : Z;
  ha_patient_id : Z;
  admission_date : Z
}.

(** The three tables reachable through the connection that
    [run_analysis_and_export] receives. *)
Record database (F : Type) : Type := {
  patients : list patient;
  medication_adherence : list (adherence F);
  hospital_admissions : list admission
}.
Arguments patients {F} d.
Arguments medication_adherence {F} d.
Arguments hospital_admissions {F} d.

(** The adherence rows of a patient. *)
Definition matching {F} (p : patient) (ads : list (adherence F)) : list (adherence F) :=
  filter (fun ma => patient_id p =? ma_patient_id ma) ads.

(** An inner join of the two frames on [patient_id], in the order of the
    left rows: [pd.merge(patients_df, adherence_df, on='patient_id')] and
    the SQL [JOIN ... ON p.patient_id = ma.patient_id]. *)
Definition inner_join {F} (ps : list patient) (ads : list (adherence F))
  : list (patient * adherence F) :=
  flat_map (fun p => map (pair p) (matching p ads)) ps.

(** The rows a patient contributes to a left join with the admissions: one
    per admission, or a single row with NULLs on the right. *)
Definition admission_rows (p : patient) (hs : list admission)
  : list (patient * option admission) :=
  match filter (fun ha => patient_id p =? ha_patient_id ha) hs with
  | [] => [(p, None)]
  | matches => map (fun ha => (p, Some ha)) matches
  end.

(** [patients p LEFT JOIN hospital_admissions ha ON p.patient_id = ha.patient_id] *)
Definition left_join (ps : list patient) (hs : list admission)
  : list (patient * option admission) :=
  flat_map (fun p => admission_rows p hs) ps.

Definition Group_1 : string := "Group 1".
Definition Group_2 : string := "Group 2".

(** ** The two SQL queries *)

Definition in_group {A} (g : string) (r : patient * A) : bool :=
  String.eqb (assigned_group (fst r)) g.

(** [GROUP BY g ORDER BY g]: the distinct values of the grouping column,
    ascending (text compares bytewise). *)
Fixpoint insert_label (g : string) (l : list string) : list string :=
  match l with
  | [] => [g]
  | h :: t =>
      match String.compare g h with
      | Lt => g :: l
      | Eq => l
      | Gt => h :: insert_label g t
      end
  end.

Definition group_labels (l : list string) : list string :=
  fold_right insert_label [] l.

(** [COUNT( * )] *)
Definition count_star {A} (rows : list A) : Z := Z.of_nat (List.length rows).

(** [SUM(CASE WHEN c THEN 1 ELSE 0 END)] *)
Definition sum_case {A} (c : A -> bool) (rows : list A) : Z :=
  fold_right (fun r acc => (if c r then 1 else 0) + acc) 0 rows.

(** [COUNT(DISTINCT e)] on an integer column *)
Definition count_distinct (col : list Z) : Z :=
  Z.of_nat (List.length (nodup Z.eq_dec col)).

(** [COUNT(e)]: the rows where [e] is not NULL *)
Definition count_non_null {A} (col : list (option A)) : Z :=
  Z.of_nat (List.length (filter (fun v => match v with Some _ => true | None => false end) col)).

Section Aggregator.
Context {F : Type} `{PyFloat F} `{SqlReal F}.

Definition adherence_join (db : database F) : list (patient * adherence F) :=
  inner_join (patients db) (medication_adherence db).

(** Line 76: the threshold the first query compares the scores with. *)
Definition threshold_in_sql (cfg : config F) : F :=
  real_literal (ADHERENCE_THRESHOLD cfg).

(** Lines 75-79, for the threshold read from the text; a result row is
    [(assigned_group, total_patients, adherent_patients)]. *)
Definition adherence_query (threshold : F) (db : database F)
  : list (string * Z * Z) :=
  let rows := adherence_join db in
  map (fun g =>
         let grp := filter (in_group g) rows in
         (g, count_star grp,
          sum_case (fun r => fleb threshold (pdc_score (snd r))) grp))
    (group_labels (map (fun r => assigned_group (fst r)) rows)).

Definition admissions_join (db : database F) : list (patient * option admission) :=
  left_join (patients db) (hospital_admissions db).

(** Lines 91-95; a result row is [(assigned_group, total_patients,
    total_admissions)]. *)
Definition admissions_query (db : database F) : list (string * Z * Z) :=
  let rows := admissions_join db in
  map (fun g =>
         let grp := filter (in_group g) rows in
         (g, count_distinct (map (fun r => patient_id (fst r)) grp),
          count_non_null (map (fun r => option_map admission_id (snd r)) grp)))
    (group_labels (map (fun r => assigned_group (fst r)) rows)).

(** ** The exported document *)

Record adherence_record : Type := {
  adh_group : string;
  adh_total_patients : Z;
  adherent_patients : Z;
  adherence_rate : F
}.

Record admissions_record : Type := {
  adm_group : string;
  adm_total_patients : Z;
  total_admissions : Z;
  admissions_per_1000 : F
}.

Record summary : Type := {
  adherence_uplift_pct : F;
  hospitalization_reduction_pct : F;
  cost_savings : F
}.

Record final_results : Type := {
  adherence_analysis : list adherence_record;
  admissions_analysis : list admissions_record;
  summary_findings : summary
}.

(** Lines 82-85. *)
Definition adherence_data_of (rows : list (string * Z * Z))
  : result (list adherence_record) :=
  comprehension
    (fun row =>
       let '(g, total, adherent) := row in
       (q <- int_truediv adherent total ;;
        Ok {| adh_group := g;
              adh_total_patients := total;
              adherent_patients := adherent;
              adherence_rate := fmul q (float_of_int 100) |})%result)
    rows.

(** Lines 98-101. *)
Definition admissions_data_of (rows : list (string * Z * Z))
  : result (list admissions_record) :=
  comprehension
    (fun row =>
       let '(g, total, adm) := row in
       (q <- int_truediv adm total ;;
        Ok {| adm_group := g;
              adm_total_patients := total;
              total_admissions := adm;
              admissions_per_1000 := fmul q (float_of_int 1000) |})%result)
    rows.

(** Lines 72-122: everything [run_analysis_and_export] computes before it
    opens the output file.  Division by the literal [1000] cannot raise and
    is written with [fdiv]. *)
Definition analysis (cfg : config F) (db : database F) : result final_results :=
  (adherence_data <-
     adherence_data_of (adherence_query (threshold_in_sql cfg) db) ;;
   a0 <- subscript adherence_data 0 ;;
   let group1_adherence_rate := adherence_rate a0 in
   a1 <- subscript adherence_data 1 ;;
   let group2_adherence_rate := adherence_rate a1 in
   q <- truediv group1_adherence_rate group2_adherence_rate ;;
   let adherence_uplift := fmul (fsub q (float_of_int 1)) (float_of_int 100) in
   admissions_data <- admissions_data_of (admissions_query db) ;;
   b0 <- subscript admissions_data 0 ;;
   let group1_admissions_per_1000 := admissions_per_1000 b0 in
   b1 <- subscript admissions_data 1 ;;
   let group2_admissions_per_1000 := admissions_per_1000 b1 in
   q' <- truediv group1_admissions_per_1000 group2_admissions_per_1000 ;;
   let admission_reduction :=
     fmul (fsub (float_of_int 1) q') (float_of_int 100) in
   let group1_patient_count := adm_total_patients b0 in
   let group1_total_admissions := total_admissions b0 in
   let expected_admissions_in_group1 :=
     fmul (fdiv group2_admissions_per_1000 (float_of_int 1000))
       (float_of_int group1_patient_count) in
   let admissions_avoided :=
     fsub expected_admissions_in_group1 (float_of_int group1_total_admissions) in
   let total_cost_savings :=
     fmul admissions_avoided (float_of_int (COST_PER_ADMISSION cfg)) in
   Ok {| adherence_analysis := adherence_data;
         admissions_analysis := admissions_data;
         summary_findings :=
           {| adherence_uplift_pct := fround adherence_uplift 2;
              hospitalization_reduction_pct := fround admission_reduction 2;
              cost_savings := fround total_cost_savings 2 |} |})%result.

(** The only file the script touches. *)
Record filesystem : Type := {
  results_json : option final_results
}.

(** Lines 70-133.  The file is opened (line 125) once [final_results] is
    built; an exception raised before that leaves the file system as it
    was.  The [print] calls that follow the dump are not modelled. *)
Definition run_analysis_and_export (cfg : config F) (db : database F)
    (fs : filesystem) : result unit * filesystem :=
  match analysis cfg db with
  | Ok final => (Ok tt, {| results_json := Some final |})
  | Raise e => (Raise e, fs)
  end.

End Aggregator.

Arguments adherence_record F : clear implicits.
Arguments admissions_record F : clear implicits.
Arguments summary F : clear implicits.
Arguments final_results F : clear implicits.
Arguments filesystem F : clear implicits.

(** ** Random sources *)

(** The calls the generator makes on its random sources, as functions of
    an explicit state: [random.random()], [random.randint(a, b)],
    [np.random.poisson(lam)] and [fake.date_between(start_date, end_date)]
    (a date is its ordinal day number).  NumPy checks the intensity before
    it draws and raises [ValueError] for one it does not accept (a
    negative one, a NaN, one beyond its bound); [poisson] is the draw for
    an intensity that passed the check. *)
Class RandomSource (F rng : Type) : Type := {
  random : rng -> F * rng;
  randint : Z -> Z -> rng -> Z * rng;
  poisson_accepts : F -> bool;
  poisson : F -> rng -> Z * rng;
  date_between : string -> string -> rng -> Z * rng
}.

Definition Rand (rng A : Type) : Type := rng -> A * rng.

Definition ret {rng A} (a : A) : Rand rng A := fun s => (a, s).

Definition bind {rng A B} (m : Rand rng A) (k : A -> Rand rng B) : Rand rng B :=
  fun s => let (a, s') := m s in k a s'.

Declare Scope rand_scope.
Delimit Scope rand_scope with rand.
Notation "x <- m ;; k" := (bind m (fun x => k))
  (at level 61, m at next level, right associativity) : rand_scope.
Notation "' pat <- m ;; k" := (bind m (fun x => match x with pat => k end))
  (at level 61, pat pattern, m at next level, right associativity) : rand_scope.

(** A [for] loop that appends one element per iteration. *)
Fixpoint for_each {rng A B} (body : A -> Rand rng B) (l : list A)
  : Rand rng (list B) :=
  match l with
  | [] => ret []
  | a :: l' =>
      (b <- body a ;;
       bs <- for_each body l' ;;
       ret (b :: bs))%rand
  end.

(** [range(a, b)] *)
Definition range (a b : Z) : list Z :=
  map (fun k => a + Z.of_nat k) (seq 0 (Z.to_nat (b - a))).

(** ** Phase 1: [generate_synthetic_data] *)

Section Generator.
Context {F rng : Type} `{PyFloat F} `{RandomSource F rng}.

(** [random.uniform(a, b)], which CPython defines as
    [a + (b - a) * self.random()]. *)
Definition uniform (a b : F) : Rand rng F :=
  (u <- random ;;
   ret (fadd a (fmul (fsub b a) u)))%rand.

(** Lines 31-33: the body of the first loop. *)
Definition make_patient (num_group_1 : Z) (i : Z) : Rand rng patient :=
  let group := if i <=? num_group_1 then Group_1 else Group_2 in
  (age <- randint 65 95 ;;
   ret {| patient_id := i; assigned_group := group; age := age |})%rand.

(** Lines 38-40: the body of the second loop.  The condition of the
    conditional expression is evaluated before the branch taken. *)
Definition draw_adherence (cfg : config F) (p : patient) : Rand rng (adherence F) :=
  let target_adherence :=
    if String.eqb (assigned_group p) Group_1
    then GROUP_1_ADHERENCE_RATE cfg else GROUP_2_ADHERENCE_RATE cfg in
  (u <- random ;;
   pdc_score <-
     (if fltb u target_adherence
      then uniform (ADHERENCE_THRESHOLD cfg) (float_of_decimal 10 1)
      else uniform (float_of_decimal 2 1)
             (fsub (ADHERENCE_THRESHOLD cfg) (float_of_decimal 1 2))) ;;
   ret {| ma_patient_id := patient_id p; pdc_score := fround pdc_score 4 |})%rand.

(** Lines 50-56: the inner loop, [n] iterations starting with the counter
    at [admission_id_counter]; returns the rows appended and the counter
    after the loop. *)
Fixpoint append_admissions (n : nat) (pid : Z) (admission_id_counter : Z)
  : Rand rng (list admission * Z) :=
  match n with
  | O => ret ([], admission_id_counter)
  | S n' =>
      (d <- date_between "-1y" "today" ;;
       '(rows, c) <- append_admissions n' pid (admission_id_counter + 1) ;;
       ret ({| admission_id := admission_id_counter;
               ha_patient_id := pid;
               admission_date := d |} :: rows, c))%rand
  end.

(** Lines 47-48: the intensity chosen for a row of the merged frame. *)
Definition admission_intensity (cfg : config F) (row : patient * adherence F) : F :=
  if fleb (ADHERENCE_THRESHOLD cfg) (pdc_score (snd row))
  then ADHERENT_PATIENT_ADMISSION_RATE cfg
  else NON_ADHERENT_PATIENT_ADMISSION_RATE cfg.

(** Lines 47-56: the body of the third loop, for an intensity that
    [np.random.poisson] accepts. *)
Definition patient_admissions (cfg : config F) (row : patient * adherence F)
    (admission_id_counter : Z) : Rand rng (list admission * Z) :=
  let is_adherent := fleb (ADHERENCE_THRESHOLD cfg) (pdc_score (snd row)) in
  let admission_prob :=
    if is_adherent then ADHERENT_PATIENT_ADMISSION_RATE cfg
    else NON_ADHERENT_PATIENT_ADMISSION_RATE cfg in
  (num_admissions <- poisson admission_prob ;;
   append_admissions (Z.to_nat num_admissions) (patient_id (fst row)) admission_id_counter)%rand.

(** Lines 46-56 when every intensity is accepted. *)
Fixpoint admissions_loop (cfg : config F) (rows : list (patient * adherence F))
    (admission_id_counter : Z) : Rand rng (list admission * Z) :=
  match rows with
  | [] => ret ([], admission_id_counter)
  | row :: rest =>
      ('(new, c) <- patient_admissions cfg row admission_id_counter ;;
       '(more, c') <- admissions_loop cfg rest c ;;
       ret ((new ++ more)%list, c'))%rand
  end.

(** Lines 46-56: the third loop.  The call of line 49 raises [ValueError]
    for an intensity that NumPy does not accept, and the loop ends
    there. *)
Fixpoint checked_admissions_loop (cfg : config F)
    (rows : list (patient * adherence F)) (admission_id_counter : Z)
  : Rand rng (result (list admission * Z)) :=
  match rows with
  | [] => ret (Ok ([], admission_id_counter))
  | row :: rest =>
      if poisson_accepts (admission_intensity cfg row) then
        ('(new, c) <- patient_admissions cfg row admission_id_counter ;;
         others <- checked_admissions_loop cfg rest c ;;
         ret (match others with
              | Ok (more, c') => Ok ((new ++ more)%list, c')
              | Raise e => Raise e
              end))%rand
      else ret (Raise ValueError)
  end.

(** Line 29: [int(TOTAL_PATIENTS * GROUP_1_RATIO)]. *)
Definition num_group_1_of (cfg : config F) : result Z :=
  (x <- int_times_float (TOTAL_PATIENTS cfg) (GROUP_1_RATIO cfg) ;;
   int_of_float x)%result.

(** Lines 25-59.  With no patient the two frames have no column and
    [pd.merge] rejects the key [patient_id]. *)
Definition generate_synthetic_data (cfg : config F)
  : Rand rng (result (list patient * list (adherence F) * list admission)) :=
  match num_group_1_of cfg with
  | Raise e => ret (Raise e)
  | Ok num_group_1 =>
      (patients_df <-
         for_each (make_patient num_group_1) (range 1 (TOTAL_PATIENTS cfg + 1)) ;;
       adherence_df <- for_each (draw_adherence cfg) patients_df ;;
       match patients_df with
       | [] => ret (Raise KeyError)
       | _ :: _ =>
           let full_patient_data := inner_join patients_df adherence_df in
           admissions <- checked_admissions_loop cfg full_patient_data 1 ;;
           ret (match admissions with
                | Ok (admissions_df, _) =>
                    Ok (patients_df, adherence_df, admissions_df)
                | Raise e => Raise e
                end)
       end)%rand
  end.


(** The date of a row is one that [fake.date_between] returned for the
    bounds the script passes. *)
Definition drawn_date (e : admission) : Prop :=
  exists s0 : rng, admission_date e = fst (date_between "-1y" "today" s0).

(** The three runs [generate_synthetic_data] is made of, from a state [s],
    when line 29 and every call of line 49 return. *)
Definition patients_run (cfg : config F) (s : rng) : list patient * rng :=
  for_each
    (make_patient
       (ftrunc (fmul (float_of_int (TOTAL_PATIENTS cfg)) (GROUP_1_RATIO cfg))))
    (range 1 (TOTAL_PATIENTS cfg + 1)) s.

Definition adherence_run (cfg : config F) (s : rng) : list (adherence F) * rng :=
  for_each (draw_adherence cfg) (fst (patients_run cfg s)) (snd (patients_run cfg s)).

Definition admissions_run (cfg : config F) (s : rng) : list admission * Z * rng :=
  admissions_loop cfg
    (inner_join (fst (patients_run cfg s)) (fst (adherence_run cfg s)))
    1 (snd (adherence_run cfg s)).

(** Every call of line 49 on these rows passes NumPy's check. *)
Definition intensities_accepted (cfg : config F)
    (rows : list (patient * adherence F)) : bool :=
  forallb (fun row => poisson_accepts (admission_intensity cfg row)) rows.

End Generator.

(** ** A concrete random source, for running the model

    A linear congruential generator on [Z].  Each call advances the state
    once; [random] lands in [[0, 1)], [randint a b] and [date_between] in
    their ranges, and [poisson] returns a small count for an intensity
    between zero and NumPy's bound.  Dates are counted from the day of the
    run ([today] is [0], ['-1y'] is [-365]). *)

Definition lcg_step (s : Z) : Z := (1103515245 * s + 12345) mod 2147483648.

Definition lcg_date_bound (d : string) : Z :=
  if String.eqb d "-1y" then -365 else 0.

(** NumPy's bound on the intensity, [9.223372006484771e+18]. *)
Definition POISSON_LAM_MAX {F : Type} `{PyFloat F} : F :=
  float_of_decimal 9223372006484771 (-3).

#[export] Instance lcg {F : Type} `{PyFloat F} : RandomSource F Z := {
  random s := (int_div (lcg_step s mod 10000) 10000, lcg_step s);
  randint a b s := (a + lcg_step s mod (b - a + 1), lcg_step s);
  poisson_accepts lam := fleb (float_of_int 0) lam && fleb lam POISSON_LAM_MAX;
  poisson lam s := (lcg_step s mod 3, lcg_step s);
  date_between a b s :=
    (lcg_date_bound a
     + lcg_step s mod (lcg_date_bound b - lcg_date_bound a + 1),
     lcg_step s)
}.

(** The dates [lcg] returns for the bounds ['-1y'] and ['today']. *)
Definition lcg_window (d : Z) : Prop := -365 <= d <= 0.


(** The script's constants with a population of six. *)
Definition small_config {F : Type} `{PyFloat F} : config F := {|
  TOTAL_PATIENTS := 6;
  GROUP_1_RATIO := GROUP_1_RATIO default_config;
  ADHERENCE_THRESHOLD := ADHERENCE_THRESHOLD default_config;
  GROUP_1_ADHERENCE_RATE := GROUP_1_ADHERENCE_RATE default_config;
  GROUP_2_ADHERENCE_RATE := GROUP_2_ADHERENCE_RATE default_config;
  ADHERENT_PATIENT_ADMISSION_RATE := ADHERENT_PATIENT_ADMISSION_RATE default_config;
  NON_ADHERENT_PATIENT_ADMISSION_RATE :=
    NON_ADHERENT_PATIENT_ADMISSION_RATE default_config;
  COST_PER_ADMISSION := COST_PER_ADMISSION default_config
|}.

(** ** The quantities the specification names *)

Section Specification.
Context {F : Type} `{PyFloat F}.

(** The patients of a cohort. *)
Definition cohort (db : database F) (g : string) : list patient :=
  filter (fun p => String.eqb (assigned_group p) g) (patients db).

Definition cohort_size (db : database F) (g : string) : Z :=
  Z.of_nat (List.length (cohort db g)).

(** A patient is adherent when a score of theirs reaches the threshold. *)
Definition is_adherent_patient (threshold : F) (db : database F) (p : patient) : bool :=
  existsb
    (fun ma => (patient_id p =? ma_patient_id ma) && fleb threshold (pdc_score ma))
    (medication_adherence db).

Definition cohort_adherent (threshold : F) (db : database F) (g : string) : Z :=
  Z.of_nat (List.length (filter (is_adherent_patient threshold db) (cohort db g))).

(** The admission events of the patients of a cohort. *)
Definition cohort_admissions (db : database F) (g : string) : Z :=
  Z.of_nat
    (List.length
       (filter
          (fun ha => existsb (fun p => patient_id p =? ha_patient_id ha) (cohort db g))
          (hospital_admissions db))).

(** The invariants of the data model: patient ids are unique, every
    patient has exactly one adherence record and every adherence record a
    patient, and every admission names a patient. *)
Record data_model (db : database F) : Prop := {
  patient_ids_unique : NoDup (map patient_id (patients db));
  adherence_one_to_one :
    Permutation (map patient_id (patients db))
      (map ma_patient_id (medication_adherence db));
  admissions_reference_patients :
    forall ha, In ha (hospital_admissions db) ->
               In (ha_patient_id ha) (map patient_id (patients db))
}.

(** Every patient belongs to one of the two cohorts. *)
Definition two_cohorts (db : database F) : Prop :=
  forall p, In p (patients db) ->
            assigned_group p = Group_1 \/ assigned_group p = Group_2.

(** Two databases hold the same rows, possibly in another order. *)
Definition same_rows (db db' : database F) : Prop :=
  Permutation (patients db) (patients db')
  /\ Permutation (medication_adherence db) (medication_adherence db')
  /\ Permutation (hospital_admissions db) (hospital_admissions db').

(** The three derived figures, as the specification writes them. *)
Definition spec_adherence_uplift (rate_A rate_B : F) : F :=
  fmul (fsub (fdiv rate_A rate_B) (float_of_int 1)) (float_of_int 100).

Definition spec_hospitalization_reduction (per_1000_A per_1000_B : F) : F :=
  fmul (fsub (float_of_int 1) (fdiv per_1000_A per_1000_B)) (float_of_int 100).

Definition spec_cost_savings (per_1000_B : F) (patient_count_A admissions_A cost : Z) : F :=
  fmul
    (fsub (fmul (fdiv per_1000_B (float_of_int 1000)) (float_of_int patient_count_A))
       (float_of_int admissions_A))
    (float_of_int cost).

(** adherent / total * 100 and admissions / total * 1000 *)
Definition spec_rate (part total scale : Z) : F :=
  fmul (int_div part total) (float_of_int scale).

(** The per-cohort records of the two summaries, from the three counts. *)
Definition adherence_summary (threshold : F) (db : database F) (g : string)
  : adherence_record F :=
  {| adh_group := g;
     adh_total_patients := cohort_size db g;
     adherent_patients := cohort_adherent threshold db g;
     adherence_rate :=
       spec_rate (cohort_adherent threshold db g) (cohort_size db g) 100 |}.

Definition admissions_summary (db : database F) (g : string)
  : admissions_record F :=
  {| adm_group := g;
     adm_total_patients := cohort_size db g;
     total_admissions := cohort_admissions db g;
     admissions_per_1000 :=
       spec_rate (cohort_admissions db g) (cohort_size db g) 1000 |}.

(** The record built from a result row whose total is not zero. *)
Definition adherence_record_of (row : string * Z * Z) : adherence_record F :=
  let '(g, total, adherent) := row in
  {| adh_group := g;
     adh_total_patients := total;
     adherent_patients := adherent;
     adherence_rate := spec_rate adherent total 100 |}.

Definition admissions_record_of (row : string * Z * Z) : admissions_record F :=
  let '(g, total, adm) := row in
  {| adm_group := g;
     adm_total_patients := total;
     total_admissions := adm;
     admissions_per_1000 := spec_rate adm total 1000 |}.

(** The three exported figures: the formulas above applied to the records
    of cohort A ([a0], [b0]) and cohort B ([a1], [b1]), each rounded to
    two decimals. *)
Definition findings (cfg : config F) (a0 a1 : adherence_record F)
    (b0 b1 : admissions_record F) : summary F :=
  {| adherence_uplift_pct :=
       fround (spec_adherence_uplift (adherence_rate a0) (adherence_rate a1)) 2;
     hospitalization_reduction_pct :=
       fround (spec_hospitalization_reduction
                 (admissions_per_1000 b0) (admissions_per_1000 b1)) 2;
     cost_savings :=
       fround (spec_cost_savings (admissions_per_1000 b1)
                 (adm_total_patients b0) (total_admissions b0)
                 (COST_PER_ADMISSION cfg)) 2 |}.

End Specification.

(** A value with at most [ndigits] decimals. *)
Definition has_decimals (ndigits : Z) (x : Q) : Prop :=
  exists n : Z, (x * pow10 ndigits == inject_Z n)%Q.


(** ** Sample tables *)

Definition mk_patient (i : Z) (g : string) : patient :=
  {| patient_id := i; assigned_group := g; age := 70 |}.

Definition mk_adherence {F} (i : Z) (score : F) : adherence F :=
  {| ma_patient_id := i; pdc_score := score |}.

Definition mk_admission (i pid : Z) : admission :=
  {| admission_id := i; ha_patient_id := pid; admission_date := -30 |}.

Section Samples.
Context (F : Type) `{PyFloat F}.

(** Three patients per cohort; one of three adherent in Group 1, all three
    in Group 2; one admission in Group 1, three in Group 2; patients 1, 3
    and 6 have no admission. *)
Definition sample_db : database F :=
  {| patients :=
       [mk_patient 1 Group_1; mk_patient 2 Group_1; mk_patient 3 Group_1;
        mk_patient 4 Group_2; mk_patient 5 Group_2; mk_patient 6 Group_2];
     medication_adherence :=
       [mk_adherence 1 (float_of_decimal 9 1);
        mk_adherence 2 (float_of_decimal 5 1);
        mk_adherence 3 (float_of_decimal 5 1);
        mk_adherence 4 (float_of_decimal 9 1);
        mk_adherence 5 (float_of_decimal 85 2);
        mk_adherence 6 (float_of_decimal 95 2)];
     hospital_admissions :=
       [mk_admission 1 2; mk_admission 2 4; mk_admission 3 4; mk_admission 4 5] |}.

(** The same rows in another order. *)
Definition sample_db_shuffled : database F :=
  {| patients :=
       [mk_patient 4 Group_2; mk_patient 1 Group_1; mk_patient 6 Group_2;
        mk_patient 2 Group_1; mk_patient 3 Group_1; mk_patient 5 Group_2];
     medication_adherence :=
       [mk_adherence 6 (float_of_decimal 95 2);
        mk_adherence 5 (float_of_decimal 85 2);
        mk_adherence 4 (float_of_decimal 9 1);
        mk_adherence 3 (float_of_decimal 5 1);
        mk_adherence 2 (float_of_decimal 5 1);
        mk_adherence 1 (float_of_decimal 9 1)];
     hospital_admissions :=
       [mk_admission 3 4; mk_admission 1 2; mk_admission 4 5; mk_admission 2 4] |}.

(** Group 1 is empty. *)
Definition empty_cohort_db : database F :=
  {| patients := [mk_patient 1 Group_2; mk_patient 2 Group_2];
     medication_adherence :=
       [mk_adherence 1 (float_of_decimal 9 1);
        mk_adherence 2 (float_of_decimal 5 1)];
     hospital_admissions := [mk_admission 1 2] |}.

(** No patient of Group 2 is adherent. *)
Definition zero_rate_db : database F :=
  {| patients := [mk_patient 1 Group_1; mk_patient 2 Group_2];
     medication_adherence :=
       [mk_adherence 1 (float_of_decimal 9 1);
        mk_adherence 2 (float_of_decimal 5 1)];
     hospital_admissions := [mk_admission 1 2] |}.

(** No patient of Group 2 was admitted. *)
Definition zero_admissions_db : database F :=
  {| patients := [mk_patient 1 Group_1; mk_patient 2 Group_2];
     medication_adherence :=
       [mk_adherence 1 (float_of_decimal 9 1);
        mk_adherence 2 (float_of_decimal 9 1)];
     hospital_admissions := [mk_admission 1 1] |}.

Definition no_file : filesystem F := {| results_json := None |}.

End Samples.

(** The order [ORDER BY] puts the labels in. *)
Definition label_lt (a b : string) : Prop := String.compare a b = Lt.

Definition ascending (l : list string) : Prop := StronglySorted label_lt l.

(** One step of a proof that two lists written out in full are
    permutations of each other. *)
Ltac perm_step :=
  lazymatch goal with
  | |- Permutation [] [] => apply perm_nil
  | |- Permutation (?x :: _) ?l' =>
      let rec go pre post :=
        lazymatch post with
        | x :: ?t =>
            change l' with (pre ++ x :: t)%list;
            apply Permutation_cons_app; cbn [app]
        | ?y :: ?t => go (pre ++ [y])%list t
        end in
      go (@nil ltac:(match type of x with ?T => exact T end)) l'
  end.

(** ** The generated frames as tables

    The database whose tables hold the rows of three frames.
    [setup_database] (lines 61-67) returns a connection to it when each
    frame has a row.  A frame built from an empty list has no column; what
    [to_sql] and SQLite make of such a frame is not modelled. *)
Definition frames_as_tables {F} (patients_df : list patient)
    (adherence_df : list (adherence F)) (admissions_df : list admission)
  : database F :=
  {| patients := patients_df;
     medication_adherence := adherence_df;
     hospital_admissions := admissions_df |}.

(** Sum of a column of integers. *)
Definition sum_Z (l : list Z) : Z := fold_right Z.add 0 l.

(** The number of Group 1 patients among ids 1..N when the first
    [num_group_1] ids go to Group 1. *)
Definition clamp (N num_group_1 : Z) : Z := Z.max 0 (Z.min N num_group_1).

(** Two patients tables agree on ids and cohorts (ages may differ); two
    admissions tables agree on the patients admitted (admission ids and
    dates may differ). *)
Definition same_keys {F} (db db' : database F) : Prop :=
  Forall2 (fun p p' => patient_id p = patient_id p'
                       /\ assigned_group p = assigned_group p')
    (patients db) (patients db')
  /\ medication_adherence db = medication_adherence db'
  /\ map ha_patient_id (hospital_admissions db)
     = map ha_patient_id (hospital_admissions db').

(** The sample tables with other ages, admission ids and dates. *)
Definition sample_db_other_ages (F : Type) `{PyFloat F} : database F :=
  {| patients :=
       map (fun p => {| patient_id := patient_id p;
                        assigned_group := assigned_group p;
                        age := 65 + patient_id p |})
         (patients (sample_db F));
     medication_adherence := medication_adherence (sample_db F);
     hospital_admissions :=
       map (fun ha => {| admission_id := 100 + admission_id ha;
                         ha_patient_id := ha_patient_id ha;
                         admission_date := - admission_id ha |})
         (hospital_admissions (sample_db F)) |}.

(** Three cohorts. *)
Definition three_cohorts_db (F : Type) `{PyFloat F} : database F :=
  {| patients :=
       [mk_patient 1 "Group 3"; mk_patient 2 Group_1; mk_patient 3 Group_2;
        mk_patient 4 Group_1];
     medication_adherence :=
       [mk_adherence 1 (float_of_decimal 9 1);
        mk_adherence 2 (float_of_decimal 9 1);
        mk_adherence 3 (float_of_decimal 85 2);
        mk_adherence 4 (float_of_decimal 5 1)];
     hospital_admissions := [mk_admission 1 3; mk_admission 2 1] |}.

(** The script's constants with a population of six and another ratio. *)
Definition config_with_ratio {F : Type} `{PyFloat F} (N : Z) (ratio : F) : config F := {|
  TOTAL_PATIENTS := N;
  GROUP_1_RATIO := ratio;
  ADHERENCE_THRESHOLD := ADHERENCE_THRESHOLD default_config;
  GROUP_1_ADHERENCE_RATE := GROUP_1_ADHERENCE_RATE default_config;
  GROUP_2_ADHERENCE_RATE := GROUP_2_ADHERENCE_RATE default_config;
  ADHERENT_PATIENT_ADMISSION_RATE := ADHERENT_PATIENT_ADMISSION_RATE default_config;
  NON_ADHERENT_PATIENT_ADMISSION_RATE :=
    NON_ADHERENT_PATIENT_ADMISSION_RATE default_config;
  COST_PER_ADMISSION := COST_PER_ADMISSION default_config
|}.



(** The script's constants with a population of six and other admission
    intensities. *)
Definition config_with_intensities {F : Type} `{PyFloat F}
    (adherent non_adherent : F) : config F := {|
  TOTAL_PATIENTS := 6;
  GROUP_1_RATIO := GROUP_1_RATIO default_config;
  ADHERENCE_THRESHOLD := ADHERENCE_THRESHOLD default_config;
  GROUP_1_ADHERENCE_RATE := GROUP_1_ADHERENCE_RATE default_config;
  GROUP_2_ADHERENCE_RATE := GROUP_2_ADHERENCE_RATE default_config;
  ADHERENT_PATIENT_ADMISSION_RATE := adherent;
  NON_ADHERENT_PATIENT_ADMISSION_RATE := non_adherent;
  COST_PER_ADMISSION := COST_PER_ADMISSION default_config
|}.

(** * Properties *)

(** ** The order on labels *)

Lemma ascii_compare_refl (a : ascii) : Ascii.compare a a = Eq.
Proof. unfold Ascii.compare. apply N.compare_refl. Qed.

Lemma label_compare_refl (s : string) : String.compare s s = Eq.
Proof.
  induction s as [|a s IH]; simpl; [reflexivity|].
  now rewrite ascii_compare_refl.
Qed.

Lemma label_lt_irrefl (s : string) : ~ label_lt s s.
Proof. unfold label_lt. rewrite label_compare_refl. discriminate. Qed.

Lemma label_lt_trans (a b c : string) :
  label_lt a b -> label_lt b c -> label_lt a c.
Proof.
  unfold label_lt. revert b c.
  induction a as [|x a IH]; intros [|y b] [|z c]; simpl; try discriminate; auto.
  unfold Ascii.compare.
  destruct (N.compare_spec (N_of_ascii x) (N_of_ascii y)) as [Exy|Lxy|Gxy];
    destruct (N.compare_spec (N_of_ascii y) (N_of_ascii z)) as [Eyz|Lyz|Gyz];
    try discriminate; intros Hab Hbc.
  - rewrite Exy, Eyz, N.compare_refl. eauto.
  - rewrite Exy. now apply N.compare_lt_iff in Lyz as ->.
  - rewrite <- Eyz. now apply N.compare_lt_iff in Lxy as ->.
  - assert (Hxz : (N_of_ascii x < N_of_ascii z)%N) by lia.
    now apply N.compare_lt_iff in Hxz as ->.
Qed.

Lemma label_compare_gt (a b : string) :
  String.compare a b = Gt -> label_lt b a.
Proof.
  unfold label_lt. rewrite (String.compare_antisym b a).
  now intros ->.
Qed.

(** ** [GROUP BY ... ORDER BY]: distinct labels, ascending *)

Lemma insert_label_In (g x : string) (l : list string) :
  In x (insert_label g l) <-> x = g \/ In x l.
Proof.
  induction l as [|h t IH]; simpl.
  - intuition.
  - destruct (String.compare g h) eqn:E; simpl.
    + apply String.compare_eq_iff in E. subst h. intuition.
    + intuition.
    + rewrite IH. intuition.
Qed.

Lemma group_labels_In (x : string) (l : list string) :
  In x (group_labels l) <-> In x l.
Proof.
  induction l as [|h t IH]; simpl; [reflexivity|].
  rewrite insert_label_In, IH. intuition.
Qed.

Lemma insert_label_ascending (g : string) (l : list string) :
  ascending l -> ascending (insert_label g l).
Proof.
  unfold ascending.
  induction l as [|h t IH]; simpl; intros Hs.
  - repeat constructor.
  - inversion Hs as [|? ? Ht Hall]; subst.
    destruct (String.compare g h) eqn:E.
    + assumption.
    + constructor; [assumption|].
      constructor; [exact E|].
      eapply Forall_impl; [|exact Hall].
      intros c Hc. eapply label_lt_trans; eassumption.
    + constructor; [now apply IH|].
      apply Forall_forall. intros c Hc.
      apply insert_label_In in Hc as [->|Hc].
      * now apply label_compare_gt.
      * rewrite Forall_forall in Hall. now apply Hall.
Qed.

Lemma group_labels_ascending (l : list string) : ascending (group_labels l).
Proof.
  induction l as [|h t IH]; simpl.
  - constructor.
  - now apply insert_label_ascending.
Qed.

(** An ascending list is determined by its elements. *)
Lemma ascending_unique (l1 l2 : list string) :
  ascending l1 -> ascending l2 ->
  (forall x, In x l1 <-> In x l2) -> l1 = l2.
Proof.
  unfold ascending. revert l2.
  induction l1 as [|a l1 IH]; intros [|b l2] H1 H2 Hin.
  - reflexivity.
  - exfalso. apply (proj2 (Hin b)). now left.
  - exfalso. apply (proj1 (Hin a)). now left.
  - inversion H1 as [|? ? S1 A1]; inversion H2 as [|? ? S2 A2]; subst.
    rewrite Forall_forall in A1, A2.
    assert (a = b) as ->.
    { destruct (proj1 (Hin a) (or_introl eq_refl)) as [E|Ha]; [now symmetry|].
      destruct (proj2 (Hin b) (or_introl eq_refl)) as [E|Hb]; [assumption|].
      exfalso. apply (label_lt_irrefl a).
      eapply label_lt_trans; [apply A1; exact Hb | apply A2; exact Ha]. }
    f_equal. apply IH; try assumption.
    intros x; split; intros Hx.
    + destruct (proj1 (Hin x) (or_intror Hx)) as [E|Hx']; [|assumption].
      subst x. exfalso. apply (label_lt_irrefl b). now apply A1.
    + destruct (proj2 (Hin x) (or_intror Hx)) as [E|Hx']; [|assumption].
      subst x. exfalso. apply (label_lt_irrefl b). now apply A2.
Qed.

Lemma group_labels_Permutation (l l' : list string) :
  Permutation l l' -> group_labels l = group_labels l'.
Proof.
  intros HP. apply ascending_unique; try apply group_labels_ascending.
  intros x. rewrite !group_labels_In.
  split; apply Permutation_in; [assumption | now apply Permutation_sym].
Qed.

(** With both cohorts present and no other label, the groups are
    [Group 1] then [Group 2]. *)
Lemma group_labels_two_cohorts (l : list string) :
  (forall x, In x l -> x = Group_1 \/ x = Group_2) ->
  In Group_1 l -> In Group_2 l ->
  group_labels l = [Group_1; Group_2].
Proof.
  intros Hall H1 H2. apply ascending_unique.
  - apply group_labels_ascending.
  - repeat constructor.
  - intros x. rewrite group_labels_In. simpl. split.
    + intros Hx. destruct (Hall x Hx) as [->| ->]; auto.
    + intros [<-|[<-|[]]]; assumption.
Qed.

(** With a single cohort present, one group. *)
Lemma group_labels_one_cohort (g : string) (l : list string) :
  (forall x, In x l -> x = g) -> In g l -> group_labels l = [g].
Proof.
  intros Hall Hg. apply ascending_unique.
  - apply group_labels_ascending.
  - repeat constructor.
  - intros x. rewrite group_labels_In. simpl. split.
    + intros Hx. left. symmetry. now apply Hall.
    + intros [<-|[]]. assumption.
Qed.

(** ** Lists *)

Lemma filter_flat_map {A B} (P : B -> bool) (f : A -> list B) (l : list A) :
  filter P (flat_map f l) = flat_map (fun a => filter P (f a)) l.
Proof.
  induction l as [|a l IH]; simpl; [reflexivity|].
  now rewrite filter_app, IH.
Qed.

Lemma length_flat_map_const {A B} (f : A -> list B) (l : list A) (k : nat) :
  (forall a, In a l -> List.length (f a) = k) ->
  List.length (flat_map f l) = (k * List.length l)%nat.
Proof.
  induction l as [|a l IH]; simpl; intros Hk; [lia|].
  rewrite length_app, Hk, IH by auto. lia.
Qed.

Lemma filter_orb_length {A} (a b : A -> bool) (l : list A) :
  (forall x, In x l -> a x = true -> b x = false) ->
  List.length (filter (fun x => a x || b x) l)
  = (List.length (filter a l) + List.length (filter b l))%nat.
Proof.
  induction l as [|x l IH]; simpl; intros Hd; [reflexivity|].
  specialize (IH (fun y Hy => Hd y (or_intror Hy))).
  destruct (a x) eqn:Ea; simpl.
  - rewrite (Hd x (or_introl eq_refl) Ea). simpl. now rewrite IH.
  - destruct (b x); simpl; rewrite IH; lia.
Qed.

Lemma filter_none {A} (f : A -> bool) (l : list A) :
  (forall x, In x l -> f x = false) -> filter f l = [].
Proof.
  induction l as [|x l IH]; simpl; intros Hf; [reflexivity|].
  rewrite (Hf x) by auto. apply IH. auto.
Qed.

Lemma NoDup_map_filter {A B} (f : A -> B) (P : A -> bool) (l : list A) :
  NoDup (map f l) -> NoDup (map f (filter P l)).
Proof.
  induction l as [|a l IH]; simpl; intros Hnd; [constructor|].
  inversion Hnd as [|? ? Hnotin Hnd']; subst.
  destruct (P a); simpl; [|auto].
  constructor; [|auto].
  intros Hin. apply Hnotin.
  apply in_map_iff in Hin as (x & Hx & Hin).
  apply filter_In in Hin as [Hin _].
  rewrite <- Hx. now apply in_map.
Qed.

Lemma Permutation_filter {A} (P : A -> bool) (l l' : list A) :
  Permutation l l' -> Permutation (filter P l) (filter P l').
Proof.
  induction 1 as [|x l l' _ IH|x y l|l l' l'' _ IH1 _ IH2]; simpl.
  - constructor.
  - destruct (P x); [now constructor | assumption].
  - destruct (P x), (P y); try reflexivity. apply perm_swap.
  - now transitivity (filter P l').
Qed.

Lemma sum_case_length {A} (c : A -> bool) (rows : list A) :
  sum_case c rows = Z.of_nat (List.length (filter c rows)).
Proof.
  unfold sum_case.
  induction rows as [|r rows IH]; simpl; [reflexivity|].
  rewrite IH. destruct (c r); simpl List.length; lia.
Qed.

Lemma count_distinct_eq (l l' : list Z) :
  (forall x, In x l <-> In x l') -> NoDup l' ->
  count_distinct l = Z.of_nat (List.length l').
Proof.
  intros Hin Hnd. unfold count_distinct. f_equal.
  apply Permutation_length, NoDup_Permutation.
  - apply NoDup_nodup.
  - assumption.
  - intros x. rewrite nodup_In. apply Hin.
Qed.

(** ** The joins, cohort by cohort *)

Section Joins.
Context {F : Type}.

Lemma filter_in_group_pairs {A B} (g : string) (p : patient)
    (f : A -> patient * B) (l : list A) :
  (forall a, fst (f a) = p) ->
  filter (in_group g) (map f l)
  = if String.eqb (assigned_group p) g then map f l else [].
Proof.
  intros Hf. unfold in_group.
  induction l as [|a l IH]; simpl.
  - now destruct (String.eqb _ _).
  - rewrite IH, Hf. now destruct (String.eqb _ _).
Qed.

Lemma filter_in_group_inner_join (g : string) (ps : list patient)
    (ads : list (adherence F)) :
  filter (in_group g) (inner_join ps ads)
  = inner_join (filter (fun p => String.eqb (assigned_group p) g) ps) ads.
Proof.
  unfold inner_join.
  induction ps as [|p ps IH]; simpl; [reflexivity|].
  rewrite filter_app, IH, (filter_in_group_pairs g p) by reflexivity.
  destruct (String.eqb (assigned_group p) g); reflexivity.
Qed.

Lemma admission_rows_fst (p : patient) (hs : list admission) :
  forall r, In r (admission_rows p hs) -> fst r = p.
Proof.
  unfold admission_rows. intros r.
  destruct (filter _ hs) as [|h matches].
  - now intros [<-|[]].
  - intros Hin. apply in_map_iff in Hin as (ha & <- & _). reflexivity.
Qed.

Lemma admission_rows_nonempty (p : patient) (hs : list admission) :
  exists r, In r (admission_rows p hs).
Proof.
  unfold admission_rows.
  destruct (filter _ hs) as [|h matches].
  - exists (p, None). now left.
  - exists (p, Some h). now left.
Qed.

Lemma admission_rows_in_group (g : string) (p : patient) (hs : list admission) :
  filter (in_group g) (admission_rows p hs)
  = if String.eqb (assigned_group p) g then admission_rows p hs else [].
Proof.
  unfold admission_rows. destruct (filter _ hs) as [|h matches].
  - unfold in_group. simpl. now destruct (String.eqb _ _).
  - now apply (filter_in_group_pairs g p (fun ha => (p, Some ha)) (h :: matches)).
Qed.

Lemma admission_rows_count (p : patient) (hs : list admission) :
  List.length
    (filter (fun v : option Z => match v with Some _ => true | None => false end)
       (map (fun r => option_map admission_id (snd r)) (admission_rows p hs)))
  = List.length (filter (fun ha => patient_id p =? ha_patient_id ha) hs).
Proof.
  unfold admission_rows. destruct (filter _ hs) as [|h matches]; [reflexivity|].
  generalize (h :: matches). intros l.
  induction l as [|a l IH]; simpl; [reflexivity|]. now rewrite IH.
Qed.

Lemma filter_in_group_left_join (g : string) (ps : list patient)
    (hs : list admission) :
  filter (in_group g) (left_join ps hs)
  = left_join (filter (fun p => String.eqb (assigned_group p) g) ps) hs.
Proof.
  unfold left_join.
  induction ps as [|p ps IH]; cbn [flat_map filter]; [reflexivity|].
  rewrite filter_app, IH, admission_rows_in_group.
  destruct (String.eqb (assigned_group p) g); reflexivity.
Qed.

(** One adherence record per patient: the join has one row per patient. *)
Lemma matching_single (p : patient) (ads : list (adherence F)) :
  NoDup (map ma_patient_id ads) ->
  In (patient_id p) (map ma_patient_id ads) ->
  exists ma, matching p ads = [ma].
Proof.
  unfold matching.
  induction ads as [|a ads IH]; simpl; intros Hnd Hin; [contradiction|].
  inversion Hnd as [|? ? Hnotin Hnd']; subst.
  destruct (Z.eqb_spec (patient_id p) (ma_patient_id a)) as [E|NE].
  - exists a. f_equal. apply filter_none.
    intros x Hx. apply Z.eqb_neq. intros E'.
    apply Hnotin. rewrite <- E, E'. now apply in_map.
  - destruct Hin as [E|Hin]; [congruence|]. now apply IH.
Qed.

Lemma inner_join_length (ps : list patient) (ads : list (adherence F)) :
  (forall p, In p ps -> exists ma, matching p ads = [ma]) ->
  List.length (inner_join ps ads) = List.length ps.
Proof.
  intros Hone. unfold inner_join.
  rewrite (length_flat_map_const _ _ 1%nat); [lia|].
  intros p Hp. destruct (Hone p Hp) as [ma E].
  now rewrite length_map, E.
Qed.

Lemma existsb_matching (c : adherence F -> bool) (p : patient)
    (ads : list (adherence F)) :
  existsb (fun ma => (patient_id p =? ma_patient_id ma) && c ma) ads
  = existsb c (matching p ads).
Proof.
  unfold matching.
  induction ads as [|a ads IH]; simpl; [reflexivity|].
  destruct (patient_id p =? ma_patient_id a); simpl; now rewrite IH.
Qed.

Lemma inner_join_filter_length (c : adherence F -> bool) (ps : list patient)
    (ads : list (adherence F)) :
  (forall p, In p ps -> exists ma, matching p ads = [ma]) ->
  List.length (filter (fun r => c (snd r)) (inner_join ps ads))
  = List.length
      (filter (fun p => existsb
                 (fun ma => (patient_id p =? ma_patient_id ma) && c ma) ads) ps).
Proof.
  unfold inner_join.
  induction ps as [|p ps IH]; simpl; intros Hone; [reflexivity|].
  rewrite filter_app, length_app, IH by auto.
  rewrite existsb_matching.
  destruct (Hone p (or_introl eq_refl)) as [ma E].
  rewrite E. simpl.
  destruct (c ma); simpl; reflexivity.
Qed.

Lemma inner_join_groups (ps : list patient) (ads : list (adherence F)) (g : string) :
  (forall p, In p ps -> exists ma, matching p ads = [ma]) ->
  In g (map (fun r => assigned_group (fst r)) (inner_join ps ads))
  <-> In g (map assigned_group ps).
Proof.
  intros Hone. unfold inner_join. rewrite !in_map_iff. split.
  - intros ([p ma] & <- & Hin). apply in_flat_map in Hin as (p' & Hp' & Hin).
    apply in_map_iff in Hin as (ma' & [= <- <-] & _).
    exists p'. auto.
  - intros (p & <- & Hp). destruct (Hone p Hp) as [ma E].
    exists (p, ma). split; [reflexivity|].
    apply in_flat_map. exists p. split; [assumption|].
    rewrite E. now left.
Qed.

Lemma left_join_groups (ps : list patient) (hs : list admission) (g : string) :
  In g (map (fun r => assigned_group (fst r)) (left_join ps hs))
  <-> In g (map assigned_group ps).
Proof.
  unfold left_join. rewrite !in_map_iff. split.
  - intros (r & <- & Hin). apply in_flat_map in Hin as (p & Hp & Hin).
    exists p. split; [|assumption].
    now rewrite (admission_rows_fst p hs r Hin).
  - intros (p & <- & Hp).
    destruct (admission_rows_nonempty p hs) as [r Hr].
    exists r. split.
    + now rewrite (admission_rows_fst p hs r Hr).
    + apply in_flat_map. eauto.
Qed.

Lemma left_join_patient_ids (ps : list patient) (hs : list admission) (x : Z) :
  In x (map (fun r => patient_id (fst r)) (left_join ps hs))
  <-> In x (map patient_id ps).
Proof.
  unfold left_join. rewrite !in_map_iff. split.
  - intros (r & <- & Hin). apply in_flat_map in Hin as (p & Hp & Hin).
    exists p. split; [|assumption].
    now rewrite (admission_rows_fst p hs r Hin).
  - intros (p & <- & Hp).
    destruct (admission_rows_nonempty p hs) as [r Hr].
    exists r. split.
    + now rewrite (admission_rows_fst p hs r Hr).
    + apply in_flat_map. eauto.
Qed.

Lemma left_join_count_non_null (ps : list patient) (hs : list admission) :
  NoDup (map patient_id ps) ->
  count_non_null (map (fun r => option_map admission_id (snd r)) (left_join ps hs))
  = Z.of_nat
      (List.length
         (filter (fun ha => existsb (fun p => patient_id p =? ha_patient_id ha) ps) hs)).
Proof.
  unfold count_non_null, left_join. intros Hnd. f_equal.
  induction ps as [|p ps IH]; cbn [flat_map existsb map].
  - symmetry. rewrite filter_none; [reflexivity|]. reflexivity.
  - inversion Hnd as [|? ? Hnotin Hnd']; subst.
    rewrite map_app, filter_app, length_app, IH by assumption.
    rewrite filter_orb_length.
    + f_equal. apply admission_rows_count.
    + intros ha _ E. apply Z.eqb_eq in E.
      apply not_true_is_false. intros Hex.
      apply existsb_exists in Hex as (q & Hq & Eq).
      apply Z.eqb_eq in Eq. apply Hnotin.
      rewrite E, <- Eq. now apply in_map.
Qed.

End Joins.

(** ** The two queries return the cohort counts *)

Lemma comprehension_ok {A B} (f : A -> result B) (g : A -> B) (l : list A) :
  (forall a, In a l -> f a = Ok (g a)) ->
  comprehension f l = Ok (map g l).
Proof.
  induction l as [|a l IH]; simpl; intros Hf; [reflexivity|].
  rewrite Hf by auto. simpl. rewrite IH by auto. reflexivity.
Qed.

Lemma group_present {A} (g : string) (rows : list (patient * A)) :
  In g (group_labels (map (fun r => assigned_group (fst r)) rows)) ->
  exists r, In r (filter (in_group g) rows).
Proof.
  rewrite group_labels_In, in_map_iff. intros (r & <- & Hr).
  exists r. apply filter_In. split; [assumption|].
  unfold in_group. apply String.eqb_refl.
Qed.

Section Queries.
Context {F : Type} `{PyFloat F} `{SqlReal F}.

Lemma adherence_data_of_ok (threshold : F) (db : database F) :
  adherence_data_of (adherence_query threshold db)
  = Ok (map adherence_record_of (adherence_query threshold db)).
Proof.
  apply comprehension_ok. intros [[g total] adherent] Hin.
  unfold adherence_query in Hin. apply in_map_iff in Hin as (g' & [= <- <- <-] & Hg).
  apply group_present in Hg as (r & Hr).
  unfold int_truediv, count_star.
  destruct (filter (in_group g') (adherence_join db)) as [|r' l]; [contradiction|].
  reflexivity.
Qed.

Lemma admissions_data_of_ok (db : database F) :
  admissions_data_of (admissions_query db)
  = Ok (map admissions_record_of (admissions_query db)).
Proof.
  apply comprehension_ok. intros [[g total] adm] Hin.
  unfold admissions_query in Hin. apply in_map_iff in Hin as (g' & [= <- <- <-] & Hg).
  apply group_present in Hg as (r & Hr).
  unfold int_truediv, count_distinct.
  assert (Hin : In (patient_id (fst r))
                  (nodup Z.eq_dec
                     (map (fun r => patient_id (fst r))
                        (filter (in_group g') (admissions_join db))))).
  { apply nodup_In. now apply (in_map (fun r => patient_id (fst r))). }
  destruct (nodup _ _) as [|x l]; [contradiction|]. reflexivity.
Qed.

Lemma data_model_matching (db : database F) :
  data_model db ->
  forall p, In p (patients db) ->
            exists ma, matching p (medication_adherence db) = [ma].
Proof.
  intros [Hnd Hperm _] p Hp. apply matching_single.
  - eapply Permutation_NoDup; eassumption.
  - eapply Permutation_in; [eassumption|]. now apply in_map.
Qed.

Lemma cohort_In (db : database F) (g : string) (p : patient) :
  In p (cohort db g) <-> In p (patients db) /\ assigned_group p = g.
Proof.
  unfold cohort. rewrite filter_In, String.eqb_eq. reflexivity.
Qed.

Lemma cohort_size_pos (db : database F) (g : string) :
  0 < cohort_size db g <-> In g (map assigned_group (patients db)).
Proof.
  unfold cohort_size. rewrite in_map_iff. split.
  - destruct (cohort db g) as [|p l] eqn:E; simpl; [lia|]. intros _.
    assert (Hp : In p (cohort db g)) by (rewrite E; now left).
    apply cohort_In in Hp as [Hp Hg]. eauto.
  - intros (p & Hg & Hp).
    assert (Hc : In p (cohort db g)) by now apply cohort_In.
    destruct (cohort db g); [contradiction|]. simpl. lia.
Qed.

(** Under the data model the adherence query returns, for every label in
    use, the cohort's size and its number of adherent patients. *)
Lemma adherence_query_counts (threshold : F) (db : database F) :
  data_model db ->
  adherence_query threshold db
  = map (fun g => (g, cohort_size db g, cohort_adherent threshold db g))
      (group_labels (map assigned_group (patients db))).
Proof.
  intros Hdm. pose proof (data_model_matching db Hdm) as Hone.
  unfold adherence_query, adherence_join.
  replace (group_labels (map _ (inner_join _ _)))
    with (group_labels (map assigned_group (patients db))).
  2:{ apply ascending_unique; try apply group_labels_ascending.
      intros g. rewrite !group_labels_In. symmetry.
      now apply inner_join_groups. }
  apply map_ext. intros g.
  rewrite filter_in_group_inner_join.
  assert (Hone' : forall p, In p (cohort db g) ->
                            exists ma, matching p (medication_adherence db) = [ma]).
  { intros p Hp. apply Hone. now apply cohort_In in Hp. }
  unfold count_star, cohort_size, cohort_adherent, is_adherent_patient.
  rewrite sum_case_length.
  fold (cohort db g).
  rewrite (inner_join_length _ _ Hone').
  rewrite (inner_join_filter_length (fun ma => fleb threshold (pdc_score ma)) _ _ Hone').
  reflexivity.
Qed.

(** With unique patient ids the admissions query returns, for every label
    in use, the cohort's size and the number of its admission events. *)
Lemma admissions_query_counts (db : database F) :
  NoDup (map patient_id (patients db)) ->
  admissions_query db
  = map (fun g => (g, cohort_size db g, cohort_admissions db g))
      (group_labels (map assigned_group (patients db))).
Proof.
  intros Hnd. unfold admissions_query, admissions_join.
  replace (group_labels (map _ (left_join _ _)))
    with (group_labels (map assigned_group (patients db))).
  2:{ apply ascending_unique; try apply group_labels_ascending.
      intros g. rewrite !group_labels_In. symmetry.
      apply left_join_groups. }
  apply map_ext. intros g.
  rewrite filter_in_group_left_join. fold (cohort db g).
  assert (Hndc : NoDup (map patient_id (cohort db g)))
    by now apply NoDup_map_filter.
  unfold cohort_size, cohort_admissions.
  rewrite left_join_count_non_null by assumption.
  rewrite (count_distinct_eq _ (map patient_id (cohort db g))).
  - now rewrite length_map.
  - intros x. apply left_join_patient_ids.
  - assumption.
Qed.

Lemma two_cohort_labels (db : database F) :
  two_cohorts db ->
  0 < cohort_size db Group_1 -> 0 < cohort_size db Group_2 ->
  group_labels (map assigned_group (patients db)) = [Group_1; Group_2].
Proof.
  intros Htwo H1 H2. apply group_labels_two_cohorts.
  - intros g Hg. apply in_map_iff in Hg as (p & <- & Hp). now apply Htwo.
  - now apply cohort_size_pos.
  - now apply cohort_size_pos.
Qed.

End Queries.

(** ** [analysis], step by step *)

Section Analysis.
Context {F : Type} `{PyFloat F} `{SqlReal F}.

(** Once the two lists of records have two entries each, the result
    depends on the two divisors only. *)
Lemma analysis_steps (cfg : config F) (db : database F)
    (a0 a1 : adherence_record F) (ra : list (adherence_record F))
    (b0 b1 : admissions_record F) (rb : list (admissions_record F)) :
  map adherence_record_of (adherence_query (threshold_in_sql cfg) db)
  = a0 :: a1 :: ra ->
  map admissions_record_of (admissions_query db) = b0 :: b1 :: rb ->
  analysis cfg db
  = if fis_zero (adherence_rate a1) then Raise ZeroDivisionError
    else if fis_zero (admissions_per_1000 b1) then Raise ZeroDivisionError
    else Ok {| adherence_analysis := a0 :: a1 :: ra;
               admissions_analysis := b0 :: b1 :: rb;
               summary_findings := findings cfg a0 a1 b0 b1 |}.
Proof.
  intros Ea Eb. unfold analysis.
  rewrite adherence_data_of_ok, admissions_data_of_ok, Ea, Eb.
  cbn [rbind subscript nth_error]. unfold truediv.
  destruct (fis_zero (adherence_rate a1)); [reflexivity|].
  cbn [rbind subscript nth_error].
  destruct (fis_zero (admissions_per_1000 b1)); reflexivity.
Qed.

(** With fewer than two groups, a subscript is out of range. *)
Lemma analysis_index_error (cfg : config F) (db : database F) :
  (List.length (adherence_query (threshold_in_sql cfg) db) < 2)%nat ->
  analysis cfg db = Raise IndexError.
Proof.
  intros Hlen. unfold analysis. rewrite adherence_data_of_ok.
  destruct (adherence_query (threshold_in_sql cfg) db) as [|r0 [|r1 l]].
  - reflexivity.
  - reflexivity.
  - simpl in Hlen. lia.
Qed.

(** What a successful run went through. *)
Lemma analysis_inv (cfg : config F) (db : database F) (final : final_results F) :
  analysis cfg db = Ok final ->
  exists a0 a1 ra b0 b1 rb,
    map adherence_record_of (adherence_query (threshold_in_sql cfg) db)
    = a0 :: a1 :: ra
    /\ map admissions_record_of (admissions_query db) = b0 :: b1 :: rb
    /\ fis_zero (adherence_rate a1) = false
    /\ fis_zero (admissions_per_1000 b1) = false
    /\ final = {| adherence_analysis := a0 :: a1 :: ra;
                  admissions_analysis := b0 :: b1 :: rb;
                  summary_findings := findings cfg a0 a1 b0 b1 |}.
Proof.
  intros Hok.
  destruct (map adherence_record_of (adherence_query (threshold_in_sql cfg) db))
    as [|a0 [|a1 ra]] eqn:Ea.
  - rewrite analysis_index_error in Hok; [discriminate|].
    apply (f_equal (@List.length _)) in Ea. rewrite length_map in Ea.
    rewrite Ea. simpl. lia.
  - rewrite analysis_index_error in Hok; [discriminate|].
    apply (f_equal (@List.length _)) in Ea. rewrite length_map in Ea.
    rewrite Ea. simpl. lia.
  - destruct (map admissions_record_of (admissions_query db))
      as [|b0 [|b1 rb]] eqn:Eb.
    + unfold analysis in Hok.
      rewrite adherence_data_of_ok, admissions_data_of_ok, Ea, Eb in Hok.
      cbn [rbind subscript nth_error] in Hok. unfold truediv in Hok.
      destruct (fis_zero (adherence_rate a1)); discriminate.
    + unfold analysis in Hok.
      rewrite adherence_data_of_ok, admissions_data_of_ok, Ea, Eb in Hok.
      cbn [rbind subscript nth_error] in Hok. unfold truediv in Hok.
      destruct (fis_zero (adherence_rate a1)); discriminate.
    + rewrite (analysis_steps cfg db _ _ _ _ _ _ Ea Eb) in Hok.
      destruct (fis_zero (adherence_rate a1)) eqn:Z1; [discriminate|].
      destruct (fis_zero (admissions_per_1000 b1)) eqn:Z2; [discriminate|].
      injection Hok as <-.
      exists a0, a1, ra, b0, b1, rb. repeat split; assumption.
Qed.

(** The two lists of records when both cohorts are populated. *)
Lemma adherence_records_two_cohorts (threshold : F) (db : database F) :
  data_model db -> two_cohorts db ->
  0 < cohort_size db Group_1 -> 0 < cohort_size db Group_2 ->
  map adherence_record_of (adherence_query threshold db)
  = [adherence_summary threshold db Group_1;
     adherence_summary threshold db Group_2].
Proof.
  intros Hdm Htwo H1 H2.
  rewrite adherence_query_counts by assumption.
  rewrite two_cohort_labels by assumption. reflexivity.
Qed.

Lemma admissions_records_two_cohorts (db : database F) :
  data_model db -> two_cohorts db ->
  0 < cohort_size db Group_1 -> 0 < cohort_size db Group_2 ->
  map admissions_record_of (admissions_query db)
  = [admissions_summary db Group_1; admissions_summary db Group_2].
Proof.
  intros Hdm Htwo H1 H2.
  rewrite admissions_query_counts by apply Hdm.
  rewrite two_cohort_labels by assumption. reflexivity.
Qed.

End Analysis.

(** ** Facts about the sample tables *)

Lemma sample_db_data_model (F : Type) `{PyFloat F} :
  data_model (sample_db F).
Proof.
  split.
  - simpl. repeat constructor; simpl; intuition discriminate.
  - simpl. apply Permutation_refl.
  - intros ha Hin. simpl in Hin |- *.
    repeat (destruct Hin as [<-|Hin]; [simpl; intuition reflexivity|]).
    contradiction.
Qed.

Lemma sample_db_two_cohorts (F : Type) `{PyFloat F} :
  two_cohorts (sample_db F).
Proof.
  intros p Hin. simpl in Hin.
  repeat (destruct Hin as [<-|Hin]; [simpl; intuition reflexivity|]).
  contradiction.
Qed.

Lemma cohort_sizes_sum {F} (db : database F) :
  two_cohorts db ->
  cohort_size db Group_1 + cohort_size db Group_2
  = Z.of_nat (List.length (patients db)).
Proof.
  unfold two_cohorts, cohort_size, cohort.
  induction (patients db) as [|p ps IH]; intros Htwo; [reflexivity|].
  specialize (IH (fun q Hq => Htwo q (or_intror Hq))).
  cbn [filter].
  destruct (Htwo p (or_introl eq_refl)) as [-> | ->].
  - change (String.eqb Group_1 Group_1) with true.
    change (String.eqb Group_1 Group_2) with false.
    cbn [List.length]. lia.
  - change (String.eqb Group_2 Group_1) with false.
    change (String.eqb Group_2 Group_2) with true.
    cbn [List.length]. lia.
Qed.

(** ** C1: the three summary figures *)

(** C1 (as amended).  When both cohorts are populated and cohort B's
    adherence rate and admissions-per-1000 are not zero, the run succeeds,
    writes the document, and each of the three fields of
    [summary_findings] is the specification's formula applied to the
    per-cohort summaries, rounded to two decimals. *)
Theorem summary_findings_are_rounded_formulas
    {F : Type} `{PyFloat F} `{SqlReal F} (cfg : config F) (db : database F)
    (fs : filesystem F) :
  data_model db -> two_cohorts db ->
  0 < cohort_size db Group_1 -> 0 < cohort_size db Group_2 ->
  let threshold := threshold_in_sql cfg in
  let rate_A :=
    spec_rate (cohort_adherent threshold db Group_1) (cohort_size db Group_1) 100 in
  let rate_B :=
    spec_rate (cohort_adherent threshold db Group_2) (cohort_size db Group_2) 100 in
  let per_1000_A :=
    spec_rate (cohort_admissions db Group_1) (cohort_size db Group_1) 1000 in
  let per_1000_B :=
    spec_rate (cohort_admissions db Group_2) (cohort_size db Group_2) 1000 in
  fis_zero rate_B = false -> fis_zero per_1000_B = false ->
  exists final,
    run_analysis_and_export cfg db fs = (Ok tt, {| results_json := Some final |})
    /\ adherence_uplift_pct (summary_findings final)
       = fround (fmul (fsub (fdiv rate_A rate_B) (float_of_int 1)) (float_of_int 100)) 2
    /\ hospitalization_reduction_pct (summary_findings final)
       = fround
           (fmul (fsub (float_of_int 1) (fdiv per_1000_A per_1000_B))
              (float_of_int 100)) 2
    /\ cost_savings (summary_findings final)
       = fround
           (fmul
              (fsub
                 (fmul (fdiv per_1000_B (float_of_int 1000))
                    (float_of_int (cohort_size db Group_1)))
                 (float_of_int (cohort_admissions db Group_1)))
              (float_of_int (COST_PER_ADMISSION cfg))) 2.
Proof.
  intros Hdm Htwo H1 H2 threshold rate_A rate_B per_1000_A per_1000_B ZA ZB.
  pose proof (adherence_records_two_cohorts threshold db Hdm Htwo H1 H2) as Ea.
  pose proof (admissions_records_two_cohorts db Hdm Htwo H1 H2) as Eb.
  unfold run_analysis_and_export.
  rewrite (analysis_steps cfg db _ _ _ _ _ _ Ea Eb).
  cbn [adherence_rate adherence_summary admissions_per_1000 admissions_summary].
  fold rate_B per_1000_B. rewrite ZA, ZB.
  eexists. split; [reflexivity|].
  repeat split.
Qed.

Lemma summary_findings_are_rounded_formulas_witness :
  data_model (sample_db spec_float) /\ two_cohorts (sample_db spec_float)
  /\ exists final,
       run_analysis_and_export default_config (sample_db spec_float)
         (no_file spec_float)
       = (Ok tt, {| results_json := Some final |})
       (* -66.67, 66.67 and 29400.0 *)
       /\ adherence_uplift_pct (summary_findings final)
          = Binary64.double (-4691484174324859) (-46)
       /\ hospitalization_reduction_pct (summary_findings final)
          = Binary64.double 4691484174324859 (-46)
       /\ cost_savings (summary_findings final)
          = Binary64.double 8081410464153600 (-38).
Proof.
  split; [exact (sample_db_data_model spec_float)|].
  split; [exact (sample_db_two_cohorts spec_float)|].
  assert (H1 : 0 < cohort_size (sample_db spec_float) Group_1) by reflexivity.
  assert (H2 : 0 < cohort_size (sample_db spec_float) Group_2) by reflexivity.
  pose proof (summary_findings_are_rounded_formulas default_config
                (sample_db spec_float) (no_file spec_float)
                (sample_db_data_model spec_float)
                (sample_db_two_cohorts spec_float) H1 H2) as W.
  cbv zeta in W.
  destruct W as (final & Hrun & Hu & Hr & Hc);
    [vm_compute; reflexivity | vm_compute; reflexivity |].
  exists final. split; [exact Hrun|].
  rewrite Hu, Hr, Hc. repeat split; vm_compute; reflexivity.
Defined.

(** What CPython computes on the sample tables, double by double. *)
Example sample_run_binary64 :
  analysis default_config (sample_db spec_float)
  = Ok {| adherence_analysis :=
            [{| adh_group := "Group 1"; adh_total_patients := 3;
                adherent_patients := 1;
                (* 33.33333333333333 *)
                adherence_rate := Binary64.double 4691249611844266 (-47) |};
             {| adh_group := "Group 2"; adh_total_patients := 3;
                adherent_patients := 3;
                (* 100.0 *)
                adherence_rate := Binary64.double 7036874417766400 (-46) |}];
          admissions_analysis :=
            [{| adm_group := "Group 1"; adm_total_patients := 3;
                total_admissions := 1;
                (* 333.3333333333333 *)
                admissions_per_1000 := Binary64.double 5864062014805333 (-44) |};
             {| adm_group := "Group 2"; adm_total_patients := 3;
                total_admissions := 3;
                (* 1000.0 *)
                admissions_per_1000 := Binary64.double 8796093022208000 (-43) |}];
          summary_findings :=
            {| (* -66.67 *)
               adherence_uplift_pct := Binary64.double (-4691484174324859) (-46);
               (* 66.67 *)
               hospitalization_reduction_pct :=
                 Binary64.double 4691484174324859 (-46);
               (* 29400.0 *)
               cost_savings := Binary64.double 8081410464153600 (-38) |} |}.
Proof. vm_compute. reflexivity. Qed.

(** C1 as stated fails: on the sample tables both cohorts are populated
    and cohort B's rates are not zero, yet the exported uplift is
    [-66.67] while the formula gives [-200/3] on exact rationals and
    [-66.66666666666667] on doubles. *)
Lemma summary_findings_not_the_exact_formulas :
  (0 < cohort_size (sample_db Q) Group_1 /\ 0 < cohort_size (sample_db Q) Group_2)
  /\ (exists final,
        run_analysis_and_export default_config (sample_db Q) (no_file Q)
        = (Ok tt, {| results_json := Some final |})
        /\ ~ Qeq (adherence_uplift_pct (summary_findings final))
               (spec_adherence_uplift
                  (adherence_rate
                     (adherence_summary (threshold_in_sql default_config)
                        (sample_db Q) Group_1))
                  (adherence_rate
                     (adherence_summary (threshold_in_sql default_config)
                        (sample_db Q) Group_2))))
  /\ (exists final,
        run_analysis_and_export default_config (sample_db spec_float)
          (no_file spec_float)
        = (Ok tt, {| results_json := Some final |})
        /\ adherence_uplift_pct (summary_findings final)
           = Binary64.double (-4691484174324859) (-46)
        /\ spec_adherence_uplift
             (adherence_rate
                (adherence_summary (threshold_in_sql default_config)
                   (sample_db spec_float) Group_1))
             (adherence_rate
                (adherence_summary (threshold_in_sql default_config)
                   (sample_db spec_float) Group_2))
           = Binary64.double (-4691249611844267) (-46)).
Proof.
  split; [split; reflexivity|]. split.
  - eexists. split; [vm_compute; reflexivity|].
    vm_compute. discriminate.
  - eexists. split; [vm_compute; reflexivity|].
    split; vm_compute; reflexivity.
Qed.

(** ** C2: the adherence summary *)

Lemma pow10_pos (n : Z) : (0 < pow10 n)%Q.
Proof. unfold pow10. now apply Qpower_0_lt. Qed.

Lemma pow10_nonzero (n : Z) : ~ (pow10 n == 0)%Q.
Proof. pose proof (pow10_pos n). lra. Qed.


Lemma filter_length_le {A} (f : A -> bool) (l : list A) :
  (List.length (filter f l) <= List.length l)%nat.
Proof.
  induction l as [|a l IH]; simpl; [lia|].
  destruct (f a); simpl; lia.
Qed.




(** ** C4: the admissions summary *)

(** C4.  With the data model's invariants and two populated cohorts, the
    admissions summary has one record per cohort; a record counts every
    patient of the cohort, admitted or not, and every admission event of
    those patients, and its rate is admissions / patients * 1000.  In both
    summaries the patient counts of the two cohorts add up to the number
    of patients. *)
Theorem admissions_summary_counts_every_patient
    {F : Type} `{PyFloat F} `{SqlReal F} (cfg : config F) (db : database F) :
  data_model db -> two_cohorts db ->
  0 < cohort_size db Group_1 -> 0 < cohort_size db Group_2 ->
  let threshold := threshold_in_sql cfg in
  let N := Z.of_nat (List.length (patients db)) in
  admissions_data_of (admissions_query db)
  = Ok [admissions_summary db Group_1; admissions_summary db Group_2]
  /\ adherence_data_of (adherence_query threshold db)
     = Ok [adherence_summary threshold db Group_1;
           adherence_summary threshold db Group_2]
  /\ (forall g,
        let r := admissions_summary db g in
        adm_total_patients r
        = Z.of_nat
            (List.length
               (filter (fun p => String.eqb (assigned_group p) g) (patients db)))
        /\ total_admissions r
           = Z.of_nat
               (List.length
                  (filter
                     (fun ha =>
                        existsb (fun p => patient_id p =? ha_patient_id ha)
                          (cohort db g))
                     (hospital_admissions db)))
        /\ admissions_per_1000 r
           = fmul (int_div (total_admissions r) (adm_total_patients r))
               (float_of_int 1000))
  /\ adm_total_patients (admissions_summary db Group_1)
     + adm_total_patients (admissions_summary db Group_2) = N
  /\ adh_total_patients (adherence_summary threshold db Group_1)
     + adh_total_patients (adherence_summary threshold db Group_2) = N.
Proof.
  intros Hdm Htwo H1 H2 threshold N.
  split; [|split; [|split; [|split]]].
  - rewrite admissions_data_of_ok.
    now rewrite admissions_records_two_cohorts.
  - rewrite adherence_data_of_ok.
    now rewrite adherence_records_two_cohorts.
  - intros g. repeat split.
  - now apply cohort_sizes_sum.
  - now apply cohort_sizes_sum.
Qed.

Lemma admissions_summary_counts_every_patient_witness :
  data_model (sample_db spec_float) /\ two_cohorts (sample_db spec_float)
  /\ admissions_data_of (admissions_query (sample_db spec_float))
     = Ok [{| adm_group := Group_1; adm_total_patients := 3;
              total_admissions := 1;
              (* 333.3333333333333 *)
              admissions_per_1000 := Binary64.double 5864062014805333 (-44) |};
           {| adm_group := Group_2; adm_total_patients := 3;
              total_admissions := 3;
              (* 1000.0 *)
              admissions_per_1000 := Binary64.double 8796093022208000 (-43) |}]
  /\ 3 + 3 = Z.of_nat (List.length (patients (sample_db spec_float))).
Proof.
  split; [exact (sample_db_data_model spec_float)|].
  split; [exact (sample_db_two_cohorts spec_float)|].
  assert (H1 : 0 < cohort_size (sample_db spec_float) Group_1) by reflexivity.
  assert (H2 : 0 < cohort_size (sample_db spec_float) Group_2) by reflexivity.
  destruct (admissions_summary_counts_every_patient default_config
              (sample_db spec_float) (sample_db_data_model spec_float)
              (sample_db_two_cohorts spec_float) H1 H2)
    as (E & _ & _ & S & _).
  split; [|exact S].
  rewrite E. vm_compute. reflexivity.
Defined.

(** ** C8: degenerate input *)

Lemma inner_join_labels_subset {F} (ps : list patient) (ads : list (adherence F))
    (g : string) :
  In g (map (fun r => assigned_group (fst r)) (inner_join ps ads)) ->
  In g (map assigned_group ps).
Proof.
  unfold inner_join. rewrite !in_map_iff.
  intros ([p ma] & <- & Hin). apply in_flat_map in Hin as (p' & Hp' & Hin).
  apply in_map_iff in Hin as (ma' & [= <- <-] & _).
  exists p'. auto.
Qed.

Lemma group_labels_single_bound (g : string) (l : list string) :
  (forall x, In x l -> x = g) -> (List.length (group_labels l) <= 1)%nat.
Proof.
  intros Hall. destruct l as [|x l]; [simpl; lia|].
  rewrite (group_labels_one_cohort g); [simpl; lia | assumption |].
  left. apply Hall. now left.
Qed.

Lemma empty_cohort_one_label {F} (db : database F) (g g' : string) :
  (forall p, In p (patients db) -> assigned_group p = g \/ assigned_group p = g') ->
  cohort_size db g = 0 ->
  forall x, In x (map assigned_group (patients db)) -> x = g'.
Proof.
  intros Htwo Hempty x Hx.
  apply in_map_iff in Hx as (p & <- & Hp).
  destruct (Htwo p Hp) as [E|E]; [|assumption].
  exfalso. assert (Hpos : 0 < cohort_size db g).
  { apply cohort_size_pos, in_map_iff. eauto. }
  lia.
Qed.

Section Degenerate.
Context {F : Type} `{PyFloat F} `{SqlReal F}.

Lemma empty_cohort_index_error (cfg : config F) (db : database F) :
  two_cohorts db ->
  cohort_size db Group_1 = 0 \/ cohort_size db Group_2 = 0 ->
  analysis cfg db = Raise IndexError.
Proof.
  intros Htwo Hempty. apply analysis_index_error.
  unfold adherence_query. rewrite length_map.
  enough (exists g, forall x,
             In x (map (fun r => assigned_group (fst r)) (adherence_join db)) ->
             x = g) as [g Hg].
  { pose proof (group_labels_single_bound g _ Hg). lia. }
  destruct Hempty as [E|E].
  - exists Group_2. intros x Hx. apply inner_join_labels_subset in Hx.
    now apply (empty_cohort_one_label db Group_1 Group_2).
  - exists Group_1. intros x Hx. apply inner_join_labels_subset in Hx.
    apply (empty_cohort_one_label db Group_2 Group_1); try assumption.
    intros p Hp. destruct (Htwo p Hp); auto.
Qed.

(** C8 (as amended).  A run that raises leaves the file system untouched,
    and the document is written only by a run whose every metric was
    computed.  With an empty cohort the error is an [IndexError]: the list
    of per-cohort records has fewer than two entries; no division takes
    place.  With two populated cohorts, a zero adherence rate or a zero
    admissions-per-1000 of cohort B raises [ZeroDivisionError]. *)
Theorem degenerate_input_raises_and_writes_nothing
    (cfg : config F) (db : database F) (fs : filesystem F) :
  (forall e, analysis cfg db = Raise e ->
             run_analysis_and_export cfg db fs = (Raise e, fs))
  /\ (forall out, run_analysis_and_export cfg db fs = (Ok tt, out) ->
                  exists final, analysis cfg db = Ok final
                                /\ out = {| results_json := Some final |})
  /\ (two_cohorts db ->
      cohort_size db Group_1 = 0 \/ cohort_size db Group_2 = 0 ->
      run_analysis_and_export cfg db fs = (Raise IndexError, fs))
  /\ (data_model db -> two_cohorts db ->
      0 < cohort_size db Group_1 -> 0 < cohort_size db Group_2 ->
      fis_zero (adherence_rate
                  (adherence_summary (threshold_in_sql cfg) db Group_2)) = true
      \/ fis_zero (admissions_per_1000 (admissions_summary db Group_2)) = true ->
      run_analysis_and_export cfg db fs = (Raise ZeroDivisionError, fs)).
Proof.
  unfold run_analysis_and_export. repeat split.
  - intros e ->. reflexivity.
  - intros out. destruct (analysis cfg db) as [final|e]; [|discriminate].
    intros [= <-]. eauto.
  - intros Htwo Hempty. now rewrite empty_cohort_index_error.
  - intros Hdm Htwo H1 H2 Hzero.
    rewrite (analysis_steps cfg db _ _ _ _ _ _
               (adherence_records_two_cohorts _ db Hdm Htwo H1 H2)
               (admissions_records_two_cohorts db Hdm Htwo H1 H2)).
    destruct (fis_zero (adherence_rate _)); [reflexivity|].
    destruct Hzero as [Hz|Hz]; [discriminate|]. now rewrite Hz.
Qed.

End Degenerate.

Lemma empty_cohort_db_two_cohorts (F : Type) `{PyFloat F} :
  two_cohorts (empty_cohort_db F).
Proof.
  intros p Hin. simpl in Hin.
  repeat (destruct Hin as [<-|Hin]; [simpl; intuition reflexivity|]).
  contradiction.
Qed.

Lemma zero_rate_db_data_model (F : Type) `{PyFloat F} :
  data_model (zero_rate_db F).
Proof.
  split.
  - simpl. repeat constructor; simpl; intuition discriminate.
  - simpl. apply Permutation_refl.
  - intros ha Hin. simpl in Hin |- *.
    repeat (destruct Hin as [<-|Hin]; [simpl; intuition reflexivity|]).
    contradiction.
Qed.

Lemma zero_rate_db_two_cohorts (F : Type) `{PyFloat F} :
  two_cohorts (zero_rate_db F).
Proof.
  intros p Hin. simpl in Hin.
  repeat (destruct Hin as [<-|Hin]; [simpl; intuition reflexivity|]).
  contradiction.
Qed.

Lemma zero_admissions_db_data_model (F : Type) `{PyFloat F} :
  data_model (zero_admissions_db F).
Proof.
  split.
  - simpl. repeat constructor; simpl; intuition discriminate.
  - simpl. apply Permutation_refl.
  - intros ha Hin. simpl in Hin |- *.
    repeat (destruct Hin as [<-|Hin]; [simpl; intuition reflexivity|]).
    contradiction.
Qed.

Lemma zero_admissions_db_two_cohorts (F : Type) `{PyFloat F} :
  two_cohorts (zero_admissions_db F).
Proof.
  intros p Hin. simpl in Hin.
  repeat (destruct Hin as [<-|Hin]; [simpl; intuition reflexivity|]).
  contradiction.
Qed.

Lemma degenerate_input_raises_and_writes_nothing_witness :
  run_analysis_and_export default_config (empty_cohort_db spec_float)
    (no_file spec_float)
  = (Raise IndexError, no_file spec_float)
  /\ run_analysis_and_export default_config (zero_rate_db spec_float)
       (no_file spec_float)
     = (Raise ZeroDivisionError, no_file spec_float)
  /\ run_analysis_and_export default_config (zero_admissions_db spec_float)
       (no_file spec_float)
     = (Raise ZeroDivisionError, no_file spec_float).
Proof.
  split; [|split].
  - apply (degenerate_input_raises_and_writes_nothing default_config
             (empty_cohort_db spec_float) (no_file spec_float)).
    + exact (empty_cohort_db_two_cohorts spec_float).
    + left. reflexivity.
  - apply (degenerate_input_raises_and_writes_nothing default_config
             (zero_rate_db spec_float) (no_file spec_float)).
    + exact (zero_rate_db_data_model spec_float).
    + exact (zero_rate_db_two_cohorts spec_float).
    + reflexivity.
    + reflexivity.
    + left. vm_compute. reflexivity.
  - apply (degenerate_input_raises_and_writes_nothing default_config
             (zero_admissions_db spec_float) (no_file spec_float)).
    + exact (zero_admissions_db_data_model spec_float).
    + exact (zero_admissions_db_two_cohorts spec_float).
    + reflexivity.
    + reflexivity.
    + right. vm_compute. reflexivity.
Defined.

(** C8 as stated fails: with Group 1 empty the run raises [IndexError],
    not a division by zero, on exact rationals and on doubles alike. *)
Lemma empty_cohort_is_not_a_division_by_zero :
  cohort_size (empty_cohort_db Q) Group_1 = 0
  /\ run_analysis_and_export default_config (empty_cohort_db Q) (no_file Q)
     = (Raise IndexError, no_file Q)
  /\ run_analysis_and_export default_config (empty_cohort_db spec_float)
       (no_file spec_float)
     = (Raise IndexError, no_file spec_float)
  /\ fst (run_analysis_and_export default_config (empty_cohort_db spec_float)
            (no_file spec_float))
     <> Raise ZeroDivisionError.
Proof.
  split; [reflexivity|]. split; [vm_compute; reflexivity|].
  split; [vm_compute; reflexivity|].
  vm_compute. discriminate.
Qed.

(** ** C9: the result depends on the rows, not on their order *)

Lemma flat_map_Permutation_ext {A B} (f g : A -> list B) (l : list A) :
  (forall a, In a l -> Permutation (f a) (g a)) ->
  Permutation (flat_map f l) (flat_map g l).
Proof.
  induction l as [|a l IH]; simpl; intros Hfg; [constructor|].
  apply Permutation_app; auto.
Qed.

Lemma inner_join_Permutation {F} (ps ps' : list patient)
    (ads ads' : list (adherence F)) :
  Permutation ps ps' -> Permutation ads ads' ->
  Permutation (inner_join ps ads) (inner_join ps' ads').
Proof.
  intros Hp Ha. unfold inner_join.
  transitivity (flat_map (fun p => map (pair p) (matching p ads)) ps').
  - now apply Permutation_flat_map.
  - apply flat_map_Permutation_ext. intros p _.
    apply Permutation_map. unfold matching. now apply Permutation_filter.
Qed.

Lemma admission_rows_Permutation (p : patient) (hs hs' : list admission) :
  Permutation hs hs' ->
  Permutation (admission_rows p hs) (admission_rows p hs').
Proof.
  intros Hh. unfold admission_rows.
  pose proof (Permutation_filter
                (fun ha => patient_id p =? ha_patient_id ha) _ _ Hh) as Hf.
  destruct (filter _ hs) as [|h l], (filter _ hs') as [|h' l'].
  - apply Permutation_refl.
  - apply Permutation_nil in Hf. discriminate.
  - apply Permutation_sym, Permutation_nil in Hf. discriminate.
  - now apply Permutation_map.
Qed.

Lemma left_join_Permutation (ps ps' : list patient) (hs hs' : list admission) :
  Permutation ps ps' -> Permutation hs hs' ->
  Permutation (left_join ps hs) (left_join ps' hs').
Proof.
  intros Hp Hh. unfold left_join.
  transitivity (flat_map (fun p => admission_rows p hs) ps').
  - now apply Permutation_flat_map.
  - apply flat_map_Permutation_ext. intros p _.
    now apply admission_rows_Permutation.
Qed.

Lemma count_distinct_Permutation (l l' : list Z) :
  Permutation l l' -> count_distinct l = count_distinct l'.
Proof.
  intros HP. unfold count_distinct at 2.
  apply count_distinct_eq; [|apply NoDup_nodup].
  intros x. rewrite nodup_In.
  split; apply Permutation_in; [assumption | now apply Permutation_sym].
Qed.

Section OrderIndependence.
Context {F : Type} `{PyFloat F} `{SqlReal F}.

Lemma adherence_query_Permutation (threshold : F) (db db' : database F) :
  same_rows db db' ->
  adherence_query threshold db = adherence_query threshold db'.
Proof.
  intros (Hp & Ha & _).
  pose proof (inner_join_Permutation _ _ _ _ Hp Ha) as Hj.
  unfold adherence_query, adherence_join.
  rewrite (group_labels_Permutation _ _
             (Permutation_map (fun r => assigned_group (fst r)) Hj)).
  apply map_ext. intros g.
  pose proof (Permutation_filter (in_group g) _ _ Hj) as Hg.
  unfold count_star. rewrite !sum_case_length.
  rewrite (Permutation_length Hg).
  rewrite (Permutation_length
             (Permutation_filter
                (fun r => fleb threshold (pdc_score (snd r))) _ _ Hg)).
  reflexivity.
Qed.

Lemma admissions_query_Permutation (db db' : database F) :
  same_rows db db' -> admissions_query db = admissions_query db'.
Proof.
  intros (Hp & _ & Hh).
  pose proof (left_join_Permutation _ _ _ _ Hp Hh) as Hj.
  unfold admissions_query, admissions_join.
  rewrite (group_labels_Permutation _ _
             (Permutation_map (fun r => assigned_group (fst r)) Hj)).
  apply map_ext. intros g.
  pose proof (Permutation_filter (in_group g) _ _ Hj) as Hg.
  rewrite (count_distinct_Permutation _ _
             (Permutation_map (fun r => patient_id (fst r)) Hg)).
  unfold count_non_null.
  rewrite (Permutation_length
             (Permutation_filter _ _ _
                (Permutation_map (fun r => option_map admission_id (snd r)) Hg))).
  reflexivity.
Qed.

Lemma adherence_records_labels (threshold : F) (db : database F) :
  map adh_group (map adherence_record_of (adherence_query threshold db))
  = group_labels (map (fun r => assigned_group (fst r)) (adherence_join db)).
Proof.
  unfold adherence_query. rewrite !map_map.
  rewrite <- (map_id (group_labels _)) at 2. reflexivity.
Qed.

Lemma admissions_records_labels (db : database F) :
  map adm_group (map admissions_record_of (admissions_query db))
  = group_labels (map (fun r => assigned_group (fst r)) (admissions_join db)).
Proof.
  unfold admissions_query. rewrite !map_map.
  rewrite <- (map_id (group_labels _)) at 2. reflexivity.
Qed.

(** C9.  Two runs on tables that hold the same rows, in whatever order and
    with whatever earlier content of the output file, end alike: the same
    exception, or the same document written.  In a document the
    per-cohort records of each summary are in ascending order of their
    cohort label, each label once. *)
Theorem analysis_is_a_function_of_the_rows
    (cfg : config F) (db db' : database F) (fs fs' : filesystem F) :
  same_rows db db' ->
  analysis cfg db = analysis cfg db'
  /\ run_analysis_and_export cfg db fs = run_analysis_and_export cfg db' fs
  /\ fst (run_analysis_and_export cfg db fs)
     = fst (run_analysis_and_export cfg db' fs')
  /\ (forall final,
        analysis cfg db = Ok final ->
        results_json (snd (run_analysis_and_export cfg db fs)) = Some final
        /\ results_json (snd (run_analysis_and_export cfg db' fs')) = Some final
        /\ ascending (map adh_group (adherence_analysis final))
        /\ ascending (map adm_group (admissions_analysis final))).
Proof.
  intros Hsame.
  assert (E : analysis cfg db = analysis cfg db').
  { unfold analysis.
    rewrite (adherence_query_Permutation _ db db' Hsame).
    rewrite (admissions_query_Permutation db db' Hsame). reflexivity. }
  unfold run_analysis_and_export. rewrite <- E.
  split; [reflexivity|]. split; [reflexivity|]. split.
  - destruct (analysis cfg db); reflexivity.
  - intros final Hok. rewrite Hok. cbn [snd results_json].
    split; [reflexivity|]. split; [reflexivity|].
    apply analysis_inv in Hok
      as (a0 & a1 & ra & b0 & b1 & rb & Ea & Eb & _ & _ & ->).
    cbn [adherence_analysis admissions_analysis]. split.
    + rewrite <- Ea, adherence_records_labels. apply group_labels_ascending.
    + rewrite <- Eb, admissions_records_labels. apply group_labels_ascending.
Qed.

End OrderIndependence.

Lemma sample_db_same_rows (F : Type) `{PyFloat F} :
  same_rows (sample_db F) (sample_db_shuffled F).
Proof.
  unfold same_rows, sample_db, sample_db_shuffled. cbn [patients
    medication_adherence hospital_admissions].
  repeat split; repeat perm_step.
Qed.

Lemma analysis_is_a_function_of_the_rows_witness :
  same_rows (sample_db spec_float) (sample_db_shuffled spec_float)
  /\ run_analysis_and_export default_config (sample_db spec_float)
       (no_file spec_float)
     = run_analysis_and_export default_config (sample_db_shuffled spec_float)
         (no_file spec_float).
Proof.
  split; [exact (sample_db_same_rows spec_float)|].
  apply (analysis_is_a_function_of_the_rows default_config
           (sample_db spec_float) (sample_db_shuffled spec_float)
           (no_file spec_float) (no_file spec_float)
           (sample_db_same_rows spec_float)).
Defined.

(** ** C7: which fields are rounded *)

Lemma Qround_ndigits_has_decimals (x : Q) (ndigits : Z) :
  has_decimals ndigits (Qround_ndigits x ndigits).
Proof.
  exists (round_half_even (x * pow10 ndigits)).
  unfold Qround_ndigits. pose proof (pow10_nonzero ndigits). now field.
Qed.

(** C7 (as amended).  In a document the three fields of [summary_findings]
    have at most two decimals.  The per-cohort fields [adherence_rate] and
    [admissions_per_1000] are exported as computed, the unrounded quotient
    times 100 or 1000, and the three figures are computed from these
    unrounded values. *)
Theorem only_summary_findings_are_rounded
    (cfg : config Q) (db : database Q) (final : final_results Q) :
  analysis cfg db = Ok final ->
  has_decimals 2 (adherence_uplift_pct (summary_findings final))
  /\ has_decimals 2 (hospitalization_reduction_pct (summary_findings final))
  /\ has_decimals 2 (cost_savings (summary_findings final))
  /\ (forall r, In r (adherence_analysis final) ->
        adherence_rate r
        = (inject_Z (adherent_patients r) / inject_Z (adh_total_patients r)
           * 100)%Q)
  /\ (forall r, In r (admissions_analysis final) ->
        admissions_per_1000 r
        = (inject_Z (total_admissions r) / inject_Z (adm_total_patients r)
           * 1000)%Q)
  /\ exists a0 a1 b0 b1,
       nth_error (adherence_analysis final) 0 = Some a0
       /\ nth_error (adherence_analysis final) 1 = Some a1
       /\ nth_error (admissions_analysis final) 0 = Some b0
       /\ nth_error (admissions_analysis final) 1 = Some b1
       /\ adherence_uplift_pct (summary_findings final)
          = Qround_ndigits
              ((adherence_rate a0 / adherence_rate a1 - 1) * 100)%Q 2
       /\ hospitalization_reduction_pct (summary_findings final)
          = Qround_ndigits
              ((1 - admissions_per_1000 b0 / admissions_per_1000 b1) * 100)%Q 2
       /\ cost_savings (summary_findings final)
          = Qround_ndigits
              ((admissions_per_1000 b1 / 1000 * inject_Z (adm_total_patients b0)
                - inject_Z (total_admissions b0))
               * inject_Z (COST_PER_ADMISSION cfg))%Q 2.
Proof.
  intros Hok.
  apply analysis_inv in Hok
    as (a0 & a1 & ra & b0 & b1 & rb & Ea & Eb & _ & _ & ->).
  cbn [summary_findings findings adherence_uplift_pct
         hospitalization_reduction_pct cost_savings adherence_analysis
         admissions_analysis].
  split; [apply Qround_ndigits_has_decimals|].
  split; [apply Qround_ndigits_has_decimals|].
  split; [apply Qround_ndigits_has_decimals|].
  split; [|split].
  - intros r Hr. rewrite <- Ea in Hr.
    apply in_map_iff in Hr as ([[g total] adherent] & <- & _). reflexivity.
  - intros r Hr. rewrite <- Eb in Hr.
    apply in_map_iff in Hr as ([[g total] adm] & <- & _). reflexivity.
  - exists a0, a1, b0, b1. repeat split.
Qed.

Lemma only_summary_findings_are_rounded_witness :
  exists final,
    analysis default_config (sample_db Q) = Ok final
    /\ has_decimals 2 (adherence_uplift_pct (summary_findings final))
    /\ has_decimals 2 (hospitalization_reduction_pct (summary_findings final))
    /\ has_decimals 2 (cost_savings (summary_findings final)).
Proof.
  eexists. split; [vm_compute; reflexivity|].
  match goal with
  | |- has_decimals 2 (adherence_uplift_pct (summary_findings ?f)) /\ _ =>
      pose proof (only_summary_findings_are_rounded default_config (sample_db Q) f)
        as W
  end.
  destruct W as (W1 & W2 & W3 & _); [vm_compute; reflexivity|].
  repeat split; assumption.
Defined.

(** C7 as stated fails: on the sample tables the exported [adherence_rate]
    of Group 1 is [100/3] and the exported [admissions_per_1000] is
    [1000/3]; neither has two decimals.  On doubles the exported
    [adherence_rate] is [33.33333333333333], which [round(x, 2)] would
    turn into [33.33]. *)
Lemma per_cohort_rates_are_not_rounded :
  (exists final a0 b0,
     run_analysis_and_export default_config (sample_db Q) (no_file Q)
     = (Ok tt, {| results_json := Some final |})
     /\ nth_error (adherence_analysis final) 0 = Some a0
     /\ nth_error (admissions_analysis final) 0 = Some b0
     /\ ~ has_decimals 2 (adherence_rate a0)
     /\ ~ has_decimals 2 (admissions_per_1000 b0)
     /\ ~ Qeq (Qround_ndigits (adherence_rate a0) 2) (adherence_rate a0))
  /\ (exists final a0,
        run_analysis_and_export default_config (sample_db spec_float)
          (no_file spec_float)
        = (Ok tt, {| results_json := Some final |})
        /\ nth_error (adherence_analysis final) 0 = Some a0
        /\ adherence_rate a0 = Binary64.double 4691249611844266 (-47)
        /\ fround (adherence_rate a0) 2 = Binary64.double 4690780486883082 (-47)).
Proof.
  split.
  - do 3 eexists. split; [vm_compute; reflexivity|].
    split; [reflexivity|]. split; [reflexivity|].
    cbn [adherence_rate admissions_per_1000].
    split; [|split].
    + intros [n Hn]. unfold Qeq in Hn. cbn in Hn. lia.
    + intros [n Hn]. unfold Qeq in Hn. cbn in Hn. lia.
    + vm_compute. discriminate.
  - do 2 eexists. split; [vm_compute; reflexivity|].
    split; [reflexivity|]. split; vm_compute; reflexivity.
Qed.

(** ** The generator's loops *)

Lemma range_nil (a b : Z) : b <= a -> range a b = [].
Proof.
  intros Hle. unfold range.
  replace (Z.to_nat (b - a)) with 0%nat by lia. reflexivity.
Qed.

Lemma range_cons (a b : Z) : a < b -> range a b = a :: range (a + 1) b.
Proof.
  intros Hlt. unfold range.
  replace (Z.to_nat (b - a)) with (S (Z.to_nat (b - (a + 1)))) by lia.
  cbn [seq map]. f_equal; [lia|].
  rewrite <- seq_shift, map_map. apply map_ext. intros k. lia.
Qed.

Lemma range_length (a b : Z) : List.length (range a b) = Z.to_nat (b - a).
Proof. unfold range. now rewrite length_map, length_seq. Qed.

Lemma range_In (a b i : Z) : In i (range a b) <-> a <= i < b.
Proof.
  unfold range. rewrite in_map_iff. split.
  - intros (k & <- & Hk). apply in_seq in Hk. lia.
  - intros Hi. exists (Z.to_nat (i - a)). split; [lia|].
    apply in_seq. lia.
Qed.

Lemma range_NoDup (a b : Z) : NoDup (range a b).
Proof.
  remember (Z.to_nat (b - a)) as n eqn:En. revert a En.
  induction n as [|n IH]; intros a En.
  - rewrite range_nil by lia. constructor.
  - rewrite range_cons by lia. constructor.
    + rewrite range_In. lia.
    + apply IH. lia.
Qed.

Lemma range_app (a b c : Z) :
  a <= b <= c -> range a c = (range a b ++ range b c)%list.
Proof.
  remember (Z.to_nat (b - a)) as n eqn:En. revert a En.
  induction n as [|n IH]; intros a En Hle.
  - assert (a = b) as -> by lia. now rewrite (range_nil b b) by lia.
  - rewrite (range_cons a c), (range_cons a b) by lia.
    cbn [app]. f_equal. apply IH; lia.
Qed.

Section Loops.
Context {F rng : Type} `{PyFloat F} `{SqlReal F} `{RandomSource F rng}.

Lemma for_each_cons {A B} (body : A -> Rand rng B) (a : A) (l : list A) (s : rng) :
  for_each body (a :: l) s
  = (fst (body a s) :: fst (for_each body l (snd (body a s))),
     snd (for_each body l (snd (body a s)))).
Proof.
  cbn [for_each]. unfold bind, ret.
  destruct (body a s) as [b s1]. cbn [fst snd].
  destruct (for_each body l s1) as [bs s2]. reflexivity.
Qed.

(** Every element a loop appends comes from one run of its body. *)
Lemma for_each_Forall2 {A B} (body : A -> Rand rng B) (l : list A) (s : rng) :
  Forall2 (fun a b => exists s0, b = fst (body a s0)) l (fst (for_each body l s)).
Proof.
  revert s. induction l as [|a l IH]; intros s.
  - constructor.
  - rewrite for_each_cons. cbn [fst]. constructor; [eauto | apply IH].
Qed.

Lemma for_each_In {A B} (body : A -> Rand rng B) (l : list A) (s : rng) (b : B) :
  In b (fst (for_each body l s)) ->
  exists a s0, In a l /\ b = fst (body a s0).
Proof.
  intros Hin. pose proof (for_each_Forall2 body l s) as HF.
  induction HF as [|a b' l l' Hab _ IH].
  - contradiction.
  - destruct Hin as [<-|Hin].
    + destruct Hab as [s0 ->]. exists a, s0. split; [now left | reflexivity].
    + destruct (IH Hin) as (a' & s0 & Ha' & ->).
      exists a', s0. split; [now right | reflexivity].
Qed.

Lemma for_each_map {A B C} (body : A -> Rand rng B) (f : B -> C) (g : A -> C)
    (l : list A) (s : rng) :
  (forall a s0, f (fst (body a s0)) = g a) ->
  map f (fst (for_each body l s)) = map g l.
Proof.
  intros Hfg. revert s. induction l as [|a l IH]; intros s.
  - reflexivity.
  - rewrite for_each_cons. cbn [fst map]. now rewrite Hfg, IH.
Qed.

Lemma for_each_length {A B} (body : A -> Rand rng B) (l : list A) (s : rng) :
  List.length (fst (for_each body l s)) = List.length l.
Proof.
  rewrite <- (length_map (fun _ => tt) (fst _)).
  rewrite (for_each_map body (fun _ => tt) (fun _ => tt)) by reflexivity.
  apply length_map.
Qed.

Lemma make_patient_fst (num_group_1 i : Z) (s : rng) :
  fst (make_patient num_group_1 i s)
  = {| patient_id := i;
       assigned_group := if i <=? num_group_1 then Group_1 else Group_2;
       age := fst (randint 65 95 s) |}.
Proof.
  unfold make_patient, bind, ret. now destruct (randint 65 95 s).
Qed.

Lemma draw_adherence_patient_id (cfg : config F) (p : patient) (s : rng) :
  ma_patient_id (fst (draw_adherence cfg p s)) = patient_id p.
Proof.
  unfold draw_adherence, bind, ret.
  destruct (random s) as [u s1].
  destruct (fltb u _);
    match goal with
    | |- context [uniform ?a ?b s1] => now destruct (uniform a b s1)
    end.
Qed.

(** The inner loop: [n] rows for the patient, numbered from the counter
    on, each dated by one call of [date_between]. *)
Lemma append_admissions_spec (n : nat) (pid c : Z) (s : rng) :
  let rows := fst (fst (append_admissions n pid c s)) in
  snd (fst (append_admissions n pid c s)) = c + Z.of_nat n
  /\ map admission_id rows = range c (c + Z.of_nat n)
  /\ Forall (fun e => ha_patient_id e = pid
                      /\ exists s0, admission_date e
                                    = fst (date_between "-1y" "today" s0)) rows.
Proof.
  cbv zeta. revert c s.
  induction n as [|n IH]; intros c s; cbn [append_admissions].
  - unfold ret. cbn [fst snd]. rewrite range_nil by lia.
    repeat split; [lia | constructor].
  - unfold bind. destruct (date_between "-1y" "today" s) as [d s1] eqn:Ed.
    specialize (IH (c + 1) s1).
    destruct (append_admissions n pid (c + 1) s1) as [[rows c'] s2].
    unfold ret. cbn [fst snd] in *. destruct IH as (Hc & Hids & Hall).
    repeat split.
    + lia.
    + cbn [map admission_id]. rewrite (range_cons c) by lia.
      f_equal. rewrite Hids. f_equal. lia.
    + constructor; [|assumption]. cbn [ha_patient_id admission_date].
      split; [reflexivity|]. exists s. now rewrite Ed.
Qed.

End Loops.

Section AdmissionsLoop.
Context {F rng : Type} `{PyFloat F} `{RandomSource F rng}.

Lemma patient_admissions_unfold (cfg : config F) (row : patient * adherence F)
    (c : Z) (s : rng) :
  let admission_prob :=
    if fleb (ADHERENCE_THRESHOLD cfg) (pdc_score (snd row))
    then ADHERENT_PATIENT_ADMISSION_RATE cfg
    else NON_ADHERENT_PATIENT_ADMISSION_RATE cfg in
  patient_admissions cfg row c s
  = append_admissions (Z.to_nat (fst (poisson admission_prob s)))
      (patient_id (fst row)) c (snd (poisson admission_prob s)).
Proof.
  cbv zeta. unfold patient_admissions, bind.
  now destruct (poisson _ s).
Qed.

Lemma patient_admissions_spec (cfg : config F) (row : patient * adherence F)
    (c : Z) (s : rng) :
  let admission_prob :=
    if fleb (ADHERENCE_THRESHOLD cfg) (pdc_score (snd row))
    then ADHERENT_PATIENT_ADMISSION_RATE cfg
    else NON_ADHERENT_PATIENT_ADMISSION_RATE cfg in
  let n := Z.to_nat (fst (poisson admission_prob s)) in
  let rows := fst (fst (patient_admissions cfg row c s)) in
  List.length rows = n
  /\ snd (fst (patient_admissions cfg row c s)) = c + Z.of_nat n
  /\ map admission_id rows = range c (c + Z.of_nat n)
  /\ Forall (fun e => ha_patient_id e = patient_id (fst row) /\ drawn_date e) rows.
Proof.
  cbv zeta. rewrite patient_admissions_unfold.
  destruct (append_admissions_spec
              (Z.to_nat (fst (poisson
                 (if fleb (ADHERENCE_THRESHOLD cfg) (pdc_score (snd row))
                  then ADHERENT_PATIENT_ADMISSION_RATE cfg
                  else NON_ADHERENT_PATIENT_ADMISSION_RATE cfg) s)))
              (patient_id (fst row)) c
              (snd (poisson
                 (if fleb (ADHERENCE_THRESHOLD cfg) (pdc_score (snd row))
                  then ADHERENT_PATIENT_ADMISSION_RATE cfg
                  else NON_ADHERENT_PATIENT_ADMISSION_RATE cfg) s)))
    as (Hc & Hids & Hall).
  repeat split; try assumption.
  apply (f_equal (@List.length _)) in Hids.
  rewrite length_map, range_length in Hids. lia.
Qed.

Lemma admissions_loop_cons (cfg : config F) (row : patient * adherence F)
    (rest : list (patient * adherence F)) (c : Z) (s : rng) :
  let first := patient_admissions cfg row c s in
  let others := admissions_loop cfg rest (snd (fst first)) (snd first) in
  admissions_loop cfg (row :: rest) c s
  = ((fst (fst first) ++ fst (fst others))%list, snd (fst others), snd others).
Proof.
  cbv zeta. cbn [admissions_loop]. unfold bind, ret.
  destruct (patient_admissions cfg row c s) as [[new c1] s1]. cbn [fst snd].
  destruct (admissions_loop cfg rest c1 s1) as [[more c2] s2]. reflexivity.
Qed.

Lemma admissions_loop_spec (cfg : config F) (rows : list (patient * adherence F))
    (c : Z) (s : rng) :
  let events := fst (fst (admissions_loop cfg rows c s)) in
  snd (fst (admissions_loop cfg rows c s)) = c + Z.of_nat (List.length events)
  /\ map admission_id events = range c (c + Z.of_nat (List.length events))
  /\ Forall (fun e => drawn_date e
                      /\ exists row, In row rows
                                     /\ ha_patient_id e = patient_id (fst row))
       events.
Proof.
  cbv zeta. revert c s. induction rows as [|row rest IH]; intros c s.
  - cbn [admissions_loop]. unfold ret. cbn [fst snd List.length].
    rewrite range_nil by lia. repeat split; [lia | constructor].
  - rewrite admissions_loop_cons. cbn [fst snd].
    destruct (patient_admissions_spec cfg row c s) as (Hlen & Hc & Hids & Hall).
    cbv zeta in *.
    set (first := patient_admissions cfg row c s) in *.
    specialize (IH (snd (fst first)) (snd first)).
    set (others := admissions_loop cfg rest (snd (fst first)) (snd first)) in *.
    destruct IH as (Hc' & Hids' & Hall').
    rewrite length_app, map_app. repeat split.
    + lia.
    + rewrite (range_app c (snd (fst first))) by lia.
      f_equal.
      * rewrite Hids, Hc. reflexivity.
      * rewrite Hids'. f_equal. lia.
    + apply Forall_app. split.
      * eapply Forall_impl; [|exact Hall]. intros e [Hpid Hd].
        split; [assumption|]. exists row. split; [now left | assumption].
      * eapply Forall_impl; [|exact Hall']. intros e [Hd (r & Hr & Hpid)].
        split; [assumption|]. exists r. split; [now right | assumption].
Qed.

(** The rows of one patient among those of the whole loop, when no two
    rows of the merged frame share a patient id. *)
Lemma admissions_loop_patient (cfg : config F) (rows : list (patient * adherence F))
    (c : Z) (s : rng) (row : patient * adherence F) :
  NoDup (map (fun r => patient_id (fst r)) rows) ->
  In row rows ->
  exists c0 s0,
    filter (fun e => ha_patient_id e =? patient_id (fst row))
      (fst (fst (admissions_loop cfg rows c s)))
    = fst (fst (patient_admissions cfg row c0 s0)).
Proof.
  revert c s. induction rows as [|r rest IH]; intros c s Hnd Hin; [contradiction|].
  inversion Hnd as [|? ? Hnotin Hnd']; subst.
  rewrite admissions_loop_cons. cbn [fst snd].
  destruct (patient_admissions_spec cfg r c s) as (_ & _ & _ & Hall).
  cbv zeta in Hall.
  set (first := patient_admissions cfg r c s) in *.
  destruct (admissions_loop_spec cfg rest (snd (fst first)) (snd first))
    as (_ & _ & Hall').
  cbv zeta in Hall'.
  set (others := admissions_loop cfg rest (snd (fst first)) (snd first)) in *.
  rewrite filter_app.
  destruct Hin as [->|Hin].
  - exists c, s. fold first.
    rewrite (filter_none _ (fst (fst others))).
    + rewrite app_nil_r. apply forallb_filter_id.
      apply forallb_forall. intros e He.
      rewrite Forall_forall in Hall. apply Z.eqb_eq. now apply Hall.
    + intros e He. rewrite Forall_forall in Hall'.
      destruct (Hall' e He) as (_ & r' & Hr' & Hpid).
      apply Z.eqb_neq. intros E. apply Hnotin.
      rewrite <- E, Hpid. now apply (in_map (fun r => patient_id (fst r))).
  - destruct (IH (snd (fst first)) (snd first) Hnd' Hin) as (c0 & s0 & E).
    exists c0, s0. fold others in E. rewrite E.
    rewrite filter_none; [reflexivity|].
    intros e He. rewrite Forall_forall in Hall.
    destruct (Hall e He) as (Hpid & _).
    apply Z.eqb_neq. intros E'. apply Hnotin.
    rewrite <- Hpid, E'. now apply (in_map (fun r => patient_id (fst r))).
Qed.

End AdmissionsLoop.

(** ** [generate_synthetic_data] as a whole *)

Lemma inner_join_skip {F} (ps : list patient) (a : adherence F)
    (ads : list (adherence F)) :
  ~ In (ma_patient_id a) (map patient_id ps) ->
  inner_join ps (a :: ads) = inner_join ps ads.
Proof.
  unfold inner_join.
  induction ps as [|p ps IH]; intros Hnotin; [reflexivity|].
  cbn [flat_map map] in *.
  rewrite IH by (intros Hin; apply Hnotin; now right). f_equal.
  unfold matching. cbn [filter].
  destruct (Z.eqb_spec (patient_id p) (ma_patient_id a)) as [E|NE]; [|reflexivity].
  exfalso. apply Hnotin. now left.
Qed.

(** When the two frames list the same unique ids in the same order, the
    merge pairs them row by row. *)
Lemma inner_join_aligned {F} (ps : list patient) (ads : list (adherence F)) :
  NoDup (map patient_id ps) ->
  map ma_patient_id ads = map patient_id ps ->
  inner_join ps ads = combine ps ads.
Proof.
  revert ads. induction ps as [|p ps IH]; intros [|a ads] Hnd Hids;
    try discriminate; [reflexivity|].
  cbn [map] in Hnd, Hids. injection Hids as Ea Hids.
  inversion Hnd as [|? ? Hnotin Hnd']; subst.
  assert (Hm : matching p (a :: ads) = [a]).
  { unfold matching. cbn [filter]. rewrite Ea, Z.eqb_refl. f_equal.
    apply filter_none. intros x Hx. apply Z.eqb_neq. intros E.
    apply Hnotin. rewrite <- Hids, E. now apply in_map. }
  unfold inner_join at 1. cbn [flat_map]. rewrite Hm. cbn [map app combine].
  f_equal. fold (inner_join ps (a :: ads)).
  rewrite inner_join_skip by (now rewrite Ea). now apply IH.
Qed.

Section Generated.
Context {F rng : Type} `{PyFloat F} `{SqlReal F} `{RandomSource F rng}.

Lemma num_group_1_of_ok (cfg : config F) (k : Z) :
  num_group_1_of cfg = Ok k ->
  k = ftrunc (fmul (float_of_int (TOTAL_PATIENTS cfg)) (GROUP_1_RATIO cfg)).
Proof.
  unfold num_group_1_of, int_times_float, int_of_float.
  destruct (fis_inf (float_of_int (TOTAL_PATIENTS cfg))); [discriminate|].
  cbn [rbind].
  destruct (fis_nan _); [discriminate|].
  destruct (fis_inf _); [discriminate|].
  now intros [= <-].
Qed.

(** The checked loop returns what the loop returns when every intensity
    is accepted, and raises otherwise. *)
Lemma checked_admissions_loop_accepted (cfg : config F)
    (rows : list (patient * adherence F)) (c : Z) (s : rng) :
  intensities_accepted cfg rows = true ->
  checked_admissions_loop cfg rows c s
  = (Ok (fst (admissions_loop cfg rows c s)), snd (admissions_loop cfg rows c s)).
Proof.
  revert c s. induction rows as [|row rest IH]; intros c s Hacc; [reflexivity|].
  cbn [intensities_accepted forallb] in Hacc.
  apply andb_true_iff in Hacc as [Hrow Hrest].
  cbn [checked_admissions_loop admissions_loop]. rewrite Hrow. unfold bind, ret.
  destruct (patient_admissions cfg row c s) as [[new c1] s1].
  rewrite (IH c1 s1 Hrest).
  destruct (admissions_loop cfg rest c1 s1) as [[more c2] s2]. reflexivity.
Qed.

Lemma checked_admissions_loop_rejected (cfg : config F)
    (rows : list (patient * adherence F)) (c : Z) (s : rng) :
  intensities_accepted cfg rows = false ->
  fst (checked_admissions_loop cfg rows c s) = Raise ValueError.
Proof.
  revert c s. induction rows as [|row rest IH]; intros c s Hacc; [discriminate|].
  cbn [intensities_accepted forallb] in Hacc.
  cbn [checked_admissions_loop].
  destruct (poisson_accepts (admission_intensity cfg row)); [|reflexivity].
  cbn [andb] in Hacc. unfold bind, ret.
  destruct (patient_admissions cfg row c s) as [[new c1] s1].
  specialize (IH c1 s1 Hacc).
  destruct (checked_admissions_loop cfg rest c1 s1) as [r s2].
  cbn [fst] in IH |- *. now rewrite IH.
Qed.

Lemma generate_unfold (cfg : config F) (s : rng) :
  generate_synthetic_data cfg s
  = match num_group_1_of cfg with
    | Raise e => (Raise e, s)
    | Ok _ =>
        match fst (patients_run cfg s) with
        | [] => (Raise KeyError, snd (adherence_run cfg s))
        | _ :: _ =>
            if intensities_accepted cfg
                 (inner_join (fst (patients_run cfg s)) (fst (adherence_run cfg s)))
            then (Ok (fst (patients_run cfg s), fst (adherence_run cfg s),
                      fst (fst (admissions_run cfg s))),
                  snd (admissions_run cfg s))
            else (Raise ValueError,
                  snd (checked_admissions_loop cfg
                         (inner_join (fst (patients_run cfg s))
                            (fst (adherence_run cfg s)))
                         1 (snd (adherence_run cfg s))))
        end
    end.
Proof.
  unfold generate_synthetic_data.
  destruct (num_group_1_of cfg) as [k|e] eqn:Ek; [|reflexivity].
  apply num_group_1_of_ok in Ek. subst k.
  unfold admissions_run, adherence_run, patients_run, bind.
  destruct (for_each (make_patient _) _ s) as [ps s1]. cbn [fst snd].
  destruct (for_each (draw_adherence cfg) ps s1) as [ads s2]. cbn [fst snd].
  destruct ps as [|p ps]; [reflexivity|].
  destruct (intensities_accepted cfg (inner_join (p :: ps) ads)) eqn:Hacc.
  - rewrite (checked_admissions_loop_accepted cfg _ 1 s2 Hacc).
    destruct (admissions_loop cfg _ 1 s2) as [[adm c] s3]. reflexivity.
  - pose proof (checked_admissions_loop_rejected cfg _ 1 s2 Hacc) as Hrej.
    destruct (checked_admissions_loop cfg _ 1 s2) as [r s3].
    cbn [fst snd] in Hrej |- *. now rewrite Hrej.
Qed.

(** Both intensities pass the check, so every row does. *)
Lemma intensities_accepted_both (cfg : config F)
    (rows : list (patient * adherence F)) :
  poisson_accepts (ADHERENT_PATIENT_ADMISSION_RATE cfg) = true ->
  poisson_accepts (NON_ADHERENT_PATIENT_ADMISSION_RATE cfg) = true ->
  intensities_accepted cfg rows = true.
Proof.
  intros Ha Hn. apply forallb_forall. intros row _.
  unfold admission_intensity. now destruct (fleb _ _).
Qed.

Lemma patients_run_ids (cfg : config F) (s : rng) :
  map patient_id (fst (patients_run cfg s)) = range 1 (TOTAL_PATIENTS cfg + 1).
Proof.
  unfold patients_run.
  rewrite (for_each_map _ patient_id (fun i => i)).
  - apply map_id.
  - intros i s0. now rewrite make_patient_fst.
Qed.

Lemma patients_run_groups (cfg : config F) (s : rng) (p : patient) :
  In p (fst (patients_run cfg s)) ->
  assigned_group p
  = if patient_id p
       <=? ftrunc (fmul (float_of_int (TOTAL_PATIENTS cfg)) (GROUP_1_RATIO cfg))
    then Group_1 else Group_2.
Proof.
  unfold patients_run. intros Hin.
  apply for_each_In in Hin as (i & s0 & _ & ->).
  now rewrite make_patient_fst.
Qed.

Lemma adherence_run_ids (cfg : config F) (s : rng) :
  map ma_patient_id (fst (adherence_run cfg s))
  = map patient_id (fst (patients_run cfg s)).
Proof.
  unfold adherence_run. apply for_each_map.
  intros p s0. apply draw_adherence_patient_id.
Qed.

Lemma merged_rows (cfg : config F) (s : rng) :
  inner_join (fst (patients_run cfg s)) (fst (adherence_run cfg s))
  = combine (fst (patients_run cfg s)) (fst (adherence_run cfg s)).
Proof.
  apply inner_join_aligned.
  - rewrite patients_run_ids. apply range_NoDup.
  - apply adherence_run_ids.
Qed.

Lemma generate_ok (cfg : config F) (s : rng) (k : Z) :
  0 < TOTAL_PATIENTS cfg ->
  num_group_1_of cfg = Ok k ->
  poisson_accepts (ADHERENT_PATIENT_ADMISSION_RATE cfg) = true ->
  poisson_accepts (NON_ADHERENT_PATIENT_ADMISSION_RATE cfg) = true ->
  generate_synthetic_data cfg s
  = (Ok (fst (patients_run cfg s), fst (adherence_run cfg s),
         fst (fst (admissions_run cfg s))),
     snd (admissions_run cfg s)).
Proof.
  intros HN Hk Ha Hn. rewrite generate_unfold, Hk.
  pose proof (patients_run_ids cfg s) as Hids.
  rewrite (intensities_accepted_both cfg _ Ha Hn).
  destruct (fst (patients_run cfg s)) as [|p ps]; [|reflexivity].
  rewrite range_cons in Hids by lia. discriminate.
Qed.

Lemma generate_inv (cfg : config F) (s s' : rng) (patients_df : list patient)
    (adherence_df : list (adherence F)) (admissions_df : list admission) :
  generate_synthetic_data cfg s
  = (Ok (patients_df, adherence_df, admissions_df), s') ->
  patients_df = fst (patients_run cfg s)
  /\ adherence_df = fst (adherence_run cfg s)
  /\ admissions_df = fst (fst (admissions_run cfg s)).
Proof.
  rewrite generate_unfold.
  destruct (num_group_1_of cfg); [|discriminate].
  destruct (fst (patients_run cfg s)) as [|p ps]; [discriminate|].
  destruct (intensities_accepted cfg _); [|discriminate].
  intros [= <- <- <- _]. repeat split.
Qed.

Lemma generate_inv_positive (cfg : config F) (s s' : rng)
    (patients_df : list patient) (adherence_df : list (adherence F))
    (admissions_df : list admission) :
  generate_synthetic_data cfg s
  = (Ok (patients_df, adherence_df, admissions_df), s') ->
  0 < TOTAL_PATIENTS cfg.
Proof.
  intros Hgen.
  destruct (Z.ltb_spec 0 (TOTAL_PATIENTS cfg)) as [|Hle]; [assumption|].
  rewrite generate_unfold in Hgen.
  pose proof (patients_run_ids cfg s) as Hids.
  rewrite range_nil in Hids by lia.
  destruct (num_group_1_of cfg); [|discriminate].
  destruct (fst (patients_run cfg s)); discriminate.
Qed.

End Generated.

(** The runs used as examples return: the product of line 29 is finite and
    the script's two intensities pass NumPy's check. *)
Lemma ratio_config_generates (N k s : Z) (ratio : spec_float) :
  0 < N ->
  num_group_1_of (config_with_ratio N ratio) = Ok k ->
  generate_synthetic_data (rng:=Z) (config_with_ratio N ratio) s
  = (Ok (fst (patients_run (config_with_ratio N ratio) s),
         fst (adherence_run (config_with_ratio N ratio) s),
         fst (fst (admissions_run (config_with_ratio N ratio) s))),
     snd (admissions_run (config_with_ratio N ratio) s)).
Proof.
  intros HN Hk.
  apply (generate_ok (config_with_ratio N ratio) s k HN Hk);
    vm_compute; reflexivity.
Qed.

Lemma small_config_generates (s : Z) :
  generate_synthetic_data (F:=spec_float) (rng:=Z) small_config s
  = (Ok (fst (patients_run small_config s), fst (adherence_run small_config s),
         fst (fst (admissions_run small_config s))),
     snd (admissions_run small_config s)).
Proof.
  apply (generate_ok small_config s 2); [reflexivity | | |]; vm_compute; reflexivity.
Qed.


Lemma Forall2_combine_In {A B} (R : A -> B -> Prop) (l : list A) (l' : list B)
    (a : A) :
  Forall2 R l l' -> In a l -> exists b, In (a, b) (combine l l') /\ R a b.
Proof.
  induction 1 as [|x y l l' Hxy _ IH]; intros Hin; [contradiction|].
  destruct Hin as [->|Hin].
  - exists y. split; [now left | assumption].
  - destruct (IH Hin) as (b & Hb & HR). exists b. split; [now right | assumption].
Qed.

Lemma Forall2_map_fst_combine {A B} (R : A -> B -> Prop) (l : list A) (l' : list B) :
  Forall2 R l l' -> map fst (combine l l') = l.
Proof.
  induction 1 as [|x y l l' _ _ IH]; [reflexivity|].
  cbn [combine map fst]. now rewrite IH.
Qed.

(** ** C3: the generated ids *)

Lemma Qtrunc_nonneg (x : Q) : (0 <= x)%Q -> Qtrunc x = Qfloor x.
Proof.
  destruct x as [n d]. unfold Qle, Qtrunc, Qfloor. cbn [Qnum Qden].
  intros Hn. apply Z.quot_div_nonneg; lia.
Qed.

Section GeneratedIds.
Context {F rng : Type} `{PyFloat F} `{RandomSource F rng}.

(** C3 (as amended).  For a positive population, a ratio for which line 29
    returns, and admission intensities that NumPy accepts, the generator
    returns three frames; the patient ids are 1, ..., N in this order; a
    patient is in Group 1 when the id is at most [num_group_1], the float
    product [N * r] cut to an integer by [int], and in Group 2 otherwise;
    the admission ids are 1, 2, ... up to the number of admissions, in
    this order, so without gap or repetition. *)
Theorem generated_ids_are_dense (cfg : config F) (s : rng) (k : Z) :
  0 < TOTAL_PATIENTS cfg ->
  num_group_1_of cfg = Ok k ->
  poisson_accepts (ADHERENT_PATIENT_ADMISSION_RATE cfg) = true ->
  poisson_accepts (NON_ADHERENT_PATIENT_ADMISSION_RATE cfg) = true ->
  let N := TOTAL_PATIENTS cfg in
  let num_group_1 := ftrunc (fmul (float_of_int N) (GROUP_1_RATIO cfg)) in
  exists patients_df adherence_df admissions_df s',
    generate_synthetic_data cfg s
    = (Ok (patients_df, adherence_df, admissions_df), s')
    /\ k = num_group_1
    /\ map patient_id patients_df = range 1 (N + 1)
    /\ (forall i, In i (map patient_id patients_df) <-> 1 <= i <= N)
    /\ NoDup (map patient_id patients_df)
    /\ (forall p, In p patients_df ->
          (patient_id p <= num_group_1 -> assigned_group p = Group_1)
          /\ (num_group_1 < patient_id p -> assigned_group p = Group_2))
    /\ map admission_id admissions_df
       = range 1 (Z.of_nat (List.length admissions_df) + 1)
    /\ (forall i, In i (map admission_id admissions_df)
                  <-> 1 <= i <= Z.of_nat (List.length admissions_df))
    /\ NoDup (map admission_id admissions_df).
Proof.
  intros HN Hk Ha Hn N num_group_1.
  exists (fst (patients_run cfg s)), (fst (adherence_run cfg s)),
    (fst (fst (admissions_run cfg s))), (snd (admissions_run cfg s)).
  assert (Hids : map admission_id (fst (fst (admissions_run cfg s)))
                 = range 1 (Z.of_nat (List.length (fst (fst (admissions_run cfg s)))) + 1)).
  { unfold admissions_run.
    destruct (admissions_loop_spec cfg
                (inner_join (fst (patients_run cfg s)) (fst (adherence_run cfg s)))
                1 (snd (adherence_run cfg s))) as (_ & E & _).
    cbv zeta in E. rewrite E. f_equal. lia. }
  split; [now apply (generate_ok cfg s k)|].
  split; [now apply num_group_1_of_ok|].
  split; [apply patients_run_ids|].
  split; [intros i; rewrite patients_run_ids, range_In; fold N; lia|].
  split; [rewrite patients_run_ids; apply range_NoDup|].
  split.
  { intros p Hp. rewrite (patients_run_groups cfg s p Hp). fold N num_group_1.
    destruct (Z.leb_spec (patient_id p) num_group_1); split; intros; auto; lia. }
  split; [exact Hids|].
  split; [intros i; rewrite Hids, range_In; lia|].
  rewrite Hids. apply range_NoDup.
Qed.

End GeneratedIds.

Lemma generated_ids_are_dense_witness :
  0 < TOTAL_PATIENTS (@default_config spec_float _)
  /\ num_group_1_of (@default_config spec_float _) = Ok 8292
  /\ exists patients_df adherence_df admissions_df s',
       generate_synthetic_data (F:=spec_float) default_config 42
       = (Ok (patients_df, adherence_df, admissions_df), s')
       /\ map patient_id patients_df = range 1 (17000 + 1).
Proof.
  assert (HN : 0 < TOTAL_PATIENTS (@default_config spec_float _)) by reflexivity.
  assert (Hk : num_group_1_of (@default_config spec_float _) = Ok 8292)
    by (vm_compute; reflexivity).
  assert (Ha : poisson_accepts (rng:=Z)
                 (ADHERENT_PATIENT_ADMISSION_RATE (@default_config spec_float _))
               = true) by (vm_compute; reflexivity).
  assert (Hn : poisson_accepts (rng:=Z)
                 (NON_ADHERENT_PATIENT_ADMISSION_RATE (@default_config spec_float _))
               = true) by (vm_compute; reflexivity).
  split; [exact HN|]. split; [exact Hk|].
  destruct (generated_ids_are_dense (F:=spec_float) (rng:=Z) default_config 42
              8292 HN Hk Ha Hn)
    as (ps & ads & adm & s' & Hgen & _ & Hids & _).
  exists ps, ads, adm, s'. split; assumption.
Defined.

(** C3 as stated fails.  With ten patients and a ratio of 0.7 the first
    seven ids go to Group 1, the product being rounded to 7.0, while ten
    times the double nearest to 0.7 is below seven and its floor is six.
    With a hundred patients and a ratio of 0.29 the first 28 ids go to
    Group 1, the product being 28.999999999999996, while the floor of
    100 * 0.29 is 29.  Both configurations are valid, and each run
    returns. *)
Lemma generated_split_is_not_the_floor :
  let group_1 (ps : list patient) :=
    filter (fun p => String.eqb (assigned_group p) Group_1) ps in
  (let r := float_of_decimal (F:=spec_float) 7 1 in
   fleb (float_of_int 0) r = true /\ fleb r (float_of_int 1) = true
   /\ (exists patients_df adherence_df admissions_df s',
         generate_synthetic_data (config_with_ratio 10 r) 42
         = (Ok (patients_df, adherence_df, admissions_df), s')
         /\ map patient_id (group_1 patients_df) = [1; 2; 3; 4; 5; 6; 7])
   /\ Qfloor (10 * Binary64.to_Q r) = 6)
  /\ (let r := float_of_decimal (F:=spec_float) 29 2 in
      fleb (float_of_int 0) r = true /\ fleb r (float_of_int 1) = true
      /\ (exists patients_df adherence_df admissions_df s',
            generate_synthetic_data (config_with_ratio 100 r) 42
            = (Ok (patients_df, adherence_df, admissions_df), s')
            /\ map patient_id (group_1 patients_df) = range 1 (28 + 1))
      /\ Qfloor (100 * (29 # 100)) = 29).
Proof.
  cbv zeta. split.
  - split; [vm_compute; reflexivity|]. split; [vm_compute; reflexivity|].
    split; [|vm_compute; reflexivity].
    do 4 eexists. split; [vm_compute; reflexivity|]. vm_compute. reflexivity.
  - split; [vm_compute; reflexivity|]. split; [vm_compute; reflexivity|].
    split; [|vm_compute; reflexivity].
    do 4 eexists. split; [vm_compute; reflexivity|]. vm_compute. reflexivity.
Qed.

(** On doubles the script's own constants give
    [int(17000 * (1 / 2.05)) = 8292]; on exact rationals, where [int] of a
    non-negative value is its floor, they give the same. *)
Example num_group_1_binary64 :
  num_group_1_of (@default_config spec_float _) = Ok 8292
  /\ num_group_1_of (@default_config Q _)
     = Ok (Qfloor (17000 * GROUP_1_RATIO (@default_config Q _)))
  /\ Qfloor (17000 * GROUP_1_RATIO (@default_config Q _)) = 8292.
Proof. repeat split; vm_compute; reflexivity. Qed.

(** ** C6: admissions follow the adherence class *)

Section GeneratedAdmissions.
Context {F rng : Type} `{PyFloat F} `{RandomSource F rng}.

Lemma generated_rows (cfg : config F) (s : rng) :
  Forall2 (fun p ma => exists s0, ma = fst (draw_adherence cfg p s0))
    (fst (patients_run cfg s)) (fst (adherence_run cfg s)).
Proof. unfold adherence_run. apply for_each_Forall2. Qed.

(** C6.  The body of the admissions loop classifies the patient as
    adherent exactly when the score reaches the threshold, passes the low
    intensity to the Poisson draw for an adherent patient and the high one
    otherwise, and appends as many rows as the draw says; the rows carry
    the patient's id, consecutive admission ids from the counter on, and a
    date returned by [date_between] for the bounds ['-1y'] and ['today'],
    hence a date in whatever window such a call guarantees.  In the
    generated frames the rows of a patient are those of one run of this
    body on the patient's merged row, every row names a generated patient,
    and the ids count up from 1. *)
Theorem admissions_follow_adherence (window : Z -> Prop) (cfg : config F) :
  (forall s : rng, window (fst (date_between "-1y" "today" s))) ->
  (forall (row : patient * adherence F) (c : Z) (s : rng),
     let is_adherent :=
       fleb (ADHERENCE_THRESHOLD cfg) (pdc_score (snd row)) in
     let admission_prob :=
       if is_adherent then ADHERENT_PATIENT_ADMISSION_RATE cfg
       else NON_ADHERENT_PATIENT_ADMISSION_RATE cfg in
     let num_admissions := fst (poisson admission_prob s) in
     let events := fst (fst (patient_admissions cfg row c s)) in
     Z.of_nat (List.length events) = Z.max 0 num_admissions
     /\ map admission_id events = range c (c + Z.of_nat (List.length events))
     /\ snd (fst (patient_admissions cfg row c s))
        = c + Z.of_nat (List.length events)
     /\ Forall (fun e => ha_patient_id e = patient_id (fst row)
                         /\ window (admission_date e)) events)
  /\ (forall (s s' : rng) patients_df adherence_df admissions_df,
        generate_synthetic_data cfg s
        = (Ok (patients_df, adherence_df, admissions_df), s') ->
        map admission_id admissions_df
        = range 1 (Z.of_nat (List.length admissions_df) + 1)
        /\ Forall (fun e => window (admission_date e)
                            /\ In (ha_patient_id e) (map patient_id patients_df))
             admissions_df
        /\ forall p, In p patients_df ->
             exists ma c0 s0,
               In ma adherence_df
               /\ ma_patient_id ma = patient_id p
               /\ filter (fun e => ha_patient_id e =? patient_id p) admissions_df
                  = fst (fst (patient_admissions cfg (p, ma) c0 s0))).
Proof.
  intros Hwin. split.
  - intros row c s. cbv zeta.
    destruct (patient_admissions_spec cfg row c s) as (Hlen & Hc & Hids & Hall).
    cbv zeta in *. rewrite Hlen. repeat split.
    + lia.
    + assumption.
    + assumption.
    + eapply Forall_impl; [|exact Hall]. intros e [Hpid [s0 Hd]].
      split; [assumption|]. rewrite Hd. apply Hwin.
  - intros s s' ps ads adm Hgen.
    apply generate_inv in Hgen as (-> & -> & ->).
    unfold admissions_run.
    destruct (admissions_loop_spec cfg
                (inner_join (fst (patients_run cfg s)) (fst (adherence_run cfg s)))
                1 (snd (adherence_run cfg s))) as (_ & Hids & Hall).
    cbv zeta in Hids, Hall.
    pose proof (generated_rows cfg s) as HF.
    split; [|split].
    + rewrite Hids. f_equal. lia.
    + eapply Forall_impl; [|exact Hall].
      intros e [[s0 Hd] ([p ma] & Hrow & Hpid)]. split.
      * rewrite Hd. apply Hwin.
      * rewrite Hpid. cbn [fst]. apply in_map.
        rewrite merged_rows in Hrow. now apply in_combine_l in Hrow.
    + intros p Hp.
      destruct (Forall2_combine_In _ _ _ p HF Hp) as (ma & Hrow & s0 & Hma).
      destruct (admissions_loop_patient cfg
                  (inner_join (fst (patients_run cfg s)) (fst (adherence_run cfg s)))
                  1 (snd (adherence_run cfg s)) (p, ma)) as (c0 & s1 & E).
      * rewrite merged_rows, <- map_map.
        rewrite (Forall2_map_fst_combine _ _ _ HF).
        rewrite patients_run_ids. apply range_NoDup.
      * now rewrite merged_rows.
      * exists ma, c0, s1. split; [now apply in_combine_r in Hrow|].
        split; [rewrite Hma; apply draw_adherence_patient_id|].
        exact E.
Qed.

End GeneratedAdmissions.

Lemma lcg_dates_in_window (F : Type) `{PyFloat F} (s : Z) :
  lcg_window (fst (@date_between F Z _ "-1y" "today" s)).
Proof.
  unfold lcg_window. cbn [date_between lcg fst].
  change (lcg_date_bound "-1y") with (-365).
  change (lcg_date_bound "today") with 0.
  pose proof (Z.mod_pos_bound (lcg_step s) (0 - -365 + 1)). lia.
Qed.

Lemma admissions_follow_adherence_witness :
  (forall s : Z, lcg_window (fst (@date_between spec_float Z _ "-1y" "today" s)))
  /\ Forall (fun e => ha_patient_id e = 2 /\ lcg_window (admission_date e))
       (fst (fst (patient_admissions (F:=spec_float) default_config
                    (mk_patient 2 Group_1, mk_adherence 2 (float_of_decimal 5 1))
                    7 2))).
Proof.
  split; [exact (lcg_dates_in_window spec_float)|].
  destruct (admissions_follow_adherence (F:=spec_float) (rng:=Z) lcg_window
              default_config (lcg_dates_in_window spec_float)) as (Hbody & _).
  apply (Hbody (mk_patient 2 Group_1, mk_adherence 2 (float_of_decimal 5 1)) 7 2).
Defined.

(** ** Rounding on exact rationals *)

Lemma round_half_even_bounds (x : Q) :
  Qfloor x <= round_half_even x <= Qfloor x + 1.
Proof.
  unfold round_half_even.
  destruct (Qcompare _ _); [destruct (Z.even _)| |]; lia.
Qed.

Lemma round_half_even_Z (n : Z) : round_half_even (inject_Z n) = n.
Proof.
  unfold round_half_even. rewrite Qfloor_Z.
  destruct (Qcompare_spec (inject_Z n - inject_Z n) (1 # 2)) as [E|L|G].
  - exfalso. lra.
  - reflexivity.
  - exfalso. lra.
Qed.

Lemma round_half_even_comp (x y : Q) :
  (x == y)%Q -> round_half_even x = round_half_even y.
Proof.
  intros E. unfold round_half_even.
  rewrite (Qfloor_comp x y E).
  now rewrite (Qcompare_comp _ _ (Qminus_comp _ _ E _ _ (Qeq_refl _)) _ _ (Qeq_refl _)).
Qed.

Lemma round_half_even_mono (x y : Q) :
  (x <= y)%Q -> round_half_even x <= round_half_even y.
Proof.
  intros Hxy.
  pose proof (Qfloor_resp_le x y Hxy) as Hf.
  destruct (Z.eq_dec (Qfloor x) (Qfloor y)) as [E|NE].
  - unfold round_half_even. rewrite <- E.
    destruct (Qcompare_spec (x - inject_Z (Qfloor x)) (1 # 2)) as [Ex|Lx|Gx];
      destruct (Qcompare_spec (y - inject_Z (Qfloor x)) (1 # 2)) as [Ey|Ly|Gy];
      try (destruct (Z.even (Qfloor x))); try lia; exfalso; lra.
  - pose proof (round_half_even_bounds x). pose proof (round_half_even_bounds y).
    lia.
Qed.

Lemma Qround_ndigits_mono (x y : Q) (ndigits : Z) :
  (x <= y)%Q -> (Qround_ndigits x ndigits <= Qround_ndigits y ndigits)%Q.
Proof.
  intros Hxy. unfold Qround_ndigits.
  pose proof (pow10_pos ndigits) as Hp.
  assert (Hr : round_half_even (x * pow10 ndigits)
               <= round_half_even (y * pow10 ndigits)).
  { apply round_half_even_mono. nra. }
  apply Qle_shift_div_l; [assumption|].
  unfold Qdiv. rewrite <- Qmult_assoc, (Qmult_comm (/ _)), Qmult_inv_r by lra.
  rewrite Qmult_1_r. now rewrite <- Zle_Qle.
Qed.

Lemma Qround_ndigits_fixed (x : Q) (ndigits : Z) :
  has_decimals ndigits x -> (Qround_ndigits x ndigits == x)%Q.
Proof.
  intros [n Hn]. unfold Qround_ndigits.
  pose proof (pow10_nonzero ndigits) as Hp.
  rewrite (round_half_even_comp _ _ Hn), round_half_even_Z, <- Hn. now field.
Qed.


(** ** C5 and C10: the adherence scores *)

Section Scores.
Context {rng : Type} `{RandomSource Q rng}.







End Scores.



Section ScoreClaims.
Context {rng : Type} `{RandomSource Q rng}.



End ScoreClaims.








(** On doubles the same source gives the same six scores as on exact
    rationals: 0.8253, 0.4804, 0.8028, 0.9087, 0.6669 and 0.94. *)
Example generated_scores_binary64 :
  let decimals := [8253; 4804; 8028; 9087; 6669; 9400] in
  map pdc_score (fst (adherence_run (F:=spec_float) small_config 42))
  = map (fun k => float_of_decimal k 4) decimals
  /\ Forall2 (fun x k => Qeq x (inject_Z k / 10000))
       (map pdc_score (fst (adherence_run (F:=Q) small_config 42))) decimals.
Proof.
  split; [vm_compute; reflexivity|].
  vm_compute. repeat constructor.
Qed.

(** * Further properties of the code *)

(** ** The generated frames satisfy the data model *)

Section GeneratedFrames.
Context {F rng : Type} `{PyFloat F} `{SqlReal F} `{RandomSource F rng}.

Lemma generated_frames_data_model (cfg : config F) (s : rng) :
  data_model
    (frames_as_tables (fst (patients_run cfg s)) (fst (adherence_run cfg s))
       (fst (fst (admissions_run cfg s)))).
Proof.
  split; cbn [frames_as_tables patients medication_adherence hospital_admissions].
  - rewrite patients_run_ids. apply range_NoDup.
  - rewrite adherence_run_ids. apply Permutation_refl.
  - intros ha Hin. unfold admissions_run in Hin.
    destruct (admissions_loop_spec cfg
                (inner_join (fst (patients_run cfg s)) (fst (adherence_run cfg s)))
                1 (snd (adherence_run cfg s))) as (_ & _ & Hall).
    cbv zeta in Hall. rewrite Forall_forall in Hall.
    destruct (Hall ha Hin) as (_ & [p ma] & Hrow & ->).
    cbn [fst]. apply in_map.
    rewrite merged_rows in Hrow. now apply in_combine_l in Hrow.
Qed.

Lemma generated_frames_two_cohorts (cfg : config F) (s : rng) :
  two_cohorts
    (frames_as_tables (fst (patients_run cfg s)) (fst (adherence_run cfg s))
       (fst (fst (admissions_run cfg s)))).
Proof.
  intros p Hp. cbn [frames_as_tables patients] in Hp.
  rewrite (patients_run_groups cfg s p Hp).
  destruct (_ <=? _); auto.
Qed.

(** X1.  Whatever the configuration and the random draws, the frames the
    generator returns satisfy the data model: patient ids are unique, the
    adherence frame lists the same ids as the patients frame in the same
    order, so one record per patient, every admission names a generated
    patient, and no cohort label other than the two is used. *)
Theorem generated_frames_are_consistent
    (cfg : config F) (s s' : rng) (patients_df : list patient)
    (adherence_df : list (adherence F)) (admissions_df : list admission) :
  generate_synthetic_data cfg s
  = (Ok (patients_df, adherence_df, admissions_df), s') ->
  let db := frames_as_tables patients_df adherence_df admissions_df in
  data_model db
  /\ two_cohorts db
  /\ map ma_patient_id adherence_df = map patient_id patients_df
  /\ List.length adherence_df = List.length patients_df
  /\ inner_join patients_df adherence_df = combine patients_df adherence_df.
Proof.
  intros Hgen. apply generate_inv in Hgen as (-> & -> & ->). cbv zeta.
  split; [apply generated_frames_data_model|].
  split; [apply generated_frames_two_cohorts|].
  split; [apply adherence_run_ids|].
  split; [|apply merged_rows].
  rewrite <- (length_map ma_patient_id), adherence_run_ids. apply length_map.
Qed.

End GeneratedFrames.

Lemma generated_frames_are_consistent_witness :
  exists patients_df adherence_df admissions_df s',
    generate_synthetic_data (F:=spec_float) small_config 42
    = (Ok (patients_df, adherence_df, admissions_df), s')
    /\ data_model (frames_as_tables patients_df adherence_df admissions_df)
    /\ List.length admissions_df = 6%nat.
Proof.
  pose proof (small_config_generates 42) as E.
  do 4 eexists. split; [exact E|].
  split.
  - apply (generated_frames_are_consistent (F:=spec_float) (rng:=Z)
             small_config 42 _ _ _ _ E).
  - vm_compute. reflexivity.
Defined.

(** ** The sizes of the generated cohorts *)

Lemma filter_leb_range (k a b : Z) :
  a <= b ->
  filter (fun i => i <=? k) (range a b) = range a (Z.max a (Z.min b (k + 1))).
Proof.
  remember (Z.to_nat (b - a)) as n eqn:En. revert a En.
  induction n as [|n IH]; intros a En Hab.
  - assert (a = b) as -> by lia.
    now rewrite !range_nil by lia.
  - rewrite (range_cons a b) by lia. cbn [filter].
    rewrite IH by lia.
    destruct (Z.leb_spec a k).
    + rewrite (range_cons a (Z.max a _)) by lia. f_equal. f_equal. lia.
    + rewrite !range_nil by lia. reflexivity.
Qed.

Lemma cohort_ids_by_rank (k : Z) (ps : list patient) :
  (forall p, In p ps ->
     assigned_group p = if patient_id p <=? k then Group_1 else Group_2) ->
  map patient_id (filter (fun p => String.eqb (assigned_group p) Group_1) ps)
  = filter (fun i => i <=? k) (map patient_id ps).
Proof.
  induction ps as [|p ps IH]; intros Hg; [reflexivity|].
  cbn [filter map]. rewrite (Hg p (or_introl eq_refl)).
  rewrite <- IH by (intros q Hq; apply Hg; now right).
  destruct (patient_id p <=? k); reflexivity.
Qed.

Section GeneratedCohorts.
Context {F rng : Type} `{PyFloat F} `{SqlReal F} `{RandomSource F rng}.

Lemma generated_group_1_size (cfg : config F) (s : rng) :
  0 <= TOTAL_PATIENTS cfg ->
  Z.of_nat
    (List.length
       (filter (fun p => String.eqb (assigned_group p) Group_1)
          (fst (patients_run cfg s))))
  = clamp (TOTAL_PATIENTS cfg)
      (ftrunc (fmul (float_of_int (TOTAL_PATIENTS cfg)) (GROUP_1_RATIO cfg))).
Proof.
  intros HN.
  rewrite <- (length_map patient_id).
  rewrite (cohort_ids_by_rank
             (ftrunc (fmul (float_of_int (TOTAL_PATIENTS cfg)) (GROUP_1_RATIO cfg))))
    by (intros p Hp; now apply (patients_run_groups cfg s)).
  rewrite patients_run_ids, filter_leb_range by lia.
  rewrite range_length. unfold clamp. lia.
Qed.

(** X2.  Among the N generated patients, Group 1 has [num_group_1]
    members, cut to the interval [[0, N]], and Group 2 has the others: a
    ratio that makes [num_group_1] zero or negative leaves Group 1 empty,
    one that makes it N or more leaves Group 2 empty. *)
Theorem generated_cohort_sizes
    (cfg : config F) (s s' : rng) (patients_df : list patient)
    (adherence_df : list (adherence F)) (admissions_df : list admission) :
  generate_synthetic_data cfg s
  = (Ok (patients_df, adherence_df, admissions_df), s') ->
  let db := frames_as_tables patients_df adherence_df admissions_df in
  let N := TOTAL_PATIENTS cfg in
  let num_group_1 := ftrunc (fmul (float_of_int N) (GROUP_1_RATIO cfg)) in
  Z.of_nat (List.length patients_df) = N
  /\ cohort_size db Group_1 = clamp N num_group_1
  /\ cohort_size db Group_2 = N - clamp N num_group_1
  /\ (num_group_1 <= 0 -> cohort_size db Group_1 = 0)
  /\ (N <= num_group_1 -> cohort_size db Group_2 = 0).
Proof.
  intros Hgen. cbv zeta.
  assert (HN : 0 < TOTAL_PATIENTS cfg)
    by (eapply generate_inv_positive; eassumption).
  apply generate_inv in Hgen as (-> & -> & ->).
  assert (Hlen : Z.of_nat (List.length (fst (patients_run cfg s)))
                 = TOTAL_PATIENTS cfg).
  { rewrite <- (length_map patient_id), patients_run_ids, range_length. lia. }
  assert (Hg1 : cohort_size
                 (frames_as_tables (fst (patients_run cfg s))
                    (fst (adherence_run cfg s)) (fst (fst (admissions_run cfg s))))
                 Group_1
               = clamp (TOTAL_PATIENTS cfg)
                   (ftrunc (fmul (float_of_int (TOTAL_PATIENTS cfg))
                              (GROUP_1_RATIO cfg)))).
  { unfold cohort_size, cohort. cbn [frames_as_tables patients].
    apply generated_group_1_size. lia. }
  pose proof (cohort_sizes_sum _ (generated_frames_two_cohorts cfg s)) as Hsum.
  cbn [frames_as_tables patients] in Hsum. rewrite Hlen in Hsum.
  split; [exact Hlen|]. split; [exact Hg1|].
  split; [lia|]. rewrite Hg1 in *. unfold clamp in *. split; intros; lia.
Qed.

(** X3.  The outcomes of the generator.  Line 29 raises [OverflowError]
    when the population is beyond the range of floats or the product with
    the ratio is infinite, and [ValueError] when the product is a NaN.
    Otherwise a population that is not positive raises the [KeyError] of
    the merge, before any random draw; a positive one gives three frames,
    the first two non-empty, when every intensity that line 49 passes to
    [np.random.poisson] is accepted, as it is when both configured
    intensities are, and the [ValueError] of that call otherwise. *)
Theorem generator_returns_or_raises (cfg : config F) (s : rng) :
  let N := TOTAL_PATIENTS cfg in
  let product := fmul (float_of_int N) (GROUP_1_RATIO cfg) in
  let rows :=
    inner_join (fst (patients_run cfg s)) (fst (adherence_run cfg s)) in
  (fis_inf (float_of_int N) = true ->
   generate_synthetic_data cfg s = (Raise OverflowError, s))
  /\ (fis_inf (float_of_int N) = false -> fis_nan product = true ->
      generate_synthetic_data cfg s = (Raise ValueError, s))
  /\ (fis_inf (float_of_int N) = false -> fis_nan product = false ->
      fis_inf product = true ->
      generate_synthetic_data cfg s = (Raise OverflowError, s))
  /\ (fis_inf (float_of_int N) = false -> fis_nan product = false ->
      fis_inf product = false ->
      (N <= 0 -> generate_synthetic_data cfg s = (Raise KeyError, s))
      /\ (0 < N -> intensities_accepted cfg rows = true ->
          exists patients_df adherence_df admissions_df s',
            generate_synthetic_data cfg s
            = (Ok (patients_df, adherence_df, admissions_df), s')
            /\ patients_df <> []
            /\ adherence_df <> [])
      /\ (0 < N -> intensities_accepted cfg rows = false ->
          fst (generate_synthetic_data cfg s) = Raise ValueError)
      /\ (poisson_accepts (ADHERENT_PATIENT_ADMISSION_RATE cfg) = true ->
          poisson_accepts (NON_ADHERENT_PATIENT_ADMISSION_RATE cfg) = true ->
          intensities_accepted cfg rows = true)).
Proof.
  cbv zeta. rewrite generate_unfold.
  unfold num_group_1_of, int_times_float, int_of_float.
  split; [intros E1; rewrite E1; reflexivity|].
  split; [intros E1 E2; rewrite E1; cbn [rbind]; rewrite E2; reflexivity|].
  split; [intros E1 E2 E3; rewrite E1; cbn [rbind]; rewrite E2, E3; reflexivity|].
  intros E1 E2 E3. rewrite E1. cbn [rbind]. rewrite E2, E3.
  pose proof (patients_run_ids cfg s) as Hids.
  pose proof (adherence_run_ids cfg s) as Hads.
  split; [|split; [|split]].
  - intros HN. rewrite range_nil in Hids by lia.
    destruct (fst (patients_run cfg s)) as [|p ps] eqn:Eps; [|discriminate].
    f_equal. unfold adherence_run, patients_run.
    rewrite range_nil by lia. reflexivity.
  - intros HN Hacc. rewrite Hacc. rewrite range_cons in Hids by lia.
    destruct (fst (patients_run cfg s)) as [|p ps] eqn:Eps; [discriminate|].
    do 4 eexists. split; [reflexivity|]. split; [discriminate|].
    intros E. rewrite E in Hads. discriminate.
  - intros HN Hacc. rewrite Hacc. rewrite range_cons in Hids by lia.
    destruct (fst (patients_run cfg s)) as [|p ps]; [discriminate|].
    reflexivity.
  - apply intensities_accepted_both.
Qed.

End GeneratedCohorts.

Lemma generated_cohort_sizes_witness :
  exists patients_df adherence_df admissions_df s',
    generate_synthetic_data (F:=spec_float) small_config 42
    = (Ok (patients_df, adherence_df, admissions_df), s')
    /\ cohort_size (frames_as_tables patients_df adherence_df admissions_df)
         Group_1 = 2
    /\ cohort_size (frames_as_tables patients_df adherence_df admissions_df)
         Group_2 = 4.
Proof.
  pose proof (small_config_generates 42) as E.
  do 4 eexists. split; [exact E|].
  destruct (generated_cohort_sizes (F:=spec_float) (rng:=Z)
              small_config 42 _ _ _ _ E) as (_ & H1 & H2 & _).
  rewrite H1, H2. split; vm_compute; reflexivity.
Defined.

Lemma generator_returns_or_raises_witness :
  generate_synthetic_data (F:=spec_float)
    (config_with_ratio 0 (float_of_decimal 5 1)) 42
  = (Raise KeyError, 42)
  /\ generate_synthetic_data (F:=spec_float) (config_with_ratio 6 S754_nan) 42
     = (Raise ValueError, 42)
  /\ generate_synthetic_data (F:=spec_float)
       (config_with_ratio 6 (S754_infinity false)) 42
     = (Raise OverflowError, 42)
  /\ fst (generate_synthetic_data (F:=spec_float)
            (config_with_intensities (float_of_decimal 15 2)
               (float_of_decimal (-40) 2)) 42)
     = Raise ValueError
  /\ exists patients_df adherence_df admissions_df s',
       generate_synthetic_data (F:=spec_float) small_config 42
       = (Ok (patients_df, adherence_df, admissions_df), s').
Proof.
  split; [|split; [|split; [|split]]].
  - apply (generator_returns_or_raises (F:=spec_float) (rng:=Z)
             (config_with_ratio 0 (float_of_decimal 5 1)) 42);
      vm_compute; (reflexivity || discriminate).
  - apply (generator_returns_or_raises (F:=spec_float) (rng:=Z)
             (config_with_ratio 6 S754_nan) 42); reflexivity.
  - apply (generator_returns_or_raises (F:=spec_float) (rng:=Z)
             (config_with_ratio 6 (S754_infinity false)) 42); reflexivity.
  - apply (generator_returns_or_raises (F:=spec_float) (rng:=Z)
             (config_with_intensities (float_of_decimal 15 2)
                (float_of_decimal (-40) 2)) 42);
      vm_compute; reflexivity.
  - destruct (generator_returns_or_raises (F:=spec_float) (rng:=Z)
                small_config 42) as (_ & _ & _ & Hfinite).
    destruct Hfinite as (_ & Hpos & _); try reflexivity.
    destruct (Hpos eq_refl) as (ps & ads & adm & s' & E & _);
      [vm_compute; reflexivity|].
    exists ps, ads, adm, s'. exact E.
Defined.

(** ** The order of the generated admissions *)

Lemma StronglySorted_app {A} (R : A -> A -> Prop) (l1 l2 : list A) :
  StronglySorted R l1 -> StronglySorted R l2 ->
  (forall x y, In x l1 -> In y l2 -> R x y) ->
  StronglySorted R (l1 ++ l2).
Proof.
  induction l1 as [|a l1 IH]; intros H1 H2 Hx; [assumption|].
  inversion H1 as [|? ? S1 A1]; subst. cbn [app]. constructor.
  - apply IH; auto. intros x y Hx1 Hy. apply Hx; [now right | assumption].
  - apply Forall_app. split; [assumption|].
    apply Forall_forall. intros y Hy. apply Hx; [now left | assumption].
Qed.

Lemma range_sorted (a b : Z) : StronglySorted Z.lt (range a b).
Proof.
  remember (Z.to_nat (b - a)) as n eqn:En. revert a En.
  induction n as [|n IH]; intros a En.
  - rewrite range_nil by lia. constructor.
  - rewrite range_cons by lia. constructor; [apply IH; lia|].
    apply Forall_forall. intros i Hi. apply range_In in Hi. lia.
Qed.

Lemma constant_sorted (v : Z) (l : list Z) :
  Forall (fun x => x = v) l -> StronglySorted Z.le l.
Proof.
  induction 1 as [|x l Hx Hall IH]; constructor; [assumption|].
  eapply Forall_impl; [|exact Hall]. intros y Hy. cbv beta in *. lia.
Qed.

Section GeneratedOrder.
Context {F rng : Type} `{PyFloat F} `{SqlReal F} `{RandomSource F rng}.

Lemma admissions_loop_order (cfg : config F) (rows : list (patient * adherence F))
    (c : Z) (s : rng) :
  StronglySorted Z.lt (map (fun r => patient_id (fst r)) rows) ->
  StronglySorted Z.le
    (map ha_patient_id (fst (fst (admissions_loop cfg rows c s)))).
Proof.
  revert c s. induction rows as [|row rest IH]; intros c s Hs.
  - constructor.
  - cbn [map] in Hs. inversion Hs as [|? ? Hrest Hlt]; subst.
    rewrite admissions_loop_cons. cbn [fst snd]. rewrite map_app.
    destruct (patient_admissions_spec cfg row c s) as (_ & _ & _ & Hall).
    cbv zeta in Hall.
    set (first := patient_admissions cfg row c s) in *.
    destruct (admissions_loop_spec cfg rest (snd (fst first)) (snd first))
      as (_ & _ & Hall').
    cbv zeta in Hall'.
    apply StronglySorted_app.
    + apply (constant_sorted (patient_id (fst row))).
      apply Forall_map. eapply Forall_impl; [|exact Hall]. now intros e [Hp _].
    + now apply IH.
    + intros x y Hx Hy.
      apply in_map_iff in Hx as (e & <- & He).
      apply in_map_iff in Hy as (e' & <- & He').
      rewrite Forall_forall in Hall, Hall'.
      destruct (Hall e He) as [-> _].
      destruct (Hall' e' He') as (_ & r & Hr & ->).
      rewrite Forall_forall in Hlt.
      apply Z.lt_le_incl, Hlt.
      now apply (in_map (fun r => patient_id (fst r))).
Qed.

(** X4.  The admissions frame lists the events patient by patient, in
    ascending order of patient id, and numbers them in that order: the
    admission ids increase strictly along the frame and the patient ids
    never decrease. *)
Theorem generated_admissions_are_ordered
    (cfg : config F) (s s' : rng) (patients_df : list patient)
    (adherence_df : list (adherence F)) (admissions_df : list admission) :
  generate_synthetic_data cfg s
  = (Ok (patients_df, adherence_df, admissions_df), s') ->
  StronglySorted Z.lt (map admission_id admissions_df)
  /\ StronglySorted Z.le (map ha_patient_id admissions_df).
Proof.
  intros Hgen. apply generate_inv in Hgen as (-> & -> & ->).
  unfold admissions_run. split.
  - destruct (admissions_loop_spec cfg
                (inner_join (fst (patients_run cfg s)) (fst (adherence_run cfg s)))
                1 (snd (adherence_run cfg s))) as (_ & Hids & _).
    cbv zeta in Hids. rewrite Hids. apply range_sorted.
  - apply admissions_loop_order.
    rewrite merged_rows, <- map_map.
    rewrite (Forall2_map_fst_combine _ _ _ (generated_rows cfg s)).
    rewrite patients_run_ids. apply range_sorted.
Qed.

End GeneratedOrder.

Lemma generated_admissions_are_ordered_witness :
  exists patients_df adherence_df admissions_df s',
    generate_synthetic_data (F:=spec_float) small_config 42
    = (Ok (patients_df, adherence_df, admissions_df), s')
    /\ map ha_patient_id admissions_df = [2; 4; 4; 5; 5; 6]
    /\ StronglySorted Z.le (map ha_patient_id admissions_df).
Proof.
  pose proof (small_config_generates 42) as E.
  do 4 eexists. split; [exact E|].
  split; [vm_compute; reflexivity|].
  apply (generated_admissions_are_ordered (F:=spec_float) (rng:=Z)
           small_config 42 _ _ _ _ E).
Defined.

(** ** The per-cohort divisions *)

Section Divisions.
Context {F : Type} `{PyFloat F} `{SqlReal F}.

Lemma adherence_query_row_bounds (threshold : F) (db : database F) :
  Forall (fun row : string * Z * Z =>
            let '(g, total, adherent) := row in
            1 <= total /\ 0 <= adherent <= total)
    (adherence_query threshold db).
Proof.
  apply Forall_forall. intros [[g total] adherent] Hin.
  unfold adherence_query in Hin.
  apply in_map_iff in Hin as (g' & [= <- <- <-] & Hg).
  apply group_present in Hg as (r & Hr).
  unfold count_star. rewrite sum_case_length.
  pose proof (filter_length_le (fun r => fleb threshold (pdc_score (snd r)))
                (filter (in_group g') (adherence_join db))).
  destruct (filter (in_group g') (adherence_join db)) as [|r' l];
    [contradiction|].
  cbn [List.length] in *. lia.
Qed.

Lemma admissions_query_row_bounds (db : database F) :
  Forall (fun row : string * Z * Z =>
            let '(g, total, adm) := row in 1 <= total /\ 0 <= adm)
    (admissions_query db).
Proof.
  apply Forall_forall. intros [[g total] adm] Hin.
  unfold admissions_query in Hin.
  apply in_map_iff in Hin as (g' & [= <- <- <-] & Hg).
  apply group_present in Hg as (r & Hr).
  unfold count_distinct, count_non_null. split; [|lia].
  assert (Hin : In (patient_id (fst r))
                  (nodup Z.eq_dec
                     (map (fun r => patient_id (fst r))
                        (filter (in_group g') (admissions_join db))))).
  { apply nodup_In. now apply (in_map (fun r => patient_id (fst r))). }
  destruct (nodup _ _) as [|x l]; [contradiction|]. cbn [List.length]. lia.
Qed.

(** X5.  On every database, whatever its rows, the two list
    comprehensions of lines 82-85 and 98-101 return: a group of a grouped
    query has at least one row, so the divisor [row[1]] is at least 1 and
    no division by zero can occur there.  In an adherence record the
    adherent count lies between 0 and the total. *)
Theorem per_cohort_divisions_never_raise (threshold : F) (db : database F) :
  exists adherence_data admissions_data,
    adherence_data_of (adherence_query threshold db) = Ok adherence_data
    /\ admissions_data_of (admissions_query db) = Ok admissions_data
    /\ Forall (fun r => 1 <= adh_total_patients r
                        /\ 0 <= adherent_patients r <= adh_total_patients r)
         adherence_data
    /\ Forall (fun r => 1 <= adm_total_patients r /\ 0 <= total_admissions r)
         admissions_data.
Proof.
  exists (map adherence_record_of (adherence_query threshold db)),
    (map admissions_record_of (admissions_query db)).
  split; [apply adherence_data_of_ok|]. split; [apply admissions_data_of_ok|].
  split.
  - apply Forall_map. eapply Forall_impl; [|apply adherence_query_row_bounds].
    now intros [[g total] adherent].
  - apply Forall_map. eapply Forall_impl; [|apply admissions_query_row_bounds].
    now intros [[g total] adm].
Qed.

End Divisions.

(** ** When a run raises [IndexError] *)

Lemma ascending_NoDup (l : list string) : ascending l -> NoDup l.
Proof.
  unfold ascending. induction 1 as [|a l _ IH Hall]; constructor; [|assumption].
  intros Hin. rewrite Forall_forall in Hall.
  now apply (label_lt_irrefl a), Hall.
Qed.

Section IndexErrors.
Context {F : Type} `{PyFloat F} `{SqlReal F}.

(** Every cohort of the adherence summary is a cohort of the admissions
    summary. *)
Lemma admissions_groups_cover (threshold : F) (db : database F) :
  (List.length (adherence_query threshold db)
   <= List.length (admissions_query db))%nat.
Proof.
  unfold adherence_query, admissions_query. rewrite !length_map.
  apply NoDup_incl_length.
  - apply ascending_NoDup, group_labels_ascending.
  - intros g Hg. rewrite group_labels_In in Hg. rewrite group_labels_In.
    unfold admissions_join. apply left_join_groups.
    unfold adherence_join in Hg.
    exact (inner_join_labels_subset (patients db) (medication_adherence db) g Hg).
Qed.

(** X6.  A run raises [IndexError] exactly when fewer than two cohort
    labels occur among the patients that have an adherence record.  With
    two or more, the subscripts of lines 102-103 cannot fail either, and
    the run raises [ZeroDivisionError] or returns a document; it never
    raises [KeyError]. *)
Theorem index_error_iff_fewer_than_two_cohorts
    (cfg : config F) (db : database F) :
  let labels :=
    group_labels (map (fun r => assigned_group (fst r)) (adherence_join db)) in
  (analysis cfg db = Raise IndexError <-> (List.length labels < 2)%nat)
  /\ ((2 <= List.length labels)%nat ->
      analysis cfg db = Raise ZeroDivisionError
      \/ exists final, analysis cfg db = Ok final)
  /\ analysis cfg db <> Raise KeyError.
Proof.
  cbv zeta.
  assert (Hlen : List.length (adherence_query (threshold_in_sql cfg) db)
                 = List.length
                     (group_labels
                        (map (fun r => assigned_group (fst r)) (adherence_join db))))
    by (unfold adherence_query; apply length_map).
  rewrite <- Hlen.
  assert (Hge : (2 <= List.length (adherence_query (threshold_in_sql cfg) db))%nat ->
                analysis cfg db = Raise ZeroDivisionError
                \/ exists final, analysis cfg db = Ok final).
  { intros H2.
    pose proof (admissions_groups_cover (threshold_in_sql cfg) db) as Hcov.
    destruct (map adherence_record_of (adherence_query (threshold_in_sql cfg) db))
      as [|a0 [|a1 ra]] eqn:Ea;
      try (apply (f_equal (@List.length _)) in Ea; rewrite length_map in Ea;
           cbn [List.length] in Ea; lia).
    destruct (map admissions_record_of (admissions_query db))
      as [|b0 [|b1 rb]] eqn:Eb;
      try (apply (f_equal (@List.length _)) in Eb; rewrite length_map in Eb;
           cbn [List.length] in Eb; lia).
    rewrite (analysis_steps cfg db _ _ _ _ _ _ Ea Eb).
    destruct (fis_zero (adherence_rate a1)); [now left|].
    destruct (fis_zero (admissions_per_1000 b1)); [now left|].
    right. eauto. }
  split; [split|split].
  - intros Herr.
    destruct (Nat.lt_ge_cases
                (List.length (adherence_query (threshold_in_sql cfg) db)) 2)
      as [Hlt|H2]; [assumption|].
    destruct (Hge H2) as [E|[final E]]; rewrite E in Herr; discriminate.
  - apply analysis_index_error.
  - exact Hge.
  - destruct (Nat.lt_ge_cases
                (List.length (adherence_query (threshold_in_sql cfg) db)) 2)
      as [Hlt|H2].
    + rewrite analysis_index_error by assumption. discriminate.
    + destruct (Hge H2) as [E|[final E]]; rewrite E; discriminate.
Qed.

End IndexErrors.

Lemma index_error_iff_fewer_than_two_cohorts_witness :
  analysis default_config (empty_cohort_db spec_float) = Raise IndexError
  /\ exists final, analysis default_config (three_cohorts_db spec_float) = Ok final.
Proof.
  destruct (index_error_iff_fewer_than_two_cohorts default_config
              (empty_cohort_db spec_float)) as (Hiff & _).
  split; [apply Hiff; vm_compute; lia|].
  eexists. vm_compute. reflexivity.
Defined.

(** ** Which runs divide by zero *)

Lemma spec_rate_zero_iff (part total scale : Z) :
  0 < total -> scale <> 0 ->
  fis_zero (spec_rate (F:=Q) part total scale) = true <-> part = 0.
Proof.
  intros Ht Hs. unfold spec_rate. cbn [fis_zero fmul int_div float_of_int Q_float].
  rewrite Qeq_bool_iff.
  destruct total as [|p|p]; try lia.
  unfold Qeq, Qmult, Qdiv, Qinv, inject_Z. simpl.
  split; intros; nia.
Qed.

Section Records.
Context {F : Type} `{PyFloat F} `{SqlReal F}.

Lemma adherence_records_bounds (threshold : F) (db : database F) :
  Forall (fun r => adherence_rate r
                   = spec_rate (adherent_patients r) (adh_total_patients r) 100
                   /\ 1 <= adh_total_patients r
                   /\ 0 <= adherent_patients r <= adh_total_patients r)
    (map adherence_record_of (adherence_query threshold db)).
Proof.
  apply Forall_map. eapply Forall_impl; [|apply adherence_query_row_bounds].
  intros [[g total] adherent] Hb. cbn. intuition.
Qed.

Lemma admissions_records_bounds (db : database F) :
  Forall (fun r => admissions_per_1000 r
                   = spec_rate (total_admissions r) (adm_total_patients r) 1000
                   /\ 1 <= adm_total_patients r
                   /\ 0 <= total_admissions r)
    (map admissions_record_of (admissions_query db)).
Proof.
  apply Forall_map. eapply Forall_impl; [|apply admissions_query_row_bounds].
  intros [[g total] adm] Hb. cbn. intuition.
Qed.

End Records.

(** X7.  In exact arithmetic, once both summaries have two records, the
    run raises [ZeroDivisionError] exactly when cohort B, the second
    record, has no adherent patient or no admission, and returns a
    document exactly when it has both.  A zero count in cohort A raises
    nothing. *)
Theorem zero_division_iff_cohort_b_has_a_zero_count
    (cfg : config Q) (db : database Q)
    (a0 a1 : adherence_record Q) (ra : list (adherence_record Q))
    (b0 b1 : admissions_record Q) (rb : list (admissions_record Q)) :
  adherence_data_of (adherence_query (threshold_in_sql cfg) db)
  = Ok (a0 :: a1 :: ra) ->
  admissions_data_of (admissions_query db) = Ok (b0 :: b1 :: rb) ->
  (analysis cfg db = Raise ZeroDivisionError
   <-> adherent_patients a1 = 0 \/ total_admissions b1 = 0)
  /\ ((exists final, analysis cfg db = Ok final)
      <-> 0 < adherent_patients a1 /\ 0 < total_admissions b1).
Proof.
  intros Ea Eb.
  rewrite adherence_data_of_ok in Ea. injection Ea as Ea.
  rewrite admissions_data_of_ok in Eb. injection Eb as Eb.
  assert (Ea' : map adherence_record_of (adherence_query (threshold_in_sql cfg) db)
                = a0 :: a1 :: ra) by exact Ea.
  pose proof (adherence_records_bounds (threshold_in_sql cfg) db) as Ha.
  pose proof (admissions_records_bounds db) as Hb.
  rewrite Ea' in Ha. rewrite Eb in Hb. clear Ea. rename Ea' into Ea.
  apply Forall_inv_tail, Forall_inv in Ha. destruct Ha as (Hr1 & Ht1 & Hk1).
  apply Forall_inv_tail, Forall_inv in Hb. destruct Hb as (Hp1 & Hn1 & Hm1).
  rewrite (analysis_steps cfg db _ _ _ _ _ _ Ea Eb).
  pose proof (spec_rate_zero_iff (adherent_patients a1) (adh_total_patients a1) 100
                ltac:(lia) ltac:(lia)) as Z1.
  pose proof (spec_rate_zero_iff (total_admissions b1) (adm_total_patients b1) 1000
                ltac:(lia) ltac:(lia)) as Z2.
  rewrite <- Hr1 in Z1. rewrite <- Hp1 in Z2.
  destruct (fis_zero (adherence_rate a1)) eqn:E1.
  - assert (adherent_patients a1 = 0) by now apply Z1.
    split; split.
    + intros _. now left.
    + reflexivity.
    + intros [final Hf]. discriminate.
    + intros [Hpos _]. lia.
  - assert (adherent_patients a1 <> 0) by (intros E; apply Z1 in E; discriminate).
    destruct (fis_zero (admissions_per_1000 b1)) eqn:E2.
    + assert (total_admissions b1 = 0) by now apply Z2.
      split; split.
      * intros _. now right.
      * reflexivity.
      * intros [final Hf]. discriminate.
      * intros [_ Hpos]. lia.
    + assert (total_admissions b1 <> 0) by (intros E; apply Z2 in E; discriminate).
      split; split.
      * discriminate.
      * intros [E|E]; contradiction.
      * intros _. lia.
      * intros _. eauto.
Qed.

Lemma zero_division_iff_cohort_b_has_a_zero_count_witness :
  analysis (@default_config Q _) (zero_rate_db Q) = Raise ZeroDivisionError
  /\ analysis (@default_config Q _) (zero_admissions_db Q) = Raise ZeroDivisionError
  /\ exists final, analysis (@default_config Q _) (sample_db Q) = Ok final.
Proof.
  split; [|split].
  - eapply zero_division_iff_cohort_b_has_a_zero_count;
      [vm_compute; reflexivity | vm_compute; reflexivity | left; reflexivity].
  - eapply zero_division_iff_cohort_b_has_a_zero_count;
      [vm_compute; reflexivity | vm_compute; reflexivity | right; reflexivity].
  - eapply zero_division_iff_cohort_b_has_a_zero_count;
      [vm_compute; reflexivity | vm_compute; reflexivity | split; reflexivity].
Defined.

(** ** Signs and bounds of the summary figures *)

Lemma Qround_ndigits_ge (a x : Q) (ndigits : Z) :
  has_decimals ndigits a -> (a <= x)%Q -> (a <= Qround_ndigits x ndigits)%Q.
Proof.
  intros Ha Hax. rewrite <- (Qround_ndigits_fixed a ndigits Ha).
  now apply Qround_ndigits_mono.
Qed.

Lemma Qround_ndigits_le (b x : Q) (ndigits : Z) :
  has_decimals ndigits b -> (x <= b)%Q -> (Qround_ndigits x ndigits <= b)%Q.
Proof.
  intros Hb Hxb. rewrite <- (Qround_ndigits_fixed b ndigits Hb).
  now apply Qround_ndigits_mono.
Qed.

Lemma has_decimals_0 : has_decimals 2 0.
Proof. exists 0. reflexivity. Qed.

Lemma has_decimals_100 : has_decimals 2 100.
Proof. exists 10000. reflexivity. Qed.

Lemma has_decimals_minus_100 : has_decimals 2 (-100).
Proof. exists (-10000). reflexivity. Qed.

Lemma spec_rate_nonneg (part total scale : Z) :
  0 <= part -> 0 < total -> 0 <= scale ->
  (0 <= spec_rate (F:=Q) part total scale)%Q.
Proof.
  intros Hp Ht Hs. unfold spec_rate. cbn [fmul int_div float_of_int Q_float].
  assert (Ht' : (0 < inject_Z total)%Q) by (unfold Qlt; simpl; lia).
  assert (Hp' : (0 <= inject_Z part)%Q) by (unfold Qle; simpl; lia).
  assert (Hs' : (0 <= inject_Z scale)%Q) by (unfold Qle; simpl; lia).
  assert (Hq0 : (0 <= inject_Z part / inject_Z total)%Q).
  { apply Qle_shift_div_l; [assumption|]. lra. }
  nra.
Qed.

(** X8.  In exact arithmetic, for a run that returns: the uplift is at
    least -100 and the reduction at most 100; the uplift has the sign of
    the difference of the two adherence rates and the reduction that of
    the difference of the two admission rates. *)
Theorem uplift_and_reduction_signs_and_bounds
    (cfg : config Q) (db : database Q) (final : final_results Q) :
  analysis cfg db = Ok final ->
  exists a0 a1 ra b0 b1 rb,
    adherence_analysis final = a0 :: a1 :: ra
    /\ admissions_analysis final = b0 :: b1 :: rb
    /\ (-100 <= adherence_uplift_pct (summary_findings final))%Q
    /\ (hospitalization_reduction_pct (summary_findings final) <= 100)%Q
    /\ ((adherence_rate a1 <= adherence_rate a0)%Q ->
        (0 <= adherence_uplift_pct (summary_findings final))%Q)
    /\ ((adherence_rate a0 <= adherence_rate a1)%Q ->
        (adherence_uplift_pct (summary_findings final) <= 0)%Q)
    /\ ((admissions_per_1000 b0 <= admissions_per_1000 b1)%Q ->
        (0 <= hospitalization_reduction_pct (summary_findings final))%Q)
    /\ ((admissions_per_1000 b1 <= admissions_per_1000 b0)%Q ->
        (hospitalization_reduction_pct (summary_findings final) <= 0)%Q).
Proof.
  intros Hok.
  destruct (analysis_inv cfg db final Hok)
    as (a0 & a1 & ra & b0 & b1 & rb & Ea & Eb & Z1 & Z2 & ->).
  exists a0, a1, ra, b0, b1, rb.
  split; [reflexivity|]. split; [reflexivity|].
  pose proof (adherence_records_bounds (threshold_in_sql cfg) db) as Ha.
  pose proof (admissions_records_bounds db) as Hb.
  rewrite Ea in Ha. rewrite Eb in Hb.
  pose proof (Forall_inv Ha) as (Hr0 & Ht0 & Hk0).
  apply Forall_inv_tail, Forall_inv in Ha. destruct Ha as (Hr1 & Ht1 & Hk1).
  pose proof (Forall_inv Hb) as (Hp0 & Hn0 & Hm0).
  apply Forall_inv_tail, Forall_inv in Hb. destruct Hb as (Hp1 & Hn1 & Hm1).
  assert (A0 : (0 <= adherence_rate a0)%Q)
    by (rewrite Hr0; apply spec_rate_nonneg; lia).
  assert (A1 : (0 < adherence_rate a1)%Q).
  { assert (0 <= adherence_rate a1)%Q
      by (rewrite Hr1; apply spec_rate_nonneg; lia).
    assert (~ (adherence_rate a1 == 0)%Q).
    { intros E. apply Qeq_bool_iff in E.
      cbn [fis_zero Q_float] in Z1. congruence. }
    lra. }
  assert (B0 : (0 <= admissions_per_1000 b0)%Q)
    by (rewrite Hp0; apply spec_rate_nonneg; lia).
  assert (B1 : (0 < admissions_per_1000 b1)%Q).
  { assert (0 <= admissions_per_1000 b1)%Q
      by (rewrite Hp1; apply spec_rate_nonneg; lia).
    assert (~ (admissions_per_1000 b1 == 0)%Q).
    { intros E. apply Qeq_bool_iff in E.
      cbn [fis_zero Q_float] in Z2. congruence. }
    lra. }
  cbn [summary_findings findings adherence_uplift_pct
         hospitalization_reduction_pct cost_savings].
  unfold spec_adherence_uplift, spec_hospitalization_reduction.
  cbn [fround fmul fsub fdiv float_of_int Q_float].
  change (inject_Z 1) with 1%Q. change (inject_Z 100) with 100%Q.
  set (qa := (adherence_rate a0 / adherence_rate a1)%Q).
  set (qb := (admissions_per_1000 b0 / admissions_per_1000 b1)%Q).
  assert (Qa0 : (0 <= qa)%Q) by (apply Qle_shift_div_l; [assumption|lra]).
  assert (Qb0 : (0 <= qb)%Q) by (apply Qle_shift_div_l; [assumption|lra]).
  split; [apply Qround_ndigits_ge; [exact has_decimals_minus_100|lra]|].
  split; [apply Qround_ndigits_le; [exact has_decimals_100|lra]|].
  split.
  { intros Hle. apply Qround_ndigits_ge; [exact has_decimals_0|].
    assert (1 <= qa)%Q by (apply Qle_shift_div_l; [assumption|lra]). lra. }
  split.
  { intros Hle. apply Qround_ndigits_le; [exact has_decimals_0|].
    assert (qa <= 1)%Q by (apply Qle_shift_div_r; [assumption|lra]). lra. }
  split.
  - intros Hle. apply Qround_ndigits_ge; [exact has_decimals_0|].
    assert (qb <= 1)%Q by (apply Qle_shift_div_r; [assumption|lra]). lra.
  - intros Hle. apply Qround_ndigits_le; [exact has_decimals_0|].
    assert (1 <= qb)%Q by (apply Qle_shift_div_l; [assumption|lra]). lra.
Qed.

Lemma uplift_and_reduction_signs_and_bounds_witness :
  exists final,
    analysis (@default_config Q _) (sample_db Q) = Ok final
    /\ (-100 <= adherence_uplift_pct (summary_findings final))%Q
    /\ (hospitalization_reduction_pct (summary_findings final) <= 100)%Q.
Proof.
  eexists. split; [vm_compute; reflexivity|].
  match goal with
  | |- context [summary_findings ?final] =>
      assert (Hok : analysis (@default_config Q _) (sample_db Q) = Ok final)
        by (vm_compute; reflexivity)
  end.
  destruct (uplift_and_reduction_signs_and_bounds _ _ _ Hok)
    as (a0 & a1 & ra & b0 & b1 & rb & _ & _ & Hu & Hr & _).
  split; assumption.
Defined.

(** ** Any number of cohorts *)

Section AnyCohorts.
Context {F : Type} `{PyFloat F} `{SqlReal F}.

(** X9.  Under the data model's invariants and whatever the cohort labels
    are, the two summaries have one record for every label that a patient
    carries, in ascending order of the labels, each with the three counts
    of its cohort; the summary findings compare the cohorts of the two
    smallest labels and ignore the others. *)
Theorem summaries_cover_every_cohort_in_label_order
    (cfg : config F) (db : database F) :
  data_model db ->
  let threshold := threshold_in_sql cfg in
  let labels := group_labels (map assigned_group (patients db)) in
  ascending labels
  /\ (forall g, In g labels
                <-> exists p, In p (patients db) /\ assigned_group p = g)
  /\ adherence_data_of (adherence_query threshold db)
     = Ok (map (adherence_summary threshold db) labels)
  /\ admissions_data_of (admissions_query db)
     = Ok (map (admissions_summary db) labels)
  /\ forall g0 g1 rest final,
       labels = g0 :: g1 :: rest ->
       analysis cfg db = Ok final ->
       summary_findings final
       = findings cfg (adherence_summary threshold db g0)
           (adherence_summary threshold db g1)
           (admissions_summary db g0) (admissions_summary db g1).
Proof.
  intros Hdm. cbv zeta.
  assert (Ha : map adherence_record_of (adherence_query (threshold_in_sql cfg) db)
               = map (adherence_summary (threshold_in_sql cfg) db)
                   (group_labels (map assigned_group (patients db)))).
  { rewrite adherence_query_counts by assumption. now rewrite map_map. }
  assert (Hb : map admissions_record_of (admissions_query db)
               = map (admissions_summary db)
                   (group_labels (map assigned_group (patients db)))).
  { rewrite admissions_query_counts by apply Hdm. now rewrite map_map. }
  split; [apply group_labels_ascending|].
  split.
  { intros g. rewrite group_labels_In, in_map_iff.
    split; intros (p & Hp); exists p; tauto. }
  split; [now rewrite adherence_data_of_ok, Ha|].
  split; [now rewrite admissions_data_of_ok, Hb|].
  intros g0 g1 rest final Hl Hok.
  destruct (analysis_inv cfg db final Hok)
    as (a0 & a1 & ra & b0 & b1 & rb & Ea & Eb & _ & _ & ->).
  rewrite Ha, Hl in Ea. rewrite Hb, Hl in Eb.
  injection Ea as <- <- _. injection Eb as <- <- _. reflexivity.
Qed.

End AnyCohorts.

Lemma three_cohorts_db_data_model (F : Type) `{PyFloat F} :
  data_model (three_cohorts_db F).
Proof.
  split.
  - simpl. repeat constructor; simpl; intuition discriminate.
  - simpl. apply Permutation_refl.
  - intros ha Hin. simpl in Hin |- *.
    repeat (destruct Hin as [<-|Hin]; [simpl; intuition reflexivity|]).
    contradiction.
Qed.

Lemma summaries_cover_every_cohort_in_label_order_witness :
  data_model (three_cohorts_db spec_float)
  /\ exists final,
       analysis default_config (three_cohorts_db spec_float) = Ok final
       /\ map adh_group (adherence_analysis final)
          = [Group_1; Group_2; "Group 3"%string]
       /\ summary_findings final
          = findings default_config
              (adherence_summary (threshold_in_sql default_config)
                 (three_cohorts_db spec_float) Group_1)
              (adherence_summary (threshold_in_sql default_config)
                 (three_cohorts_db spec_float) Group_2)
              (admissions_summary (three_cohorts_db spec_float) Group_1)
              (admissions_summary (three_cohorts_db spec_float) Group_2).
Proof.
  split; [exact (three_cohorts_db_data_model spec_float)|].
  eexists. split; [vm_compute; reflexivity|].
  split; [vm_compute; reflexivity|].
  destruct (summaries_cover_every_cohort_in_label_order default_config
              (three_cohorts_db spec_float)
              (three_cohorts_db_data_model spec_float))
    as (_ & _ & _ & _ & Hsum).
  apply (Hsum Group_1 Group_2 ["Group 3"%string]); [vm_compute; reflexivity|].
  vm_compute. reflexivity.
Defined.

(** ** The summaries lose no row *)

Lemma sum_Z_zero {A} (f : A -> Z) (l : list A) :
  (forall x, In x l -> f x = 0) -> sum_Z (map f l) = 0.
Proof.
  induction l as [|a l IH]; intros Hz; [reflexivity|].
  cbn [map sum_Z fold_right]. fold (sum_Z (map f l)).
  rewrite IH by (intros x Hx; apply Hz; now right).
  rewrite (Hz a) by now left. reflexivity.
Qed.

Lemma sum_Z_add {A} (f h : A -> Z) (l : list A) :
  sum_Z (map (fun x => f x + h x) l) = sum_Z (map f l) + sum_Z (map h l).
Proof.
  induction l as [|a l IH]; [reflexivity|].
  cbn [map sum_Z fold_right].
  fold (sum_Z (map (fun x => f x + h x) l)).
  fold (sum_Z (map f l)). fold (sum_Z (map h l)). lia.
Qed.

(** A test that singles out one element of a duplicate-free list. *)
Lemma sum_Z_indicator {A} (b : A -> bool) (x : A) (l : list A) :
  NoDup l -> In x l ->
  (forall y, In y l -> b y = true <-> y = x) ->
  sum_Z (map (fun y => if b y then 1 else 0) l) = 1.
Proof.
  induction 1 as [|a l Hnin Hnd IH]; intros Hin Hb; [contradiction|].
  cbn [map sum_Z fold_right].
  fold (sum_Z (map (fun y => if b y then 1 else 0) l)).
  destruct Hin as [->|Hin].
  - assert (b x = true) as -> by (apply Hb; [now left|reflexivity]).
    rewrite sum_Z_zero; [reflexivity|].
    intros y Hy. destruct (b y) eqn:E; [|reflexivity].
    apply Hb in E; [|now right]. subst y. contradiction.
  - assert (b a = false) as ->.
    { destruct (b a) eqn:E; [|reflexivity].
      apply Hb in E; [|now left]. subst a. contradiction. }
    rewrite IH; [reflexivity|assumption|].
    intros y Hy. apply Hb. now right.
Qed.

(** Rows that each belong to exactly one of the groups are counted once
    by the groups together. *)
Lemma partition_sum {A} (P : string -> A -> bool) (labels : list string)
    (l : list A) :
  NoDup labels ->
  (forall a, In a l ->
     exists g, In g labels /\ forall g', In g' labels -> P g' a = true <-> g' = g) ->
  sum_Z (map (fun g => Z.of_nat (List.length (filter (P g) l))) labels)
  = Z.of_nat (List.length l).
Proof.
  intros Hnd. induction l as [|a l IH]; intros Hone.
  - apply sum_Z_zero. reflexivity.
  - rewrite (map_ext _
               (fun g => (if P g a then 1 else 0)
                         + Z.of_nat (List.length (filter (P g) l)))).
    2:{ intros g. cbn [filter]. destruct (P g a); cbn [List.length]; lia. }
    rewrite sum_Z_add, IH by (intros x Hx; apply Hone; now right).
    destruct (Hone a (or_introl eq_refl)) as (g & Hg & Hiff).
    rewrite (sum_Z_indicator (fun g' => P g' a) g) by assumption.
    cbn [List.length]. lia.
Qed.

Lemma NoDup_map_inj {A B} (f : A -> B) (l : list A) (x y : A) :
  NoDup (map f l) -> In x l -> In y l -> f x = f y -> x = y.
Proof.
  induction l as [|a l IH]; intros Hnd Hx Hy E; [contradiction|].
  cbn [map] in Hnd. inversion Hnd as [|? ? Hnin Hnd']; subst.
  destruct Hx as [->|Hx], Hy as [->|Hy].
  - reflexivity.
  - exfalso. apply Hnin. rewrite E. now apply in_map.
  - exfalso. apply Hnin. rewrite <- E. now apply in_map.
  - now apply IH.
Qed.

Lemma filter_filter_length {A} (a b : A -> bool) (l : list A) :
  List.length (filter a (filter b l)) = List.length (filter b (filter a l)).
Proof.
  induction l as [|x l IH]; [reflexivity|].
  cbn [filter]. destruct (a x) eqn:Ea, (b x) eqn:Eb; cbn [filter];
    rewrite ?Ea, ?Eb; cbn [List.length]; congruence.
Qed.

Section Conservation.
Context {F : Type} `{PyFloat F} `{SqlReal F}.

Lemma cohort_sizes_add_up (db : database F) :
  sum_Z (map (cohort_size db) (group_labels (map assigned_group (patients db))))
  = Z.of_nat (List.length (patients db)).
Proof.
  unfold cohort_size, cohort.
  apply (partition_sum (fun g p => String.eqb (assigned_group p) g)).
  - apply ascending_NoDup, group_labels_ascending.
  - intros p Hp. exists (assigned_group p). split.
    + apply group_labels_In. now apply in_map.
    + intros g' _. rewrite String.eqb_eq. split; congruence.
Qed.

Lemma cohort_admissions_add_up (db : database F) :
  data_model db ->
  sum_Z (map (cohort_admissions db)
           (group_labels (map assigned_group (patients db))))
  = Z.of_nat (List.length (hospital_admissions db)).
Proof.
  intros [Hnd _ Href]. unfold cohort_admissions.
  apply (partition_sum
           (fun g ha =>
              existsb (fun p => patient_id p =? ha_patient_id ha) (cohort db g))).
  - apply ascending_NoDup, group_labels_ascending.
  - intros ha Hha. apply Href, in_map_iff in Hha as (p & Hid & Hp).
    exists (assigned_group p). split.
    + apply group_labels_In. now apply in_map.
    + intros g' _. rewrite existsb_exists. split.
      * intros (p' & Hp' & E). apply Z.eqb_eq in E.
        apply cohort_In in Hp' as [Hp' <-].
        f_equal. apply (NoDup_map_inj patient_id (patients db)); try assumption.
        congruence.
      * intros ->. exists p. split; [now apply cohort_In|].
        now apply Z.eqb_eq.
Qed.

Lemma adherent_patients_are_adherent_rows (threshold : F) (db : database F) :
  data_model db ->
  List.length (filter (is_adherent_patient threshold db) (patients db))
  = List.length
      (filter (fun ma => fleb threshold (pdc_score ma)) (medication_adherence db)).
Proof.
  intros [Hnd Hperm _].
  rewrite <- (length_map patient_id), <- (length_map ma_patient_id).
  apply Permutation_length, NoDup_Permutation.
  - now apply NoDup_map_filter.
  - apply NoDup_map_filter. eapply Permutation_NoDup; eassumption.
  - intros x. rewrite !in_map_iff. split.
    + intros (p & <- & Hp). apply filter_In in Hp as [Hp Hadh].
      unfold is_adherent_patient in Hadh.
      apply existsb_exists in Hadh as (ma & Hma & Hc).
      apply andb_true_iff in Hc as [Hid Hc]. apply Z.eqb_eq in Hid.
      exists ma. split; [congruence|]. now apply filter_In.
    + intros (ma & <- & Hma). apply filter_In in Hma as [Hma Hc].
      assert (Hin : In (ma_patient_id ma) (map patient_id (patients db))).
      { eapply Permutation_in; [apply Permutation_sym; eassumption|].
        now apply in_map. }
      apply in_map_iff in Hin as (p & Hid & Hp).
      exists p. split; [assumption|]. apply filter_In. split; [assumption|].
      unfold is_adherent_patient. apply existsb_exists.
      exists ma. split; [assumption|].
      apply andb_true_iff. split; [now apply Z.eqb_eq|assumption].
Qed.

Lemma cohort_adherent_add_up (threshold : F) (db : database F) :
  sum_Z (map (cohort_adherent threshold db)
           (group_labels (map assigned_group (patients db))))
  = Z.of_nat (List.length (filter (is_adherent_patient threshold db) (patients db))).
Proof.
  unfold cohort_adherent, cohort.
  rewrite (map_ext _
             (fun g => Z.of_nat
                         (List.length
                            (filter (fun p => String.eqb (assigned_group p) g)
                               (filter (is_adherent_patient threshold db)
                                  (patients db))))))
    by (intros g; now rewrite filter_filter_length).
  apply (partition_sum (fun g p => String.eqb (assigned_group p) g)).
  - apply ascending_NoDup, group_labels_ascending.
  - intros p Hp. apply filter_In in Hp as [Hp _].
    exists (assigned_group p). split.
    + apply group_labels_In. now apply in_map.
    + intros g' _. rewrite String.eqb_eq. split; congruence.
Qed.

(** X10.  Under the data model's invariants the two summaries lose and
    duplicate nothing, however many cohorts there are: the patient totals
    of either summary add up to the number of patients, the adherent
    counts to the number of adherence records that reach the threshold,
    and the admission counts to the number of admission rows. *)
Theorem summaries_account_for_every_row (cfg : config F) (db : database F) :
  data_model db ->
  exists adherence_data admissions_data,
    adherence_data_of (adherence_query (threshold_in_sql cfg) db)
    = Ok adherence_data
    /\ admissions_data_of (admissions_query db) = Ok admissions_data
    /\ sum_Z (map adh_total_patients adherence_data)
       = Z.of_nat (List.length (patients db))
    /\ sum_Z (map adherent_patients adherence_data)
       = Z.of_nat
           (List.length
              (filter (fun ma => fleb (threshold_in_sql cfg) (pdc_score ma))
                 (medication_adherence db)))
    /\ sum_Z (map adm_total_patients admissions_data)
       = Z.of_nat (List.length (patients db))
    /\ sum_Z (map total_admissions admissions_data)
       = Z.of_nat (List.length (hospital_admissions db)).
Proof.
  intros Hdm.
  exists (map adherence_record_of (adherence_query (threshold_in_sql cfg) db)),
    (map admissions_record_of (admissions_query db)).
  split; [apply adherence_data_of_ok|]. split; [apply admissions_data_of_ok|].
  rewrite adherence_query_counts by assumption.
  rewrite admissions_query_counts by apply Hdm.
  rewrite !map_map. cbn [adherence_record_of admissions_record_of
                           adh_total_patients adherent_patients
                           adm_total_patients total_admissions].
  split; [apply cohort_sizes_add_up|].
  split.
  { rewrite <- adherent_patients_are_adherent_rows by assumption.
    apply cohort_adherent_add_up. }
  split; [apply cohort_sizes_add_up|].
  now apply cohort_admissions_add_up.
Qed.

End Conservation.

Lemma summaries_account_for_every_row_witness :
  data_model (three_cohorts_db spec_float)
  /\ exists adherence_data admissions_data,
       adherence_data_of
         (adherence_query (threshold_in_sql default_config)
            (three_cohorts_db spec_float))
       = Ok adherence_data
       /\ admissions_data_of (admissions_query (three_cohorts_db spec_float))
          = Ok admissions_data
       /\ sum_Z (map adh_total_patients adherence_data) = 4
       /\ sum_Z (map adherent_patients adherence_data) = 3
       /\ sum_Z (map total_admissions admissions_data) = 2.
Proof.
  split; [exact (three_cohorts_db_data_model spec_float)|].
  destruct (summaries_account_for_every_row default_config
              (three_cohorts_db spec_float)
              (three_cohorts_db_data_model spec_float))
    as (ad & am & Ea & Eb & H1 & H2 & _ & H4).
  exists ad, am. split; [exact Ea|]. split; [exact Eb|].
  rewrite H1, H2, H4. repeat split; vm_compute; reflexivity.
Defined.

(** ** What the analysis reads *)

Lemma length_filter_map {A B} (f : A -> B) (P : B -> bool) (l : list A) :
  List.length (filter (fun a => P (f a)) l) = List.length (filter P (map f l)).
Proof. now rewrite filter_map_swap, length_map. Qed.

Lemma map_const_repeat {A B} (c : B) (l : list A) :
  map (fun _ => c) l = repeat c (List.length l).
Proof. induction l as [|a l IH]; [reflexivity|]. cbn. now rewrite IH. Qed.

Lemma filter_length_reads {A B} (f : A -> B) (P : B -> bool) (l l' : list A) :
  map f l = map f l' ->
  List.length (filter (fun a => P (f a)) l)
  = List.length (filter (fun a => P (f a)) l').
Proof.
  intros E.
  now rewrite (length_filter_map f P l), (length_filter_map f P l'), E.
Qed.

Lemma filter_filter_length_reads {A B} (f : A -> B) (P Q : B -> bool)
    (l l' : list A) :
  map f l = map f l' ->
  List.length (filter (fun a => Q (f a)) (filter (fun a => P (f a)) l))
  = List.length (filter (fun a => Q (f a)) (filter (fun a => P (f a)) l')).
Proof.
  intros E.
  rewrite (length_filter_map f Q (filter (fun a => P (f a)) l)).
  rewrite (length_filter_map f Q (filter (fun a => P (f a)) l')).
  now rewrite <- (filter_map_swap P f l), <- (filter_map_swap P f l'), E.
Qed.

Lemma map_filter_reads {A B C} (f : A -> B) (P : B -> bool) (h : B -> C)
    (l l' : list A) :
  map f l = map f l' ->
  map (fun a => h (f a)) (filter (fun a => P (f a)) l)
  = map (fun a => h (f a)) (filter (fun a => P (f a)) l').
Proof.
  intros E.
  rewrite <- (map_map f h (filter (fun a => P (f a)) l)).
  rewrite <- (map_map f h (filter (fun a => P (f a)) l')).
  now rewrite <- (filter_map_swap P f l), <- (filter_map_swap P f l'), E.
Qed.

Section Keys.
Context {F : Type} `{PyFloat F} `{SqlReal F}.

(** What the adherence query reads of a joined row: the cohort and the
    score. *)
Lemma adherence_query_reads (threshold : F) (db db' : database F) :
  map (fun r => (assigned_group (fst r), pdc_score (snd r))) (adherence_join db)
  = map (fun r => (assigned_group (fst r), pdc_score (snd r))) (adherence_join db') ->
  adherence_query threshold db = adherence_query threshold db'.
Proof.
  intros E. unfold adherence_query. cbv zeta.
  pose (f := fun r : patient * adherence F =>
               (assigned_group (fst r), pdc_score (snd r))).
  assert (Hl : map (fun r => assigned_group (fst r)) (adherence_join db)
               = map (fun r => assigned_group (fst r)) (adherence_join db')).
  { apply (f_equal (map fst)) in E. now rewrite !map_map in E. }
  rewrite Hl. apply map_ext. intros g.
  unfold count_star. rewrite !sum_case_length.
  rewrite (filter_length_reads f (fun x => String.eqb (fst x) g) _ _ E
           : List.length (filter (in_group g) (adherence_join db))
             = List.length (filter (in_group g) (adherence_join db'))).
  rewrite (filter_filter_length_reads f (fun x => String.eqb (fst x) g)
             (fun x => fleb threshold (snd x)) _ _ E
           : List.length
               (filter (fun r => fleb threshold (pdc_score (snd r)))
                  (filter (in_group g) (adherence_join db)))
             = List.length
                 (filter (fun r => fleb threshold (pdc_score (snd r)))
                    (filter (in_group g) (adherence_join db')))).
  reflexivity.
Qed.

(** What the admissions query reads of a joined row: the patient id, the
    cohort, and whether there is an admission. *)
Lemma admissions_query_reads (db db' : database F) :
  map (fun r => (patient_id (fst r), assigned_group (fst r),
                 match snd r with Some _ => true | None => false end))
    (admissions_join db)
  = map (fun r => (patient_id (fst r), assigned_group (fst r),
                   match snd r with Some _ => true | None => false end))
      (admissions_join db') ->
  admissions_query db = admissions_query db'.
Proof.
  intros E. unfold admissions_query. cbv zeta.
  pose (f := fun r : patient * option admission =>
               (patient_id (fst r), assigned_group (fst r),
                match snd r with Some _ => true | None => false end)).
  assert (Hl : map (fun r => assigned_group (fst r)) (admissions_join db)
               = map (fun r => assigned_group (fst r)) (admissions_join db')).
  { apply (f_equal (map (fun x : Z * string * bool => snd (fst x)))) in E.
    now rewrite !map_map in E. }
  rewrite Hl. apply map_ext. intros g.
  rewrite (map_filter_reads f (fun x => String.eqb (snd (fst x)) g)
             (fun x => fst (fst x)) _ _ E
           : map (fun r => patient_id (fst r))
               (filter (in_group g) (admissions_join db))
             = map (fun r => patient_id (fst r))
                 (filter (in_group g) (admissions_join db'))).
  unfold count_non_null.
  rewrite (filter_map_swap _ _ (filter (in_group g) (admissions_join db))).
  rewrite (filter_map_swap _ _ (filter (in_group g) (admissions_join db'))).
  rewrite !length_map.
  assert (Hext : forall l : list (patient * option admission),
             filter (fun a => match option_map admission_id (snd a) with
                              | Some _ => true
                              | None => false
                              end) l
             = filter (fun r => snd (f r)) l).
  { intros l. apply filter_ext. intros [p [ha|]]; reflexivity. }
  rewrite (Hext (filter (in_group g) (admissions_join db))).
  rewrite (Hext (filter (in_group g) (admissions_join db'))).
  rewrite (filter_filter_length_reads f (fun x => String.eqb (snd (fst x)) g)
             snd _ _ E
           : List.length
               (filter (fun r => snd (f r))
                  (filter (in_group g) (admissions_join db)))
             = List.length
                 (filter (fun r => snd (f r))
                    (filter (in_group g) (admissions_join db')))).
  reflexivity.
Qed.

Lemma inner_join_reads (ps ps' : list patient) (ads : list (adherence F)) :
  Forall2 (fun p p' => patient_id p = patient_id p'
                       /\ assigned_group p = assigned_group p') ps ps' ->
  map (fun r => (assigned_group (fst r), pdc_score (snd r))) (inner_join ps ads)
  = map (fun r => (assigned_group (fst r), pdc_score (snd r))) (inner_join ps' ads).
Proof.
  induction 1 as [|p p' ps ps' [Hid Hg] _ IH]; [reflexivity|].
  unfold inner_join in *. cbn [flat_map]. rewrite !map_app, IH. f_equal.
  rewrite !map_map. cbn [fst snd]. unfold matching. now rewrite Hid, Hg.
Qed.

Lemma admission_rows_reads (p : patient) (hs : list admission) :
  map (fun r => (patient_id (fst r), assigned_group (fst r),
                 match snd r with Some _ => true | None => false end))
    (admission_rows p hs)
  = match filter (fun i => patient_id p =? i) (map ha_patient_id hs) with
    | [] => [(patient_id p, assigned_group p, false)]
    | ids => repeat (patient_id p, assigned_group p, true) (List.length ids)
    end.
Proof.
  unfold admission_rows. rewrite filter_map_swap.
  destruct (filter (fun ha => patient_id p =? ha_patient_id ha) hs)
    as [|ha m]; [reflexivity|].
  rewrite map_map. cbn [fst snd map List.length repeat].
  now rewrite length_map, (map_const_repeat _ m).
Qed.

Lemma left_join_reads (ps ps' : list patient) (hs hs' : list admission) :
  Forall2 (fun p p' => patient_id p = patient_id p'
                       /\ assigned_group p = assigned_group p') ps ps' ->
  map ha_patient_id hs = map ha_patient_id hs' ->
  map (fun r => (patient_id (fst r), assigned_group (fst r),
                 match snd r with Some _ => true | None => false end))
    (left_join ps hs)
  = map (fun r => (patient_id (fst r), assigned_group (fst r),
                   match snd r with Some _ => true | None => false end))
      (left_join ps' hs').
Proof.
  intros Hps Hhs.
  induction Hps as [|p p' ps ps' [Hid Hg] _ IH]; [reflexivity|].
  unfold left_join in *. cbn [flat_map]. rewrite !map_app, IH. f_equal.
  now rewrite !admission_rows_reads, Hhs, Hid, Hg.
Qed.

(** X11.  The analysis reads the patient ids, the cohort labels, the
    scores and the patient ids of the admissions, and nothing else: two
    databases that differ only in the ages, the admission ids and the
    admission dates give the same outcome, the same document or the same
    exception, and leave the same file. *)
Theorem analysis_ignores_ages_dates_and_admission_ids
    (cfg : config F) (db db' : database F) (fs : filesystem F) :
  same_keys db db' ->
  analysis cfg db = analysis cfg db'
  /\ run_analysis_and_export cfg db fs = run_analysis_and_export cfg db' fs.
Proof.
  intros (Hps & Hads & Hhs).
  assert (Ha : adherence_query (threshold_in_sql cfg) db
               = adherence_query (threshold_in_sql cfg) db').
  { apply adherence_query_reads. unfold adherence_join. rewrite <- Hads.
    now apply inner_join_reads. }
  assert (Hb : admissions_query db = admissions_query db').
  { apply admissions_query_reads. unfold admissions_join.
    now apply left_join_reads. }
  assert (E : analysis cfg db = analysis cfg db')
    by (unfold analysis; now rewrite Ha, Hb).
  split; [exact E|]. unfold run_analysis_and_export. now rewrite E.
Qed.

End Keys.

Lemma sample_db_other_ages_same_keys (F : Type) `{PyFloat F} :
  same_keys (sample_db F) (sample_db_other_ages F).
Proof.
  split; [|split].
  - cbn. repeat constructor.
  - reflexivity.
  - reflexivity.
Qed.

Lemma analysis_ignores_ages_dates_and_admission_ids_witness :
  same_keys (sample_db spec_float) (sample_db_other_ages spec_float)
  /\ map age (patients (sample_db spec_float))
     <> map age (patients (sample_db_other_ages spec_float))
  /\ analysis default_config (sample_db spec_float)
     = analysis default_config (sample_db_other_ages spec_float).
Proof.
  split; [exact (sample_db_other_ages_same_keys spec_float)|].
  split; [vm_compute; discriminate|].
  apply (analysis_ignores_ages_dates_and_admission_ids default_config
           (sample_db spec_float) (sample_db_other_ages spec_float)
           (no_file spec_float)
           (sample_db_other_ages_same_keys spec_float)).
Defined.

(** ** From the generator to the summaries *)

Section EndToEnd.
Context {F rng : Type} {float : PyFloat F} {engine : SqlReal F}
  {source : RandomSource F rng}.

Lemma generated_sizes (cfg : config F) (s : rng) :
  0 < TOTAL_PATIENTS cfg ->
  let db := frames_as_tables (fst (patients_run cfg s))
              (fst (adherence_run cfg s)) (fst (fst (admissions_run cfg s))) in
  let N := TOTAL_PATIENTS cfg in
  let num_group_1 := ftrunc (fmul (float_of_int N) (GROUP_1_RATIO cfg)) in
  cohort_size db Group_1 = clamp N num_group_1
  /\ cohort_size db Group_2 = N - clamp N num_group_1.
Proof.
  intros HN. cbv zeta.
  assert (Hlen : Z.of_nat (List.length (fst (patients_run cfg s)))
                 = TOTAL_PATIENTS cfg).
  { rewrite <- (length_map patient_id), patients_run_ids, range_length. lia. }
  assert (H1 : cohort_size
                 (frames_as_tables (fst (patients_run cfg s))
                    (fst (adherence_run cfg s)) (fst (fst (admissions_run cfg s))))
                 Group_1
               = clamp (TOTAL_PATIENTS cfg)
                   (ftrunc (fmul (float_of_int (TOTAL_PATIENTS cfg))
                              (GROUP_1_RATIO cfg)))).
  { unfold cohort_size, cohort. cbn [frames_as_tables patients].
    apply generated_group_1_size. lia. }
  pose proof (cohort_sizes_sum _ (generated_frames_two_cohorts cfg s)) as Hsum.
  cbn [frames_as_tables patients] in Hsum. rewrite Hlen in Hsum.
  split; [exact H1|]. lia.
Qed.

(** X12.  When the generated frames, each with a row, are loaded as the
    three tables and [0 < num_group_1 < N], either summary has exactly two
    records, Group 1
    with [num_group_1] patients and then Group 2 with the other
    [N - num_group_1]; the admission counts of the two records add up to
    the number of generated admissions, and the run does not raise
    [IndexError]. *)
Theorem generated_tables_summarise_to_two_cohorts
    (cfg : config F) (s s' : rng) (patients_df : list patient)
    (adherence_df : list (adherence F)) (admissions_df : list admission) :
  generate_synthetic_data cfg s
  = (Ok (patients_df, adherence_df, admissions_df), s') ->
  admissions_df <> [] ->
  let db := frames_as_tables patients_df adherence_df admissions_df in
  let N := TOTAL_PATIENTS cfg in
  let num_group_1 := ftrunc (fmul (float_of_int N) (GROUP_1_RATIO cfg)) in
  0 < num_group_1 < N ->
  exists a0 a1 b0 b1,
    adherence_data_of (adherence_query (threshold_in_sql cfg) db)
    = Ok [a0; a1]
    /\ admissions_data_of (admissions_query db) = Ok [b0; b1]
    /\ adh_group a0 = Group_1 /\ adh_total_patients a0 = num_group_1
    /\ adh_group a1 = Group_2 /\ adh_total_patients a1 = N - num_group_1
    /\ adm_group b0 = Group_1 /\ adm_total_patients b0 = num_group_1
    /\ adm_group b1 = Group_2 /\ adm_total_patients b1 = N - num_group_1
    /\ total_admissions b0 + total_admissions b1
       = Z.of_nat (List.length admissions_df)
    /\ analysis cfg db <> Raise IndexError.
Proof.
  intros Hgen _. cbv zeta. intros Hk.
  apply generate_inv in Hgen as (-> & -> & ->).
  set (db := frames_as_tables (fst (patients_run cfg s))
               (fst (adherence_run cfg s)) (fst (fst (admissions_run cfg s)))).
  pose proof (generated_frames_data_model cfg s) as Hdm.
  pose proof (generated_frames_two_cohorts cfg s) as Htwo.
  destruct (generated_sizes cfg s ltac:(lia)) as [H1 H2].
  fold db in Hdm, Htwo, H1, H2.
  unfold clamp in H1, H2.
  rewrite Z.min_r, Z.max_r in H1, H2 by lia.
  assert (P1 : 0 < cohort_size db Group_1) by lia.
  assert (P2 : 0 < cohort_size db Group_2) by lia.
  pose proof (adherence_records_two_cohorts (threshold_in_sql cfg) db
                Hdm Htwo P1 P2) as Ea.
  pose proof (admissions_records_two_cohorts db Hdm Htwo P1 P2) as Eb.
  exists (adherence_summary (threshold_in_sql cfg) db Group_1),
    (adherence_summary (threshold_in_sql cfg) db Group_2),
    (admissions_summary db Group_1), (admissions_summary db Group_2).
  split; [now rewrite adherence_data_of_ok, Ea|].
  split; [now rewrite admissions_data_of_ok, Eb|].
  cbn [adherence_summary admissions_summary adh_group adh_total_patients
         adm_group adm_total_patients total_admissions].
  repeat (split; [first [reflexivity | assumption]|]).
  split.
  - pose proof (cohort_admissions_add_up db Hdm) as Hsum.
    rewrite (two_cohort_labels db Htwo P1 P2) in Hsum.
    unfold sum_Z in Hsum. cbn [map fold_right] in Hsum.
    unfold db in Hsum at 3.
    cbn [frames_as_tables hospital_admissions] in Hsum. lia.
  - rewrite (analysis_steps cfg db _ _ _ _ _ _ Ea Eb).
    destruct (fis_zero _); [discriminate|].
    destruct (fis_zero _); discriminate.
Qed.

(** X13.  When the ratio makes [num_group_1] zero or negative, or [N] or
    more, every generated patient is in one cohort, and the analysis of
    the generated tables, each with a row, raises [IndexError] and writes
    no file. *)
Theorem degenerate_ratio_raises_index_error
    (cfg : config F) (s s' : rng) (patients_df : list patient)
    (adherence_df : list (adherence F)) (admissions_df : list admission)
    (fs : filesystem F) :
  generate_synthetic_data cfg s
  = (Ok (patients_df, adherence_df, admissions_df), s') ->
  admissions_df <> [] ->
  let db := frames_as_tables patients_df adherence_df admissions_df in
  let N := TOTAL_PATIENTS cfg in
  let num_group_1 := ftrunc (fmul (float_of_int N) (GROUP_1_RATIO cfg)) in
  num_group_1 <= 0 \/ N <= num_group_1 ->
  (forall g, In g (map assigned_group patients_df) ->
             g = if num_group_1 <=? 0 then Group_2 else Group_1)
  /\ run_analysis_and_export cfg db fs = (Raise IndexError, fs).
Proof.
  intros Hgen _. cbv zeta. intros Hk.
  assert (HN : 0 < TOTAL_PATIENTS cfg)
    by (eapply generate_inv_positive; eassumption).
  apply generate_inv in Hgen as (-> & -> & ->).
  set (db := frames_as_tables (fst (patients_run cfg s))
               (fst (adherence_run cfg s)) (fst (fst (admissions_run cfg s)))).
  pose proof (generated_frames_two_cohorts cfg s) as Htwo.
  destruct (generated_sizes cfg s HN) as [H1 H2].
  fold db in Htwo, H1, H2. unfold clamp in H1, H2.
  split.
  - intros g Hg. apply in_map_iff in Hg as (p & <- & Hp).
    pose proof (patients_run_groups cfg s p Hp) as Hgrp.
    assert (Hid : 1 <= patient_id p <= TOTAL_PATIENTS cfg).
    { assert (Hin : In (patient_id p) (map patient_id (fst (patients_run cfg s))))
        by now apply in_map.
      rewrite patients_run_ids in Hin. apply range_In in Hin. lia. }
    rewrite Hgrp.
    destruct (Z.leb_spec (patient_id p)
                (ftrunc (fmul (float_of_int (TOTAL_PATIENTS cfg))
                           (GROUP_1_RATIO cfg))));
      destruct (Z.leb_spec
                  (ftrunc (fmul (float_of_int (TOTAL_PATIENTS cfg))
                             (GROUP_1_RATIO cfg))) 0);
      try reflexivity; lia.
  - unfold run_analysis_and_export.
    rewrite (empty_cohort_index_error cfg db Htwo); [reflexivity|].
    destruct Hk as [Hk|Hk]; [left|right]; lia.
Qed.

End EndToEnd.

Lemma generated_tables_summarise_to_two_cohorts_witness :
  exists patients_df adherence_df admissions_df s' a0 a1 b0 b1,
    generate_synthetic_data (F:=spec_float) small_config 42
    = (Ok (patients_df, adherence_df, admissions_df), s')
    /\ adherence_data_of
         (adherence_query (threshold_in_sql small_config)
            (frames_as_tables patients_df adherence_df admissions_df))
       = Ok [a0; a1]
    /\ admissions_data_of
         (admissions_query
            (frames_as_tables patients_df adherence_df admissions_df))
       = Ok [b0; b1]
    /\ adh_total_patients a0 = 2 /\ adh_total_patients a1 = 4
    /\ total_admissions b0 + total_admissions b1 = 6.
Proof.
  pose proof (small_config_generates 42) as E.
  assert (Hrows : fst (fst (admissions_run (F:=spec_float) (rng:=Z)
                              small_config 42)) <> [])
    by (vm_compute; discriminate).
  pose proof (generated_tables_summarise_to_two_cohorts (F:=spec_float) (rng:=Z)
                small_config 42 _ _ _ _ E Hrows) as W.
  cbv zeta in W.
  destruct W as (a0 & a1 & b0 & b1 & Ea & Eb & _ & T0 & _ & T1 & _ & _ & _ & _
                 & Hadm & _);
    [vm_compute; split; reflexivity|].
  do 4 eexists. exists a0, a1, b0, b1.
  split; [exact E|]. split; [exact Ea|]. split; [exact Eb|].
  rewrite T0, T1, Hadm. repeat split; vm_compute; reflexivity.
Defined.

Lemma degenerate_ratio_raises_index_error_witness :
  exists patients_df adherence_df admissions_df s',
    generate_synthetic_data (F:=spec_float)
      (config_with_ratio 6 (float_of_int 1)) 42
    = (Ok (patients_df, adherence_df, admissions_df), s')
    /\ admissions_df <> []
    /\ run_analysis_and_export (config_with_ratio 6 (float_of_int 1))
         (frames_as_tables patients_df adherence_df admissions_df)
         (no_file spec_float)
       = (Raise IndexError, no_file spec_float).
Proof.
  pose proof (ratio_config_generates 6 6 42 (float_of_int 1) eq_refl eq_refl)
    as E.
  assert (Hrows : fst (fst (admissions_run (F:=spec_float) (rng:=Z)
                              (config_with_ratio 6 (float_of_int 1)) 42)) <> [])
    by (vm_compute; discriminate).
  do 4 eexists. split; [exact E|]. split; [exact Hrows|].
  apply (degenerate_ratio_raises_index_error (F:=spec_float) (rng:=Z)
           (config_with_ratio 6 (float_of_int 1)) 42 _ _ _ _
           (no_file spec_float) E Hrows).
  right. vm_compute. discriminate.
Defined.
